(** * terraform-provider-putio: the default plan modifiers, the provider
      configuration and the [putio_rss_feed] resource

    A shallow embedding of the int64 default modifier of
    [internal/modifiers], of the provider ([Configure],
    [convertProviderType]) and of the resource handlers of
    [internal/provider/rss_feed_resource.go] ([Create], [Read], [Update],
    [Delete]), with the parts of the Go standard library, of
    terraform-plugin-framework and of go-putio that they call.

    Conventions.
    - Go [string]s are byte strings: [string].  Go [int] and [int64] are [Z];
      the conversion [int64(x)] is written with its wrap-around.
    - Go maps ([url.Values], [http.Header], the attributes of a Terraform
      object) are [gmap]s.
    - An [error] is represented by the text its [Error()] method returns.
    - A handler receives its response through a pointer that the framework
      has filled in beforehand; here it takes the response and returns the
      updated one.
    - What the client library does (building a client, validating the
      token, sending a request) is recorded in a log of events that is
      threaded through the code; dereferencing a nil pointer ends the
      computation with [Panicked].
    - What the network and the service answer is part of the client value:
      the handlers are functions of it. *)

From Stdlib Require Import ZArith String Ascii DecimalString Decimal DecimalPos DecimalZ.
From stdpp Require Import gmap strings list fin_maps sorting.

Open Scope Z_scope.
Open Scope string_scope.

(* ===================================================================== *)
(** * Go standard library *)
(* ===================================================================== *)

(** [int64(x)]: the value of [x] reduced to 64 bits, two's complement. *)
Definition int64 (x : Z) : Z := (x + 2 ^ 63) mod 2 ^ 64 - 2 ^ 63.

Module strconv.

(** [strconv.FormatInt(i, 10)]: optional minus sign, then the decimal
    digits without leading zeros; zero is ["0"]. *)
Definition FormatInt10 (i : Z) : string := NilZero.string_of_int (Z.to_int i).

(** [func Itoa(i int) string { return FormatInt(int64(i), 10) }] *)
Definition Itoa (i : Z) : string := FormatInt10 (int64 i).

End strconv.

Module fmt.

(** [fmt.Sprintf("%t", b)] *)
Definition Sprintf_t (b : bool) : string := if b then "true" else "false".

End fmt.

Module url.

(** [type Values map[string][]string] *)
Abbreviation Values := (gmap string (list string)).

(** [func (v Values) Set(key, value string) { v[key] = []string{value} }] *)
Definition Set_ (key value : string) (v : Values) : Values := <[key := [value]]> v.

Definition upperhex (n : N) : ascii :=
  match n with
  | 0 => "0" | 1 => "1" | 2 => "2" | 3 => "3" | 4 => "4" | 5 => "5"
  | 6 => "6" | 7 => "7" | 8 => "8" | 9 => "9" | 10 => "A" | 11 => "B"
  | 12 => "C" | 13 => "D" | 14 => "E" | _ => "F"
  end%N%char.

(** [shouldEscape(c, encodeQueryComponent)]: letters, digits and the marks
    [-], [_], [.], [~] are kept, every other byte is escaped. *)
Definition shouldEscape (c : ascii) : bool :=
  let n := N_of_ascii c in
  if ((97 <=? n) && (n <=? 122) || (65 <=? n) && (n <=? 90)
      || (48 <=? n) && (n <=? 57))%N then false
  else if ((n =? 45) || (n =? 95) || (n =? 46) || (n =? 126))%N then false
  else true.

(** [url.QueryEscape]: a space becomes [+], an escaped byte becomes [%XX]. *)
Fixpoint QueryEscape (s : string) : string :=
  match s with
  | EmptyString => EmptyString
  | String c rest =>
      if (N_of_ascii c =? 32)%N then String "+" (QueryEscape rest)
      else if shouldEscape c then
        String "%" (String (upperhex (N.shiftr (N_of_ascii c) 4))
                      (String (upperhex (N.land (N_of_ascii c) 15))
                         (QueryEscape rest)))
      else String c (QueryEscape rest)
  end.

Definition string_le (a b : string) : Prop := String.leb a b = true.

#[global] Instance string_le_dec (a b : string) : Decision (string_le a b) :=
  bool_eq_dec (String.leb a b) true.

Definition sorted_keys (v : Values) : list string :=
  merge_sort string_le (map_to_list v).*1.

(** The inner loop of [Encode]: one [key=value] pair per value of the key,
    separated from what is already in the buffer by [&]. *)
Fixpoint write_values (keyEscaped : string) (vs : list string) (buf : string) : string :=
  match vs with
  | [] => buf
  | v :: vs' =>
      let buf := if (String.length buf =? 0)%nat then buf else buf ++ "&" in
      write_values keyEscaped vs' (buf ++ keyEscaped ++ "=" ++ QueryEscape v)
  end.

(** [func (v Values) Encode() string]: the pairs, sorted by key. *)
Definition Encode (v : Values) : string :=
  fold_left
    (fun buf k => write_values (QueryEscape k) (default [] (v !! k)) buf)
    (sorted_keys v) "".

End url.

Module http.

(** [type Header map[string][]string]; the keys used here are already in
    canonical form. *)
Abbreviation Header := (gmap string (list string)).

Definition Header_Set (key value : string) (h : Header) : Header := <[key := [value]]> h.

Definition Header_Add (key value : string) (h : Header) : Header :=
  <[key := (default [] (h !! key) ++ [value])%list]> h.

Record Request := mkRequest {
  Method : string;
  URL : string;
  Header_ : Header;
  Body : string;
}.

Definition MethodGet : string := "GET".
Definition MethodPost : string := "POST".

(** [http.NoBody] *)
Definition NoBody : string := "".

Definition with_Header (f : Header -> Header) (r : Request) : Request :=
  {| Method := Method r; URL := URL r; Header_ := f (Header_ r); Body := Body r |}.

End http.

(* ===================================================================== *)
(** * terraform-plugin-framework *)
(* ===================================================================== *)

Module diag.

Inductive Severity := SeverityInvalid | SeverityError | SeverityWarning.

Record Diagnostic := mkDiagnostic {
  Severity_ : Severity;
  Summary : string;
  Detail : string;
}.

#[global] Instance Severity_eq_dec : EqDecision Severity.
Proof. solve_decision. Defined.

#[global] Instance Diagnostic_eq_dec : EqDecision Diagnostic.
Proof. solve_decision. Defined.

Abbreviation Diagnostics := (list Diagnostic).

Definition NewErrorDiagnostic (summary detail : string) : Diagnostic :=
  mkDiagnostic SeverityError summary detail.

(** [Contains]: some element of the collection is [Equal] to the argument. *)
Definition Contains (diags : Diagnostics) (d : Diagnostic) : bool :=
  bool_decide (d ∈ diags).

(** [Append] adds the given diagnostics in order and skips those the
    collection already contains. *)
Fixpoint Append (diags : Diagnostics) (new : list Diagnostic) : Diagnostics :=
  match new with
  | [] => diags
  | d :: rest =>
      if Contains diags d then Append diags rest
      else Append (diags ++ [d])%list rest
  end.

Definition AddError (summary detail : string) (diags : Diagnostics) : Diagnostics :=
  Append diags [NewErrorDiagnostic summary detail].

Definition HasError (diags : Diagnostics) : bool :=
  existsb (fun d => bool_decide (Severity_ d = SeverityError)) diags.

End diag.

Module tftypes.

(** A primitive [tftypes.Value]: null, unknown, or a known string, number
    or boolean.  Known numbers are taken at their integer values. *)
Inductive Value :=
| VNull
| VUnknown
| VString (s : string)
| VNumber (n : Z)
| VBool (b : bool).

#[global] Instance Value_eq_dec : EqDecision Value.
Proof. solve_decision. Defined.

(** The attributes of an object value. *)
Abbreviation Object := (gmap string Value).

End tftypes.

Module types.

(** [type String struct { Unknown bool; Null bool; Value string }] *)
Record String := mkString {
  String_Unknown : bool;
  String_Null : bool;
  String_Value : string;
}.

(** [type Int64 struct { Unknown bool; Null bool; Value int64 }] *)
Record Int64 := mkInt64 {
  Int64_Unknown : bool;
  Int64_Null : bool;
  Int64_Value : Z;
}.

(** [type Bool struct { Unknown bool; Null bool; Value bool }] *)
Record Bool := mkBool {
  Bool_Unknown : bool;
  Bool_Null : bool;
  Bool_Value : bool;
}.

(** [ToTerraformValue]: null first, then unknown, then the value.  The
    value of an [Int64] is a Go [int64]: the number it stands for is the
    one it has in 64 bits. *)
Definition String_ToTerraformValue (s : String) : tftypes.Value :=
  if String_Null s then tftypes.VNull
  else if String_Unknown s then tftypes.VUnknown
  else tftypes.VString (String_Value s).

Definition Int64_ToTerraformValue (i : Int64) : tftypes.Value :=
  if Int64_Null i then tftypes.VNull
  else if Int64_Unknown i then tftypes.VUnknown
  else tftypes.VNumber (int64 (Int64_Value i)).

Definition Bool_ToTerraformValue (b : Bool) : tftypes.Value :=
  if Bool_Null b then tftypes.VNull
  else if Bool_Unknown b then tftypes.VUnknown
  else tftypes.VBool (Bool_Value b).

(** [ValueFromTerraform] of [StringType], [Int64Type] and [BoolType]: an
    unknown or null value sets the flag and leaves [Value] at its zero
    value; a known value of another type, or a number outside int64, is
    an error. *)
Definition String_ValueFromTerraform (v : tftypes.Value) : option String :=
  match v with
  | tftypes.VUnknown => Some (mkString true false "")
  | tftypes.VNull => Some (mkString false true "")
  | tftypes.VString s => Some (mkString false false s)
  | _ => None
  end.

Definition Int64_ValueFromTerraform (v : tftypes.Value) : option Int64 :=
  match v with
  | tftypes.VUnknown => Some (mkInt64 true false 0)
  | tftypes.VNull => Some (mkInt64 false true 0)
  | tftypes.VNumber n =>
      if bool_decide (- 2 ^ 63 <= n < 2 ^ 63) then Some (mkInt64 false false n)
      else None
  | _ => None
  end.

Definition Bool_ValueFromTerraform (v : tftypes.Value) : option Bool :=
  match v with
  | tftypes.VUnknown => Some (mkBool true false false)
  | tftypes.VNull => Some (mkBool false true false)
  | tftypes.VBool b => Some (mkBool false false b)
  | _ => None
  end.

End types.

Module attr.

(** The [attr.Value]s that occur in this provider. *)
Inductive Value :=
| OfString (v : types.String)
| OfInt64 (v : types.Int64)
| OfBool (v : types.Bool).

Definition ToTerraformValue (v : Value) : tftypes.Value :=
  match v with
  | OfString s => types.String_ToTerraformValue s
  | OfInt64 i => types.Int64_ToTerraformValue i
  | OfBool b => types.Bool_ToTerraformValue b
  end.

Definition IsNull (v : Value) : bool :=
  bool_decide (ToTerraformValue v = tftypes.VNull).

Definition IsUnknown (v : Value) : bool :=
  bool_decide (ToTerraformValue v = tftypes.VUnknown).

End attr.

Module tfsdk.

(** The raw value of a [Config], a [Plan] or a [State]: a null object or
    an object with attributes. *)
Abbreviation Raw := (option tftypes.Object).

Definition conversion_error : diag.Diagnostic :=
  diag.NewErrorDiagnostic "Value Conversion Error"
    "An unexpected error was encountered trying to convert the value.".

(** [tfsdk.ValueAs(ctx, val, &target)] for a target of type [types.Int64],
    [types.Bool] or [types.String]: the value goes through its Terraform
    form; a value of another type is a conversion error and leaves the
    target at its zero value. *)
Definition ValueAs_Int64 (val : attr.Value) : types.Int64 * diag.Diagnostics :=
  match val with
  | attr.OfInt64 i =>
      match types.Int64_ValueFromTerraform (types.Int64_ToTerraformValue i) with
      | Some r => (r, [])
      | None => (types.mkInt64 false false 0, [conversion_error])
      end
  | _ => (types.mkInt64 false false 0, [conversion_error])
  end.

Definition ValueAs_Bool (val : attr.Value) : types.Bool * diag.Diagnostics :=
  match val with
  | attr.OfBool b =>
      match types.Bool_ValueFromTerraform (types.Bool_ToTerraformValue b) with
      | Some r => (r, [])
      | None => (types.mkBool false false false, [conversion_error])
      end
  | _ => (types.mkBool false false false, [conversion_error])
  end.

Definition ValueAs_String (val : attr.Value) : types.String * diag.Diagnostics :=
  match val with
  | attr.OfString s =>
      match types.String_ValueFromTerraform (types.String_ToTerraformValue s) with
      | Some r => (r, [])
      | None => (types.mkString false false "", [conversion_error])
      end
  | _ => (types.mkString false false "", [conversion_error])
  end.

Record ModifyAttributePlanRequest := mkModifyAttributePlanRequest {
  AttributeConfig : attr.Value;
  AttributeState : attr.Value;
  AttributePlan : attr.Value;
}.

Record ModifyAttributePlanResponse := mkModifyAttributePlanResponse {
  resp_AttributePlan : attr.Value;
  resp_RequiresReplace : bool;
  resp_Diagnostics : diag.Diagnostics;
}.

(** [tfsdk.UseStateForUnknown()]: an unknown planned value of a resource
    that already has a state value becomes that state value. *)
Definition UseStateForUnknown_Modify
    (req : ModifyAttributePlanRequest) (resp : ModifyAttributePlanResponse)
    : ModifyAttributePlanResponse :=
  if attr.IsNull (AttributeState req) then resp
  else if negb (attr.IsUnknown (resp_AttributePlan resp)) then resp
  else if attr.IsUnknown (AttributeConfig req) then resp
  else mkModifyAttributePlanResponse (AttributeState req)
         (resp_RequiresReplace resp) (resp_Diagnostics resp).

End tfsdk.

(* ===================================================================== *)
(** * Running Go code: panics and the log of client events *)
(* ===================================================================== *)

Inductive Outcome (A : Type) : Type :=
| Returned (a : A)
| Panicked.
Arguments Returned {A} a.
Arguments Panicked {A}.

(** What the put.io client library did on behalf of the provider. *)
Inductive Event :=
| NewClientCalled (token : string)
| ValidateTokenCalled
| DoCalled (request : http.Request).

(** A Go computation reads and extends the log, and returns or panics. *)
Definition Go (A : Type) : Type := list Event -> Outcome (A * list Event).

#[global] Instance Go_ret : MRet Go := fun A a log => Returned (a, log).

#[global] Instance Go_bind : MBind Go := fun A B f m log =>
  match m log with
  | Returned (a, log') => f a log'
  | Panicked => Panicked
  end.

Definition emit (e : Event) : Go unit := fun log => Returned (tt, (log ++ [e])%list).

Definition panic {A : Type} : Go A := fun _ => Panicked.

(** [*p] *)
Definition deref {A : Type} (p : option A) : Go A :=
  match p with
  | Some a => mret a
  | None => panic
  end.

(** [p == nil] *)
Definition is_nil {A : Type} (p : option A) : bool :=
  match p with
  | Some _ => false
  | None => true
  end.

(** A Go result pair [(value, err)]. *)
Inductive result (A : Type) : Type :=
| Ok (a : A)
| Err (err : string).
Arguments Ok {A} a.
Arguments Err {A} err.

(* ===================================================================== *)
(** * github.com/putdotio/go-putio *)
(* ===================================================================== *)

Module putio.

(** A client: its base URL and user agent, and what the network and the
    service answer.  [V] is the type the JSON response is decoded into. *)
Record Client (V : Type) := mkClient {
  BaseURL : string;
  UserAgent : string;
  (** the error of parsing the address or of [http.NewRequest], if any *)
  request_error : string -> string -> option string;
  (** the outcome of sending a request: the decoded response, or the
      error of the transport, of a status outside 2xx, or of decoding *)
  round_trip : http.Request -> result V;
  (** the outcome of [GET /v2/oauth2/validate] *)
  validate : option string;
}.
Arguments BaseURL {V} c.
Arguments UserAgent {V} c.
Arguments request_error {V} c.
Arguments round_trip {V} c.
Arguments validate {V} c.

(** The request that [NewRequest] returns when nothing fails: the address
    under the base URL, the headers of the client, the body.  go-putio
    resolves the address against the base URL; for a base URL without a path
    and an address that is an absolute path without dot segments, spaces or
    a fragment, as the constant addresses of the handlers and those made of
    a decimal identifier are, the resolved address is the concatenation
    written here. *)
Definition request_for {V} (c : Client V) (method relURL body : string) : http.Request :=
  http.mkRequest method (BaseURL c ++ relURL)
    (http.Header_Set "User-Agent" (UserAgent c)
       (http.Header_Set "Accept" "application/json" ∅))
    body.

(** [func (c *Client) NewRequest(ctx, method, relURL, body)].  The client
    is dereferenced first; go-putio parses the address before it reads the
    client, which differs only for a nil client with an address that does
    not parse. *)
Definition NewRequest {V} (c : option (Client V)) (method relURL body : string)
    : Go (result http.Request) :=
  c ← deref c;
  match request_error c method relURL with
  | Some err => mret (Err err)
  | None => mret (Ok (request_for c method relURL body))
  end.

(** [func (c *Client) Do(r *http.Request, v interface{})] *)
Definition Do {V} (c : option (Client V)) (r : http.Request) : Go (result V) :=
  c ← deref c;
  emit (DoCalled r);;
  mret (round_trip c r).

(** [func (c *Client) ValidateToken(ctx)]; only the error is used. *)
Definition ValidateToken {V} (c : option (Client V)) : Go (option string) :=
  c ← deref c;
  emit ValidateTokenCalled;;
  mret (validate c).

End putio.

(* ===================================================================== *)
(** * internal/modifiers *)
(* ===================================================================== *)

Module modifiers.

Import tfsdk.

Definition set_Diagnostics (d : diag.Diagnostics) (resp : ModifyAttributePlanResponse)
    : ModifyAttributePlanResponse :=
  mkModifyAttributePlanResponse (resp_AttributePlan resp) (resp_RequiresReplace resp) d.

Definition set_AttributePlan (v : attr.Value) (resp : ModifyAttributePlanResponse)
    : ModifyAttributePlanResponse :=
  mkModifyAttributePlanResponse v (resp_RequiresReplace resp) (resp_Diagnostics resp).

(** [type int64DefaultModifier struct { Default int64 }] *)
Record int64DefaultModifier := mkInt64DefaultModifier { Default : Z }.

(** [func (m int64DefaultModifier) Description] *)
Definition int64DefaultModifier_Description (m : int64DefaultModifier) : string :=
  "If value is not configured, defaults to " ++ strconv.FormatInt10 (Default m).

(** [func (m int64DefaultModifier) MarkdownDescription] *)
Definition int64DefaultModifier_MarkdownDescription (m : int64DefaultModifier) : string :=
  "If value is not configured, defaults to `" ++ strconv.FormatInt10 (Default m) ++ "`".

(** [func (m int64DefaultModifier) Modify(ctx, req, resp)] *)
Definition int64DefaultModifier_Modify (m : int64DefaultModifier)
    (req : ModifyAttributePlanRequest) (resp : ModifyAttributePlanResponse)
    : ModifyAttributePlanResponse :=
  let '(str, diags) := ValueAs_Int64 (AttributePlan req) in
  let resp := set_Diagnostics (diag.Append (resp_Diagnostics resp) diags) resp in
  if diag.HasError diags then resp
  else if negb (types.Int64_Null str) then resp
  else set_AttributePlan (attr.OfInt64 (types.mkInt64 false false (Default m))) resp.

(** Modelled from the spec: the boolean default modifier behind
    [modifiers.BoolDefault], whose Go source is missing.  The spec gives
    every default modifier one contract: it is parameterized by a fixed
    literal default of one primitive type. *)
Record boolDefaultModifier := mkBoolDefaultModifier { BoolDefault_ : bool }.

(** Modelled from the spec: [Modify] of the boolean default modifier, whose
    Go source is missing.  "Examine the attribute's planned value; if that
    value is explicitly null, overwrite the planned value with the
    configured default; otherwise leave the plan untouched."  It is written
    after the int64 modifier, with [types.Bool] in place of [types.Int64]. *)
Definition boolDefaultModifier_Modify (m : boolDefaultModifier)
    (req : ModifyAttributePlanRequest) (resp : ModifyAttributePlanResponse)
    : ModifyAttributePlanResponse :=
  let '(b, diags) := ValueAs_Bool (AttributePlan req) in
  let resp := set_Diagnostics (diag.Append (resp_Diagnostics resp) diags) resp in
  if diag.HasError diags then resp
  else if negb (types.Bool_Null b) then resp
  else set_AttributePlan (attr.OfBool (types.mkBool false false (BoolDefault_ m))) resp.

(** Modelled from the spec: the string default modifier behind
    [modifiers.StringDefault], whose Go source is missing; a fixed literal
    default of type string. *)
Record stringDefaultModifier := mkStringDefaultModifier { StringDefault_ : string }.

(** Modelled from the spec: [Modify] of the string default modifier, whose
    Go source is missing; the same contract, with [types.String]. *)
Definition stringDefaultModifier_Modify (m : stringDefaultModifier)
    (req : ModifyAttributePlanRequest) (resp : ModifyAttributePlanResponse)
    : ModifyAttributePlanResponse :=
  let '(s, diags) := ValueAs_String (AttributePlan req) in
  let resp := set_Diagnostics (diag.Append (resp_Diagnostics resp) diags) resp in
  if diag.HasError diags then resp
  else if negb (types.String_Null s) then resp
  else set_AttributePlan (attr.OfString (types.mkString false false (StringDefault_ m))) resp.

(** The implementations of the interface [tfsdk.AttributePlanModifier]
    that the schema of this provider uses. *)
Inductive AttributePlanModifier :=
| UseStateForUnknown
| OfInt64Default (m : int64DefaultModifier)
| OfBoolDefault (m : boolDefaultModifier)
| OfStringDefault (m : stringDefaultModifier).

Definition Modify (pm : AttributePlanModifier)
    (req : ModifyAttributePlanRequest) (resp : ModifyAttributePlanResponse)
    : ModifyAttributePlanResponse :=
  match pm with
  | UseStateForUnknown => UseStateForUnknown_Modify req resp
  | OfInt64Default m => int64DefaultModifier_Modify m req resp
  | OfBoolDefault m => boolDefaultModifier_Modify m req resp
  | OfStringDefault m => stringDefaultModifier_Modify m req resp
  end.

(** [func In64Default(defaultValue int64) tfsdk.AttributePlanModifier] *)
Definition In64Default (defaultValue : Z) : AttributePlanModifier :=
  OfInt64Default (mkInt64DefaultModifier defaultValue).

(** Modelled from the spec: [modifiers.BoolDefault], whose Go source is
    missing; the schema calls it as it calls [In64Default]. *)
Definition BoolDefault (defaultValue : bool) : AttributePlanModifier :=
  OfBoolDefault (mkBoolDefaultModifier defaultValue).

(** Modelled from the spec: [modifiers.StringDefault], whose Go source is
    missing; the schema calls it as it calls [In64Default]. *)
Definition StringDefault (defaultValue : string) : AttributePlanModifier :=
  OfStringDefault (mkStringDefaultModifier defaultValue).

(** The framework's loop over the plan modifiers of one attribute: each
    modifier starts from the planned value its predecessor left, and the
    loop stops at the first modifier that reports an error. *)
Fixpoint modifyPlan (pms : list AttributePlanModifier)
    (req : ModifyAttributePlanRequest) (diags : diag.Diagnostics)
    : attr.Value * diag.Diagnostics :=
  match pms with
  | [] => (AttributePlan req, diags)
  | pm :: rest =>
      let modifyResp :=
        Modify pm req (mkModifyAttributePlanResponse (AttributePlan req) false []) in
      let req := mkModifyAttributePlanRequest (AttributeConfig req) (AttributeState req)
                   (resp_AttributePlan modifyResp) in
      let diags := diag.Append diags (resp_Diagnostics modifyResp) in
      if diag.HasError (resp_Diagnostics modifyResp) then (AttributePlan req, diags)
      else modifyPlan rest req diags
  end.

End modifiers.

(* ===================================================================== *)
(** * internal/provider *)
(* ===================================================================== *)

Module provider.

Import tfsdk.

(** ** The resource schema *)

Inductive attrType := StringType | Int64Type | BoolType.

Record Attribute := mkAttribute {
  Type_ : attrType;
  Description : string;
  Required : bool;
  Optional : bool;
  Computed : bool;
  PlanModifiers : list modifiers.AttributePlanModifier;
}.

(** [func (t rssFeedResourceType) GetSchema]: the attributes. *)
Definition rssFeedResourceType_GetSchema : gmap string Attribute :=
  <["id" := mkAttribute StringType "RSS feed id." false false true []]>
  (<["title" := mkAttribute StringType
       "Title of the RSS feed as will appear on the site." true false false []]>
  (<["rss_source_url" := mkAttribute StringType
       "The URL of the RSS feed to be watched." true false false []]>
  (<["parent_dir_id" := mkAttribute Int64Type
       "The file ID of the folder to place the RSS feed files in." false true true
       [modifiers.UseStateForUnknown; modifiers.In64Default 0]]>
  (<["delete_old_files" := mkAttribute BoolType
       "Should old files in the folder be deleted when space is low." false true true
       [modifiers.UseStateForUnknown; modifiers.BoolDefault false]]>
  (<["keyword" := mkAttribute StringType
       "Only items with titles that contain any of these words will be transferred (comma-separated list of words)."
       true false false []]>
  (<["unwanted_keywords" := mkAttribute StringType
       "No items with titles that contain any of these words will be transferred (comma-separated list of words)."
       false true true [modifiers.StringDefault ""]]>
  (<["paused" := mkAttribute BoolType
       "Should the RSS feed be created in the paused state." false true true
       [modifiers.BoolDefault false]]> ∅))))))).

(** ** The two record shapes *)

(** [rssFeedResourceData] describes an RSS feed as Terraform attributes. *)
Record rssFeedResourceData := mkData {
  ID : types.String;
  Title : types.String;
  RssSourceURL : types.String;
  ParentDirID : types.Int64;
  DeleteOldFiles : types.Bool;
  Keyword : types.String;
  UnwantedKeywords : types.String;
  Paused : types.Bool;
}.

(** The zero value of [rssFeedResourceData] ([var data rssFeedResourceData]). *)
Definition zero_data : rssFeedResourceData :=
  mkData (types.mkString false false "") (types.mkString false false "")
    (types.mkString false false "") (types.mkInt64 false false 0)
    (types.mkBool false false false) (types.mkString false false "")
    (types.mkString false false "") (types.mkBool false false false).

Definition set_ID (v : types.String) (d : rssFeedResourceData) :=
  mkData v (Title d) (RssSourceURL d) (ParentDirID d) (DeleteOldFiles d)
    (Keyword d) (UnwantedKeywords d) (Paused d).
Definition set_Title (v : types.String) (d : rssFeedResourceData) :=
  mkData (ID d) v (RssSourceURL d) (ParentDirID d) (DeleteOldFiles d)
    (Keyword d) (UnwantedKeywords d) (Paused d).
Definition set_RssSourceURL (v : types.String) (d : rssFeedResourceData) :=
  mkData (ID d) (Title d) v (ParentDirID d) (DeleteOldFiles d)
    (Keyword d) (UnwantedKeywords d) (Paused d).
Definition set_ParentDirID (v : types.Int64) (d : rssFeedResourceData) :=
  mkData (ID d) (Title d) (RssSourceURL d) v (DeleteOldFiles d)
    (Keyword d) (UnwantedKeywords d) (Paused d).
Definition set_DeleteOldFiles (v : types.Bool) (d : rssFeedResourceData) :=
  mkData (ID d) (Title d) (RssSourceURL d) (ParentDirID d) v
    (Keyword d) (UnwantedKeywords d) (Paused d).
Definition set_Keyword (v : types.String) (d : rssFeedResourceData) :=
  mkData (ID d) (Title d) (RssSourceURL d) (ParentDirID d) (DeleteOldFiles d)
    v (UnwantedKeywords d) (Paused d).
Definition set_UnwantedKeywords (v : types.String) (d : rssFeedResourceData) :=
  mkData (ID d) (Title d) (RssSourceURL d) (ParentDirID d) (DeleteOldFiles d)
    (Keyword d) v (Paused d).
Definition set_Paused (v : types.Bool) (d : rssFeedResourceData) :=
  mkData (ID d) (Title d) (RssSourceURL d) (ParentDirID d) (DeleteOldFiles d)
    (Keyword d) (UnwantedKeywords d) v.

(** The [Feed] member of [putioFeedData]. *)
Record putioFeed := mkFeed {
  Feed_ID : Z;
  Feed_Title : string;
  Feed_RssSourceURL : string;
  Feed_ParentDirID : Z;
  Feed_DeleteOldFiles : bool;
  Feed_Keyword : string;
  Feed_UnwantedKeywords : string;
  Feed_Paused : bool;
}.

(** [putioFeedData] describes an RSS feed as Put.io REST format. *)
Record putioFeedData := mkFeedData {
  Feed : putioFeed;
  Status : string;
}.

(** ** Reading and writing the framework's raw values *)

Definition attribute_names : list string :=
  ["id"; "title"; "rss_source_url"; "parent_dir_id"; "delete_old_files";
   "keyword"; "unwanted_keywords"; "paused"].

(** The attributes of an object that no field of the struct takes. *)
Definition unclaimed (names : list string) (o : tftypes.Object) : tftypes.Object :=
  foldr delete o names.

(** Decoding an object into [rssFeedResourceData]: every field finds its
    attribute and converts it, and no attribute is left over. *)
Definition decode_data (o : tftypes.Object) : option rssFeedResourceData :=
  id ← o !! "id" ≫= types.String_ValueFromTerraform;
  title ← o !! "title" ≫= types.String_ValueFromTerraform;
  rss_source_url ← o !! "rss_source_url" ≫= types.String_ValueFromTerraform;
  parent_dir_id ← o !! "parent_dir_id" ≫= types.Int64_ValueFromTerraform;
  delete_old_files ← o !! "delete_old_files" ≫= types.Bool_ValueFromTerraform;
  keyword ← o !! "keyword" ≫= types.String_ValueFromTerraform;
  unwanted_keywords ← o !! "unwanted_keywords" ≫= types.String_ValueFromTerraform;
  paused ← o !! "paused" ≫= types.Bool_ValueFromTerraform;
  if bool_decide (unclaimed attribute_names o = ∅) then
    Some (mkData id title rss_source_url parent_dir_id delete_old_files
            keyword unwanted_keywords paused)
  else None.

(** [req.Config.Get(ctx, &data)], [req.Plan.Get(ctx, &data)] and
    [req.State.Get(ctx, &data)] for [data] of type [rssFeedResourceData]:
    the decoded struct and the diagnostics.  A null object, or one that
    does not decode, is an error and leaves [data] at its zero value. *)
Definition Get (raw : Raw) : rssFeedResourceData * diag.Diagnostics :=
  match raw ≫= decode_data with
  | Some data => (data, [])
  | None => (zero_data, [conversion_error])
  end.

Definition encode_data (d : rssFeedResourceData) : tftypes.Object :=
  <["id" := types.String_ToTerraformValue (ID d)]>
  (<["title" := types.String_ToTerraformValue (Title d)]>
  (<["rss_source_url" := types.String_ToTerraformValue (RssSourceURL d)]>
  (<["parent_dir_id" := types.Int64_ToTerraformValue (ParentDirID d)]>
  (<["delete_old_files" := types.Bool_ToTerraformValue (DeleteOldFiles d)]>
  (<["keyword" := types.String_ToTerraformValue (Keyword d)]>
  (<["unwanted_keywords" := types.String_ToTerraformValue (UnwantedKeywords d)]>
  (<["paused" := types.Bool_ToTerraformValue (Paused d)]> ∅))))))).

(** [resp.State.Set(ctx, &data)]: the new raw state and the diagnostics. *)
Definition Set_ (d : rssFeedResourceData) : Raw * diag.Diagnostics :=
  (Some (encode_data d), []).

(** ** The provider *)

(** [type provider struct { client *putio.Client; configured bool; version string }] *)
Record provider := mkProvider {
  client : option (putio.Client putioFeedData);
  configured : bool;
  version : string;
}.

(** [provider{}] *)
Definition zero_provider : provider := mkProvider None false "".

(** [type providerData struct { PutIOOAuthToken types.String `tfsdk:"oauth_token"` }] *)
Record providerData := mkProviderData { PutIOOAuthToken : types.String }.

Definition decode_providerData (o : tftypes.Object) : option providerData :=
  oauth_token ← o !! "oauth_token" ≫= types.String_ValueFromTerraform;
  if bool_decide (unclaimed ["oauth_token"] o = ∅) then Some (mkProviderData oauth_token)
  else None.

(** [req.Config.Get(ctx, &data)] for [data] of type [providerData]. *)
Definition Get_providerData (raw : Raw) : providerData * diag.Diagnostics :=
  match raw ≫= decode_providerData with
  | Some data => (data, [])
  | None => (mkProviderData (types.mkString false false ""), [conversion_error])
  end.

Record ConfigureProviderRequest := mkConfigureProviderRequest {
  Configure_Config : Raw;
}.

Record ConfigureProviderResponse := mkConfigureProviderResponse {
  Configure_Diagnostics : diag.Diagnostics;
}.

Section Configure.

(** The [String()] method of [types.String], as the framework
    implements it. *)
Variable String_String : types.String -> string.

(** [os.Getenv] *)
Variable Getenv : string -> string.

(** The client that [oauth2.StaticTokenSource], [oauth2.NewClient] and
    [putio.NewClient] build for an access token. *)
Variable connect : string -> putio.Client putioFeedData.

Definition NewClient (token : string) : Go (putio.Client putioFeedData) :=
  emit (NewClientCalled token);;
  mret (connect token).

(** [func (p *provider) Configure(ctx, req, resp)]: the provider and the
    response as the call leaves them. *)
Definition provider_Configure (p : provider)
    (req : ConfigureProviderRequest) (resp : ConfigureProviderResponse)
    : Go (provider * ConfigureProviderResponse) :=
  let '(data, diags) := Get_providerData (Configure_Config req) in
  let resp := mkConfigureProviderResponse
                (diag.Append (Configure_Diagnostics resp) diags) in
  if diag.HasError (Configure_Diagnostics resp) then mret (p, resp)
  else
    let token := String_String (PutIOOAuthToken data) in
    let token :=
      if types.String_Null (PutIOOAuthToken data) then Getenv "PUTIO_OAUTH_TOKEN"
      else token in
    if bool_decide (token = "") then
      mret (p, mkConfigureProviderResponse
                 (diag.AddError "Unable to find put.io token"
                    "Cannot use token as an empty string"
                    (Configure_Diagnostics resp)))
    else
      client ← NewClient token;
      err ← putio.ValidateToken (Some client);
      match err with
      | Some err =>
          mret (p, mkConfigureProviderResponse
                     (diag.AddError "Unable to create put.io client" err
                        (Configure_Diagnostics resp)))
      | None => mret (mkProvider (Some client) true (version p), resp)
      end.

End Configure.

(** [func New(version string) func() tfsdk.Provider] *)
Definition New (version : string) : provider := mkProvider None false version.

(** A value of the interface [tfsdk.Provider]: the nil interface, a
    pointer to a [provider] (which may be a nil pointer), or a value of
    some other implementation. *)
Inductive tfsdk_Provider :=
| NilInterface
| ProviderPointer (p : option provider)
| OtherImplementation (typeName : string).

(** The type assertion [p, ok := in.( *provider )]. *)
Definition assert_provider (i : tfsdk_Provider) : option provider * bool :=
  match i with
  | ProviderPointer p => (p, true)
  | _ => (None, false)
  end.

(** [fmt.Sprintf("%T", p)] for [p] of static type [*provider]. *)
Definition Sprintf_T_p : string := "*provider.provider".

(** [func convertProviderType(in tfsdk.Provider) (provider, diag.Diagnostics)] *)
Definition convertProviderType (i : tfsdk_Provider) : Go (provider * diag.Diagnostics) :=
  let diags : diag.Diagnostics := [] in
  let '(p, ok) := assert_provider i in
  if negb ok then
    mret (zero_provider,
          diag.AddError "Unexpected Provider Instance Type"
            ("While creating the data source or resource, an unexpected provider type ("
             ++ Sprintf_T_p
             ++ ") was received. This is always a bug in the provider code and should be reported to the provider developers.")
            diags)
  else if is_nil p then
    mret (zero_provider,
          diag.AddError "Unexpected Provider Instance Type"
            "While creating the data source or resource, an unexpected empty provider instance was received. This is always a bug in the provider code and should be reported to the provider developers."
            diags)
  else
    v ← deref p;
    mret (v, diags).

(** ** The resource *)

(** [type rssFeedResource struct { provider provider }] *)
Record rssFeedResource := mkResource { provider_ : provider }.

(** [func (t rssFeedResourceType) NewResource(ctx, in)] *)
Definition rssFeedResourceType_NewResource (i : tfsdk_Provider)
    : Go (rssFeedResource * diag.Diagnostics) :=
  '(provider, diags) ← convertProviderType i;
  mret (mkResource provider, diags).

(** The responses of the four handlers have one shape: the state to track
    and the diagnostics. *)
Record Response := mkResponse {
  State : Raw;
  Diagnostics : diag.Diagnostics;
}.

Abbreviation CreateResourceResponse := Response.
Abbreviation ReadResourceResponse := Response.
Abbreviation UpdateResourceResponse := Response.
Abbreviation DeleteResourceResponse := Response.

Record CreateResourceRequest := mkCreateResourceRequest {
  Create_Config : Raw;
  Create_Plan : Raw;
}.

Record ReadResourceRequest := mkReadResourceRequest {
  Read_State : Raw;
}.

Record UpdateResourceRequest := mkUpdateResourceRequest {
  Update_Config : Raw;
  Update_Plan : Raw;
  Update_State : Raw;
}.

Record DeleteResourceRequest := mkDeleteResourceRequest {
  Delete_State : Raw;
}.

(** [resp.Diagnostics.Append(diags...)] *)
Definition Diagnostics_Append (diags : diag.Diagnostics) (resp : Response) : Response :=
  mkResponse (State resp) (diag.Append (Diagnostics resp) diags).

(** [resp.Diagnostics.AddError(summary, detail)] *)
Definition Diagnostics_AddError (summary detail : string) (resp : Response) : Response :=
  mkResponse (State resp) (diag.AddError summary detail (Diagnostics resp)).

(** [diags = resp.State.Set(ctx, &data)]: the response with its new state,
    and the diagnostics of the call. *)
Definition State_Set (data : rssFeedResourceData) (resp : Response)
    : Response * diag.Diagnostics :=
  let '(state, diags) := Set_ data in
  (mkResponse state (Diagnostics resp), diags).

(** The feed to create ([payload] in [Create]). *)
Definition Create_payload (data : rssFeedResourceData) : url.Values :=
  let payload : url.Values := ∅ in
  let payload := url.Set_ "title" (types.String_Value (Title data)) payload in
  let payload := url.Set_ "rss_source_url" (types.String_Value (RssSourceURL data)) payload in
  let payload := url.Set_ "parent_dir_id"
                   (strconv.FormatInt10 (types.Int64_Value (ParentDirID data))) payload in
  let payload := url.Set_ "delete_old_files"
                   (fmt.Sprintf_t (types.Bool_Value (DeleteOldFiles data))) payload in
  let payload := url.Set_ "dont_process_whole_feed" "false" payload in
  let payload := url.Set_ "keyword" (types.String_Value (Keyword data)) payload in
  let payload := url.Set_ "unwanted_keywords"
                   (types.String_Value (UnwantedKeywords data)) payload in
  let payload := url.Set_ "paused" (fmt.Sprintf_t (types.Bool_Value (Paused data))) payload in
  payload.

(** [func (r rssFeedResource) Create(ctx, req, resp)] *)
Definition rssFeedResource_Create (r : rssFeedResource)
    (req : CreateResourceRequest) (resp : CreateResourceResponse)
    : Go CreateResourceResponse :=
  let '(data, diags) := Get (Create_Config req) in
  let resp := Diagnostics_Append diags resp in
  if diag.HasError (Diagnostics resp) then mret resp
  else
    let payload := Create_payload data in
    request ← putio.NewRequest (client (provider_ r)) http.MethodPost
                "/v2/rss/create" (url.Encode payload);
    match request with
    | Err err =>
        mret (Diagnostics_AddError "Client Error"
                ("Unable to create rss feed request, got error: " ++ err) resp)
    | Ok request =>
        let request :=
          http.with_Header
            (http.Header_Set "Content-Type" "application/x-www-form-urlencoded")
            request in
        let request :=
          http.with_Header
            (http.Header_Add "Content-Length"
               (strconv.Itoa (Z.of_nat (String.length (url.Encode payload)))))
            request in
        done ← putio.Do (client (provider_ r)) request;
        match done with
        | Err err =>
            mret (Diagnostics_AddError "Client Error"
                    ("Unable to create rss feed, got error: " ++ err) resp)
        | Ok createdFeed =>
            let data := set_ID (types.mkString false false
                                  (strconv.Itoa (Feed_ID (Feed createdFeed)))) data in
            let data := set_Title (types.mkString false false
                                     (Feed_Title (Feed createdFeed))) data in
            let data := set_RssSourceURL (types.mkString false false
                                            (Feed_RssSourceURL (Feed createdFeed))) data in
            let data := set_ParentDirID (types.mkInt64 false false
                                           (int64 (Feed_ParentDirID (Feed createdFeed)))) data in
            let data := set_DeleteOldFiles (types.mkBool false false
                                              (Feed_DeleteOldFiles (Feed createdFeed))) data in
            let data := set_Keyword (types.mkString false false
                                       (Feed_Keyword (Feed createdFeed))) data in
            let data := set_UnwantedKeywords
                          (types.mkString false false
                             (Feed_UnwantedKeywords (Feed createdFeed))) data in
            let data := set_Paused (types.mkBool false false
                                      (Feed_Paused (Feed createdFeed))) data in
            let '(resp, diags) := State_Set data resp in
            mret (Diagnostics_Append diags resp)
        end
    end.

(** [func (r rssFeedResource) Read(ctx, req, resp)] *)
Definition rssFeedResource_Read (r : rssFeedResource)
    (req : ReadResourceRequest) (resp : ReadResourceResponse)
    : Go ReadResourceResponse :=
  let '(data, diags) := Get (Read_State req) in
  let resp := Diagnostics_Append diags resp in
  if diag.HasError (Diagnostics resp) then mret resp
  else
    request ← putio.NewRequest (client (provider_ r)) http.MethodGet
                ("/v2/rss/" ++ types.String_Value (ID data)) http.NoBody;
    match request with
    | Err err =>
        mret (Diagnostics_AddError "Client Error"
                ("Unable to create rss feed request, got error: " ++ err) resp)
    | Ok request =>
        done ← putio.Do (client (provider_ r)) request;
        match done with
        | Err err =>
            mret (Diagnostics_AddError "Client Error"
                    ("Unable to read rss feed, got error: " ++ err) resp)
        | Ok feedData =>
            let data := set_ID (types.mkString false false
                                  (strconv.Itoa (Feed_ID (Feed feedData)))) data in
            let data := set_Title (types.mkString false false
                                     (Feed_Title (Feed feedData))) data in
            let data := set_RssSourceURL (types.mkString false false
                                            (Feed_RssSourceURL (Feed feedData))) data in
            let data := set_ParentDirID (types.mkInt64 false false
                                           (int64 (Feed_ParentDirID (Feed feedData)))) data in
            let data := set_DeleteOldFiles (types.mkBool false false
                                              (Feed_DeleteOldFiles (Feed feedData))) data in
            let data := set_Keyword (types.mkString false false
                                       (Feed_Keyword (Feed feedData))) data in
            let data := set_UnwantedKeywords
                          (types.mkString false false
                             (Feed_UnwantedKeywords (Feed feedData))) data in
            let data := set_Paused (types.mkBool false false
                                      (Feed_Paused (Feed feedData))) data in
            let '(resp, diags) := State_Set data resp in
            mret (Diagnostics_Append diags resp)
        end
    end.

(** [func (r rssFeedResource) Update(ctx, req, resp)] *)
Definition rssFeedResource_Update (r : rssFeedResource)
    (req : UpdateResourceRequest) (resp : UpdateResourceResponse)
    : Go UpdateResourceResponse :=
  let '(data, diags) := Get (Update_Plan req) in
  let resp := Diagnostics_Append diags resp in
  if diag.HasError (Diagnostics resp) then mret resp
  else
    let '(resp, diags) := State_Set data resp in
    mret (Diagnostics_Append diags resp).

(** [func (r rssFeedResource) Delete(ctx, req, resp)] *)
Definition rssFeedResource_Delete (r : rssFeedResource)
    (req : DeleteResourceRequest) (resp : DeleteResourceResponse)
    : Go DeleteResourceResponse :=
  let '(data, diags) := Get (Delete_State req) in
  let resp := Diagnostics_Append diags resp in
  if diag.HasError (Diagnostics resp) then mret resp
  else
    request ← putio.NewRequest (client (provider_ r)) http.MethodPost
                ("/v2/rss/" ++ types.String_Value (ID data) ++ "/delete") http.NoBody;
    match request with
    | Err err =>
        mret (Diagnostics_AddError "Client Error"
                ("Unable to create rss feed request deletiob, got error: " ++ err) resp)
    | Ok request =>
        done ← putio.Do (client (provider_ r)) request;
        match done with
        | Err err =>
            mret (Diagnostics_AddError "Client Error"
                    ("Unable to delete rss feed, got error: " ++ err) resp)
        | Ok feedData => mret resp
        end
    end.

End provider.

(* ===================================================================== *)
(** * Vocabulary of the statements *)
(* ===================================================================== *)

Import provider.

(** The external record that carries exactly the nested feed data of a
    response: every field known, the identifier in decimal. *)
Definition record_of_feed (f : putioFeed) : rssFeedResourceData :=
  mkData (types.mkString false false (strconv.Itoa (Feed_ID f)))
    (types.mkString false false (Feed_Title f))
    (types.mkString false false (Feed_RssSourceURL f))
    (types.mkInt64 false false (int64 (Feed_ParentDirID f)))
    (types.mkBool false false (Feed_DeleteOldFiles f))
    (types.mkString false false (Feed_Keyword f))
    (types.mkString false false (Feed_UnwantedKeywords f))
    (types.mkBool false false (Feed_Paused f)).

(** The requests that reach the service from [Create], [Read] and [Delete]. *)
Definition sent_by_Create (c : putio.Client putioFeedData) (data : rssFeedResourceData)
    : http.Request :=
  let body := url.Encode (Create_payload data) in
  http.with_Header
    (http.Header_Add "Content-Length" (strconv.Itoa (Z.of_nat (String.length body))))
    (http.with_Header
       (http.Header_Set "Content-Type" "application/x-www-form-urlencoded")
       (putio.request_for c "POST" "/v2/rss/create" body)).

Definition sent_by_Read (c : putio.Client putioFeedData) (data : rssFeedResourceData)
    : http.Request :=
  putio.request_for c "GET" ("/v2/rss/" ++ types.String_Value (ID data)) "".

Definition sent_by_Delete (c : putio.Client putioFeedData) (data : rssFeedResourceData)
    : http.Request :=
  putio.request_for c "POST" ("/v2/rss/" ++ types.String_Value (ID data) ++ "/delete") "".

(** The diagnostic of a failed client call: the category label and the
    text of the underlying error after a fixed phrase. *)
Definition client_error (phrase err : string) : diag.Diagnostic :=
  diag.mkDiagnostic diag.SeverityError "Client Error" (phrase ++ err).

(** A handler aborts: it returns with the state of the response as it
    found it and one more diagnostic, the client error. *)
Definition aborts_with (resp : Response) (before : diag.Diagnostics)
    (phrase err : string) (log' : list Event)
    (out : Outcome (Response * list Event)) : Prop :=
  out = Returned (mkResponse (State resp) (before ++ [client_error phrase err])%list, log').

(** The two diagnostics of [Configure]. *)
Definition token_missing : diag.Diagnostic :=
  diag.mkDiagnostic diag.SeverityError "Unable to find put.io token"
    "Cannot use token as an empty string".

Definition token_refused (err : string) : diag.Diagnostic :=
  diag.mkDiagnostic diag.SeverityError "Unable to create put.io client" err.

(** The optional attributes that declare a default. *)
Inductive OptionalAttribute := parent_dir_id | delete_old_files | unwanted_keywords | paused.

Definition attribute_name (x : OptionalAttribute) : string :=
  match x with
  | parent_dir_id => "parent_dir_id"
  | delete_old_files => "delete_old_files"
  | unwanted_keywords => "unwanted_keywords"
  | paused => "paused"
  end.

(** The declared defaults: 0, false, the empty string, false. *)
Definition declared_default (x : OptionalAttribute) : attr.Value :=
  match x with
  | parent_dir_id => attr.OfInt64 (types.mkInt64 false false 0)
  | delete_old_files => attr.OfBool (types.mkBool false false false)
  | unwanted_keywords => attr.OfString (types.mkString false false "")
  | paused => attr.OfBool (types.mkBool false false false)
  end.

Definition type_of (v : attr.Value) : attrType :=
  match v with
  | attr.OfString _ => StringType
  | attr.OfInt64 _ => Int64Type
  | attr.OfBool _ => BoolType
  end.

(** The null value of a type, as the framework decodes it. *)
Definition null_of (t : attrType) : attr.Value :=
  match t with
  | StringType => attr.OfString (types.mkString false true "")
  | Int64Type => attr.OfInt64 (types.mkInt64 false true 0)
  | BoolType => attr.OfBool (types.mkBool false true false)
  end.

(** What a response holds for an optional attribute, as a Terraform value. *)
Definition returned_value (x : OptionalAttribute) (f : putioFeed) : tftypes.Value :=
  match x with
  | parent_dir_id => tftypes.VNumber (int64 (Feed_ParentDirID f))
  | delete_old_files => tftypes.VBool (Feed_DeleteOldFiles f)
  | unwanted_keywords => tftypes.VString (Feed_UnwantedKeywords f)
  | paused => tftypes.VBool (Feed_Paused f)
  end.

(** How a known value is written into the form of [Create]. *)
Definition form_value (v : tftypes.Value) : string :=
  match v with
  | tftypes.VString s => s
  | tftypes.VNumber n => strconv.FormatInt10 n
  | tftypes.VBool b => fmt.Sprintf_t b
  | _ => ""
  end.

(** The integer a decimal string denotes. *)
Definition decimal_value (s : string) : option Z :=
  Z.of_int <$> NilZero.int_of_string s.

(** ** Concrete inputs *)

(** The configuration of the acceptance test: title, source address and
    keyword are given, every optional attribute is omitted. *)
Definition example_config : tftypes.Object :=
  <["id" := tftypes.VNull]>
  (<["title" := tftypes.VString "one"]>
  (<["rss_source_url" := tftypes.VString "https://google.fr"]>
  (<["parent_dir_id" := tftypes.VNull]>
  (<["delete_old_files" := tftypes.VNull]>
  (<["keyword" := tftypes.VString "foo"]>
  (<["unwanted_keywords" := tftypes.VNull]>
  (<["paused" := tftypes.VNull]> ∅))))))).

(** A tracked state of the same feed. *)
Definition example_state : tftypes.Object :=
  <["id" := tftypes.VString "42"]>
  (<["title" := tftypes.VString "one"]>
  (<["rss_source_url" := tftypes.VString "https://google.fr"]>
  (<["parent_dir_id" := tftypes.VNumber 0]>
  (<["delete_old_files" := tftypes.VBool false]>
  (<["keyword" := tftypes.VString "foo"]>
  (<["unwanted_keywords" := tftypes.VString ""]>
  (<["paused" := tftypes.VBool false]> ∅))))))).

(** The plan of that configuration: the defaults are in place and the
    identifier is not known yet. *)
Definition example_plan : tftypes.Object :=
  <["id" := tftypes.VUnknown]>
  (<["title" := tftypes.VString "one"]>
  (<["rss_source_url" := tftypes.VString "https://google.fr"]>
  (<["parent_dir_id" := tftypes.VNumber 0]>
  (<["delete_old_files" := tftypes.VBool false]>
  (<["keyword" := tftypes.VString "foo"]>
  (<["unwanted_keywords" := tftypes.VString ""]>
  (<["paused" := tftypes.VBool false]> ∅))))))).

Definition example_create : CreateResourceRequest :=
  mkCreateResourceRequest (Some example_config) (Some example_plan).

Definition example_data : rssFeedResourceData :=
  mkData (types.mkString false true "") (types.mkString false false "one")
    (types.mkString false false "https://google.fr") (types.mkInt64 false true 0)
    (types.mkBool false true false) (types.mkString false false "foo")
    (types.mkString false true "") (types.mkBool false true false).

Definition example_state_data : rssFeedResourceData :=
  mkData (types.mkString false false "42") (types.mkString false false "one")
    (types.mkString false false "https://google.fr") (types.mkInt64 false false 0)
    (types.mkBool false false false) (types.mkString false false "foo")
    (types.mkString false false "") (types.mkBool false false false).

(** A response that returns what was submitted. *)
Definition echo_feed : putioFeedData :=
  mkFeedData (mkFeed 42 "one" "https://google.fr" 0 false "foo" "" false) "OK".

(** A response in which the service has placed the feed in folder 7. *)
Definition moved_feed : putioFeedData :=
  mkFeedData (mkFeed 42 "one" "https://google.fr" 7 false "foo" "" false) "OK".

Definition answering (feed : putioFeedData) : putio.Client putioFeedData :=
  putio.mkClient _ "https://api.put.io" "putio-go" (fun _ _ => None)
    (fun _ => Ok feed) None.

(** A client whose requests cannot be built. *)
Definition malformed : putio.Client putioFeedData :=
  putio.mkClient _ "https://api.put.io" "putio-go"
    (fun _ _ => Some "invalid URL") (fun _ => Ok echo_feed) None.

(** A client whose calls the service rejects. *)
Definition rejected : putio.Client putioFeedData :=
  putio.mkClient _ "https://api.put.io" "putio-go" (fun _ _ => None)
    (fun _ => Err "404 Not Found") (Some "401 Unauthorized").

(** A provider configuration with the token set, and one without. *)
Definition token_config (token : string) : tftypes.Object :=
  <["oauth_token" := tftypes.VString token]> ∅.

Definition tokenless_config : tftypes.Object :=
  <["oauth_token" := tftypes.VNull]> ∅.

(** A rendering of a [types.String] for logs: the value between quotation
    marks, or a placeholder.  It is what the framework's [String] method
    returns for a null value, for an unknown value and for a known value of
    plain bytes; the escapes that the method writes for a quotation mark, a
    backslash or a control byte are not part of it. *)
Definition quoted (s : types.String) : string :=
  if types.String_Unknown s then "<unknown>"
  else if types.String_Null s then "<null>"
  else String (ascii_of_nat 34) (types.String_Value s ++ String (ascii_of_nat 34) "").

(** An environment in which [PUTIO_OAUTH_TOKEN] is the only variable set. *)
Definition environment (token : string) (name : string) : string :=
  if bool_decide (name = "PUTIO_OAUTH_TOKEN") then token else "".

Definition resource_of (c : putio.Client putioFeedData) : rssFeedResource :=
  mkResource (mkProvider (Some c) true "test").

Definition fresh_response : Response := mkResponse None [].

(** ** Importing *)

(** [tfsdk.ImportResourceStateRequest]: the identifier given on import. *)
Record ImportResourceStateRequest := mkImportResourceStateRequest {
  Import_ID : string;
}.

Abbreviation ImportResourceStateResponse := Response.

(** The object of the resource in which every attribute is null. *)
Definition null_object : tftypes.Object :=
  (fun _ => tftypes.VNull) <$> rssFeedResourceType_GetSchema.

(** [resp.State.SetAttribute(ctx, path, value)] for the path of the
    attribute [id] and a string: the attribute is set in the object of the
    state, which is created with null attributes when the state is null. *)
Definition State_SetAttribute_id (value : string) (resp : Response)
    : Response * diag.Diagnostics :=
  (mkResponse (Some (<["id" := tftypes.VString value]> (default null_object (State resp))))
     (Diagnostics resp), []).

(** [tfsdk.ResourceImportStatePassthroughID(ctx, path, req, resp)] for the
    path of the attribute [id]. *)
Definition ResourceImportStatePassthroughID_id
    (req : ImportResourceStateRequest) (resp : ImportResourceStateResponse)
    : ImportResourceStateResponse :=
  let '(resp, diags) := State_SetAttribute_id (Import_ID req) resp in
  Diagnostics_Append diags resp.

(** [func (r rssFeedResource) ImportState(ctx, req, resp)] *)
Definition rssFeedResource_ImportState (r : rssFeedResource)
    (req : ImportResourceStateRequest) (resp : ImportResourceStateResponse)
    : Go ImportResourceStateResponse :=
  mret (ResourceImportStatePassthroughID_id req resp).

(** ** Further vocabulary *)

(** A Terraform value that an attribute of the given type may hold: null,
    unknown, or a known value of the type, a number being a 64-bit
    integer. *)
Definition conforms_to (t : attrType) (v : tftypes.Value) : bool :=
  match v, t with
  | tftypes.VNull, _ => true
  | tftypes.VUnknown, _ => true
  | tftypes.VString _, StringType => true
  | tftypes.VNumber n, Int64Type => bool_decide (- 2 ^ 63 <= n < 2 ^ 63)
  | tftypes.VBool _, BoolType => true
  | _, _ => false
  end.

(** An object that conforms to the schema of the resource: it has the
    attributes of the schema and no other, each with a value of its type. *)
Definition conforms (o : tftypes.Object) : Prop :=
  dom o = dom rssFeedResourceType_GetSchema
  /\ forall name a v,
       rssFeedResourceType_GetSchema !! name = Some a ->
       o !! name = Some v ->
       conforms_to (Type_ a) v = true.

(** The number of occurrences of a byte in a string. *)
Fixpoint count_char (c : ascii) (s : string) : nat :=
  match s with
  | EmptyString => 0
  | String x rest => ((if Ascii.eqb x c then 1 else 0) + count_char c rest)%nat
  end.

(** The pair that [Encode] writes for a key with one value. *)
Definition form_pair (key value : string) : string :=
  url.QueryEscape key ++ "=" ++ url.QueryEscape value.

(** The value of a key that has one. *)
Definition single_value (v : url.Values) (key : string) : string :=
  match v !! key with
  | Some [value] => value
  | _ => ""
  end.

(** The bytes that [url.QueryEscape] lets through or produces: letters,
    digits, the marks [-], [_], [.], [~], and [+] and [%]. *)
Definition query_safe (c : ascii) : bool :=
  negb (url.shouldEscape c) || Ascii.eqb c "+" || Ascii.eqb c "%".

Fixpoint all_chars (P : ascii -> bool) (s : string) : bool :=
  match s with
  | EmptyString => true
  | String x rest => P x && all_chars P rest
  end.

(** ** The plan modifiers of an optional attribute *)

(** The plan modifiers that the schema declares for an optional attribute,
    in the order in which the framework runs them. *)
Definition modifiers_of (x : OptionalAttribute) : list modifiers.AttributePlanModifier :=
  from_option PlanModifiers [] (rssFeedResourceType_GetSchema !! attribute_name x).


(** ** The token in quotation marks *)

(** The bytes that [fmt]'s verb [%q] writes as they are: the printable bytes
    of ASCII other than the quotation mark and the backslash. *)
Definition plain_byte (c : ascii) : bool :=
  let n := N_of_ascii c in
  (32 <=? n)%N && (n <? 127)%N && negb (n =? 34)%N && negb (n =? 92)%N.

(** A string between quotation marks. *)
Definition in_quotes (s : string) : string :=
  String (ascii_of_nat 34) (s ++ String (ascii_of_nat 34) "").

(** A service that validates one token and refuses every other. *)
Definition accepting (valid token : string) : putio.Client putioFeedData :=
  if bool_decide (token = valid) then answering echo_feed else rejected.

(** ** Further inputs *)



(* ===================================================================== *)
(** * Lemmas *)
(* ===================================================================== *)

(** ** Integers and their decimal form *)

Lemma int64_in_range (x : Z) : - 2 ^ 63 <= x < 2 ^ 63 -> int64 x = x.
Proof. intros Hx. unfold int64. rewrite Z.mod_small; lia. Qed.

Lemma int64_range (x : Z) : - 2 ^ 63 <= int64 x < 2 ^ 63.
Proof. unfold int64. pose proof (Z.mod_pos_bound (x + 2 ^ 63) (2 ^ 64)). lia. Qed.

Lemma int64_idem (x : Z) : int64 (int64 x) = int64 x.
Proof. apply int64_in_range, int64_range. Qed.

Lemma to_int_not_nil (n : Z) : Z.to_int n <> Pos Nil /\ Z.to_int n <> Neg Nil.
Proof.
  destruct n as [|p|p]; simpl; split; try discriminate;
    intros [= H]; by apply (DecimalPos.Unsigned.to_uint_nonnil p).
Qed.

Lemma decimal_value_FormatInt10 (n : Z) : decimal_value (strconv.FormatInt10 n) = Some n.
Proof.
  unfold decimal_value, strconv.FormatInt10.
  destruct (to_int_not_nil n) as [Hpos Hneg].
  rewrite (NilZero.isi _ Hpos Hneg). simpl. by rewrite DecimalZ.of_to.
Qed.

Example Itoa_examples :
  strconv.Itoa 0 = "0" /\ strconv.Itoa 42 = "42" /\ strconv.Itoa (-7) = "-7"
  /\ strconv.FormatInt10 (2 ^ 63 - 1) = "9223372036854775807".
Proof. repeat split; reflexivity. Qed.

Example QueryEscape_example :
  url.QueryEscape "https://google.fr/a b?c=d&e~f" = "https%3A%2F%2Fgoogle.fr%2Fa+b%3Fc%3Dd%26e~f".
Proof. reflexivity. Qed.

Example Encode_sorts_keys :
  url.Encode (url.Set_ "b" "2" (url.Set_ "a" "1" (url.Set_ "B" "x y" ∅))) = "B=x+y&a=1&b=2".
Proof. vm_compute. reflexivity. Qed.

(** ** Diagnostics *)

Example Append_skips_duplicates :
  let e := diag.NewErrorDiagnostic "Client Error" "timeout" in
  diag.Append [e] [e; diag.NewErrorDiagnostic "Client Error" "refused"; e]
  = [e; diag.NewErrorDiagnostic "Client Error" "refused"].
Proof. reflexivity. Qed.

Lemma HasError_elem (ds : diag.Diagnostics) :
  diag.HasError ds = true <-> exists d, d ∈ ds /\ diag.Severity_ d = diag.SeverityError.
Proof.
  unfold diag.HasError. rewrite existsb_exists. split.
  - intros (d & Hin & Hd). exists d. split; [by apply list_elem_of_In|].
    by apply bool_decide_eq_true in Hd.
  - intros (d & Hin & Hd). exists d. split; [by apply list_elem_of_In|].
    by apply bool_decide_eq_true.
Qed.

(** An error added to diagnostics that hold no error is never a duplicate:
    it becomes the last diagnostic. *)
Lemma AddError_fresh (summary detail : string) (ds : diag.Diagnostics) :
  diag.HasError ds = false ->
  diag.AddError summary detail ds = (ds ++ [diag.NewErrorDiagnostic summary detail])%list.
Proof.
  intros Hno. unfold diag.AddError. simpl. unfold diag.Contains.
  case_bool_decide as Hin; [|done].
  exfalso. assert (diag.HasError ds = true) as Hyes; [|congruence].
  apply HasError_elem. eauto.
Qed.

Lemma HasError_snoc_error (summary detail : string) (ds : diag.Diagnostics) :
  diag.HasError (ds ++ [diag.NewErrorDiagnostic summary detail]) = true.
Proof.
  apply HasError_elem. exists (diag.NewErrorDiagnostic summary detail).
  split; [|done]. apply elem_of_app. right. by apply list_elem_of_singleton.
Qed.

(** ** Decoding and encoding the raw values *)

Lemma String_roundtrip v s :
  types.String_ValueFromTerraform v = Some s -> types.String_ToTerraformValue s = v.
Proof. destruct v; simpl; intros [= <-]; reflexivity. Qed.

Lemma Bool_roundtrip v b :
  types.Bool_ValueFromTerraform v = Some b -> types.Bool_ToTerraformValue b = v.
Proof. destruct v; simpl; intros [= <-]; reflexivity. Qed.

Lemma Int64_roundtrip v i :
  types.Int64_ValueFromTerraform v = Some i -> types.Int64_ToTerraformValue i = v.
Proof.
  destruct v; simpl; try (intros [= <-]; reflexivity).
  case_bool_decide as Hn; intros [= <-].
  unfold types.Int64_ToTerraformValue. simpl. by rewrite int64_in_range.
Qed.

Lemma unclaimed_lookup names (o : tftypes.Object) k :
  k ∉ names -> unclaimed names o !! k = o !! k.
Proof.
  induction names as [|n names IH]; simpl; [done|].
  intros Hk. apply not_elem_of_cons in Hk as [Hne Hk].
  rewrite lookup_delete_ne; [by apply IH | done].
Qed.

(** What [decode_data] requires of the object, attribute by attribute. *)
Lemma decode_data_inv o d :
  decode_data o = Some d ->
  (o !! "id" ≫= types.String_ValueFromTerraform) = Some (ID d)
  /\ (o !! "title" ≫= types.String_ValueFromTerraform) = Some (Title d)
  /\ (o !! "rss_source_url" ≫= types.String_ValueFromTerraform) = Some (RssSourceURL d)
  /\ (o !! "parent_dir_id" ≫= types.Int64_ValueFromTerraform) = Some (ParentDirID d)
  /\ (o !! "delete_old_files" ≫= types.Bool_ValueFromTerraform) = Some (DeleteOldFiles d)
  /\ (o !! "keyword" ≫= types.String_ValueFromTerraform) = Some (Keyword d)
  /\ (o !! "unwanted_keywords" ≫= types.String_ValueFromTerraform)
     = Some (UnwantedKeywords d)
  /\ (o !! "paused" ≫= types.Bool_ValueFromTerraform) = Some (Paused d)
  /\ unclaimed attribute_names o = ∅.
Proof.
  unfold decode_data. intros H.
  destruct (o !! "id" ≫= types.String_ValueFromTerraform) as [x1|]; [|done].
  destruct (o !! "title" ≫= types.String_ValueFromTerraform) as [x2|]; [|done].
  destruct (o !! "rss_source_url" ≫= types.String_ValueFromTerraform) as [x3|]; [|done].
  destruct (o !! "parent_dir_id" ≫= types.Int64_ValueFromTerraform) as [x4|]; [|done].
  destruct (o !! "delete_old_files" ≫= types.Bool_ValueFromTerraform) as [x5|]; [|done].
  destruct (o !! "keyword" ≫= types.String_ValueFromTerraform) as [x6|]; [|done].
  destruct (o !! "unwanted_keywords" ≫= types.String_ValueFromTerraform) as [x7|]; [|done].
  destruct (o !! "paused" ≫= types.Bool_ValueFromTerraform) as [x8|]; [|done].
  cbn [mbind option_bind] in H.
  case_bool_decide as Hrest; [|done]. injection H as <-. by repeat split.
Qed.

Lemma bind_lookup_inv {A} (o : tftypes.Object) k (f : tftypes.Value -> option A) x :
  (o !! k ≫= f) = Some x -> exists v, o !! k = Some v /\ f v = Some x.
Proof. destruct (o !! k) as [v|]; [|done]. simpl. eauto. Qed.

(** Decoding loses nothing: the struct encodes back to the same object. *)
Lemma decode_encode o d : decode_data o = Some d -> encode_data d = o.
Proof.
  intros H. apply decode_data_inv in H
    as (H1 & H2 & H3 & H4 & H5 & H6 & H7 & H8 & Hrest).
  apply bind_lookup_inv in H1 as (v1 & E1 & F1), H2 as (v2 & E2 & F2),
    H3 as (v3 & E3 & F3), H4 as (v4 & E4 & F4), H5 as (v5 & E5 & F5),
    H6 as (v6 & E6 & F6), H7 as (v7 & E7 & F7), H8 as (v8 & E8 & F8).
  unfold encode_data.
  rewrite (String_roundtrip _ _ F1), (String_roundtrip _ _ F2), (String_roundtrip _ _ F3),
    (Int64_roundtrip _ _ F4), (Bool_roundtrip _ _ F5), (String_roundtrip _ _ F6),
    (String_roundtrip _ _ F7), (Bool_roundtrip _ _ F8).
  apply map_eq. intros k.
  destruct (decide (k ∈ attribute_names)) as [Hin|Hout].
  - unfold attribute_names in Hin.
    repeat (apply elem_of_cons in Hin as [->|Hin]; [by simplify_map_eq|]).
    by apply elem_of_nil in Hin.
  - pose proof (unclaimed_lookup attribute_names o k Hout) as Hk.
    rewrite Hrest, lookup_empty in Hk. rewrite <- Hk.
    unfold attribute_names in Hout.
    repeat (apply not_elem_of_cons in Hout as [? Hout]).
    by simplify_map_eq.
Qed.

Lemma Get_decoded o d : decode_data o = Some d -> Get (Some o) = (d, []).
Proof. intros H. unfold Get. simpl. by rewrite H. Qed.

(** ** The paths through the handlers *)

(** Unfolds the handler's prologue and the client calls. *)
Ltac run_handler HG Hclient :=
  rewrite HG;
  cbn [Diagnostics_Append Diagnostics State];
  unfold putio.NewRequest, putio.Do, emit;
  try rewrite Hclient;
  unfold mbind, Go_bind, deref, mret, Go_ret.

Section Paths.

Variable r : rssFeedResource.
Variable c : putio.Client putioFeedData.
Hypothesis Hclient : client (provider_ r) = Some c.

Variable resp : Response.
Variable log : list Event.
Variable data : rssFeedResourceData.
Variable diags : diag.Diagnostics.

(** In the statements below, [diag.Append (Diagnostics resp) diags] is
    what the response holds once the handler has appended the diagnostics
    of decoding. *)

(** *** Create *)

Lemma Create_decode_failure req :
  Get (Create_Config req) = (data, diags) ->
  diag.HasError (diag.Append (Diagnostics resp) diags) = true ->
  rssFeedResource_Create r req resp log = Returned (mkResponse (State resp) (diag.Append (Diagnostics resp) diags), log).
Proof.
  intros HG Herr. unfold rssFeedResource_Create. run_handler HG Hclient.
  by rewrite Herr.
Qed.

Lemma Create_request_failure req err :
  Get (Create_Config req) = (data, diags) ->
  diag.HasError (diag.Append (Diagnostics resp) diags) = false ->
  putio.request_error c "POST" "/v2/rss/create" = Some err ->
  rssFeedResource_Create r req resp log =
    Returned (mkResponse (State resp)
                (diag.Append (Diagnostics resp) diags ++ [client_error "Unable to create rss feed request, got error: " err])%list,
              log).
Proof.
  intros HG Hno Herr. unfold rssFeedResource_Create. run_handler HG Hclient.
  rewrite Hno. unfold http.MethodPost. rewrite Herr.
  unfold Diagnostics_AddError. cbn [State Diagnostics]. by rewrite AddError_fresh.
Qed.

Lemma Create_call_failure req err :
  Get (Create_Config req) = (data, diags) ->
  diag.HasError (diag.Append (Diagnostics resp) diags) = false ->
  putio.request_error c "POST" "/v2/rss/create" = None ->
  putio.round_trip c (sent_by_Create c data) = Err err ->
  rssFeedResource_Create r req resp log =
    Returned (mkResponse (State resp)
                (diag.Append (Diagnostics resp) diags ++ [client_error "Unable to create rss feed, got error: " err])%list,
              (log ++ [DoCalled (sent_by_Create c data)])%list).
Proof.
  intros HG Hno Hreq Herr. unfold rssFeedResource_Create. run_handler HG Hclient.
  rewrite Hno. unfold http.MethodPost. rewrite Hreq.
  fold (sent_by_Create c data). rewrite Herr.
  unfold Diagnostics_AddError. cbn [State Diagnostics]. by rewrite AddError_fresh.
Qed.

Lemma Create_success req createdFeed :
  Get (Create_Config req) = (data, diags) ->
  diag.HasError (diag.Append (Diagnostics resp) diags) = false ->
  putio.request_error c "POST" "/v2/rss/create" = None ->
  putio.round_trip c (sent_by_Create c data) = Ok createdFeed ->
  rssFeedResource_Create r req resp log =
    Returned (mkResponse (Some (encode_data (record_of_feed (Feed createdFeed))))
                (diag.Append (Diagnostics resp) diags),
              (log ++ [DoCalled (sent_by_Create c data)])%list).
Proof.
  intros HG Hno Hreq Hok. unfold rssFeedResource_Create. run_handler HG Hclient.
  rewrite Hno. unfold http.MethodPost. rewrite Hreq.
  fold (sent_by_Create c data). rewrite Hok. reflexivity.
Qed.

(** *** Read *)

Lemma Read_decode_failure req :
  Get (Read_State req) = (data, diags) ->
  diag.HasError (diag.Append (Diagnostics resp) diags) = true ->
  rssFeedResource_Read r req resp log = Returned (mkResponse (State resp) (diag.Append (Diagnostics resp) diags), log).
Proof.
  intros HG Herr. unfold rssFeedResource_Read. run_handler HG Hclient.
  by rewrite Herr.
Qed.

Lemma Read_request_failure req err :
  Get (Read_State req) = (data, diags) ->
  diag.HasError (diag.Append (Diagnostics resp) diags) = false ->
  putio.request_error c "GET" ("/v2/rss/" ++ types.String_Value (ID data)) = Some err ->
  rssFeedResource_Read r req resp log =
    Returned (mkResponse (State resp)
                (diag.Append (Diagnostics resp) diags ++ [client_error "Unable to create rss feed request, got error: " err])%list,
              log).
Proof.
  intros HG Hno Herr. unfold rssFeedResource_Read. run_handler HG Hclient.
  rewrite Hno. unfold http.MethodGet. rewrite Herr.
  unfold Diagnostics_AddError. cbn [State Diagnostics]. by rewrite AddError_fresh.
Qed.

Lemma Read_call_failure req err :
  Get (Read_State req) = (data, diags) ->
  diag.HasError (diag.Append (Diagnostics resp) diags) = false ->
  putio.request_error c "GET" ("/v2/rss/" ++ types.String_Value (ID data)) = None ->
  putio.round_trip c (sent_by_Read c data) = Err err ->
  rssFeedResource_Read r req resp log =
    Returned (mkResponse (State resp)
                (diag.Append (Diagnostics resp) diags ++ [client_error "Unable to read rss feed, got error: " err])%list,
              (log ++ [DoCalled (sent_by_Read c data)])%list).
Proof.
  intros HG Hno Hreq Herr. unfold rssFeedResource_Read. run_handler HG Hclient.
  rewrite Hno. unfold http.MethodGet, http.NoBody. rewrite Hreq.
  fold (sent_by_Read c data). rewrite Herr.
  unfold Diagnostics_AddError. cbn [State Diagnostics]. by rewrite AddError_fresh.
Qed.

Lemma Read_success req feedData :
  Get (Read_State req) = (data, diags) ->
  diag.HasError (diag.Append (Diagnostics resp) diags) = false ->
  putio.request_error c "GET" ("/v2/rss/" ++ types.String_Value (ID data)) = None ->
  putio.round_trip c (sent_by_Read c data) = Ok feedData ->
  rssFeedResource_Read r req resp log =
    Returned (mkResponse (Some (encode_data (record_of_feed (Feed feedData))))
                (diag.Append (Diagnostics resp) diags),
              (log ++ [DoCalled (sent_by_Read c data)])%list).
Proof.
  intros HG Hno Hreq Hok. unfold rssFeedResource_Read. run_handler HG Hclient.
  rewrite Hno. unfold http.MethodGet, http.NoBody. rewrite Hreq.
  fold (sent_by_Read c data). rewrite Hok. reflexivity.
Qed.

(** *** Update *)

Lemma Update_decode_failure req :
  Get (Update_Plan req) = (data, diags) ->
  diag.HasError (diag.Append (Diagnostics resp) diags) = true ->
  rssFeedResource_Update r req resp log = Returned (mkResponse (State resp) (diag.Append (Diagnostics resp) diags), log).
Proof.
  intros HG Herr. unfold rssFeedResource_Update. run_handler HG Hclient.
  by rewrite Herr.
Qed.

Lemma Update_success req :
  Get (Update_Plan req) = (data, diags) ->
  diag.HasError (diag.Append (Diagnostics resp) diags) = false ->
  rssFeedResource_Update r req resp log =
    Returned (mkResponse (Some (encode_data data)) (diag.Append (Diagnostics resp) diags),
              log).
Proof.
  intros HG Hno. unfold rssFeedResource_Update. run_handler HG Hclient.
  by rewrite Hno.
Qed.

(** *** Delete *)

Lemma Delete_decode_failure req :
  Get (Delete_State req) = (data, diags) ->
  diag.HasError (diag.Append (Diagnostics resp) diags) = true ->
  rssFeedResource_Delete r req resp log = Returned (mkResponse (State resp) (diag.Append (Diagnostics resp) diags), log).
Proof.
  intros HG Herr. unfold rssFeedResource_Delete. run_handler HG Hclient.
  by rewrite Herr.
Qed.

Lemma Delete_request_failure req err :
  Get (Delete_State req) = (data, diags) ->
  diag.HasError (diag.Append (Diagnostics resp) diags) = false ->
  putio.request_error c "POST" ("/v2/rss/" ++ types.String_Value (ID data) ++ "/delete")
    = Some err ->
  rssFeedResource_Delete r req resp log =
    Returned (mkResponse (State resp)
                (diag.Append (Diagnostics resp) diags ++ [client_error
                   "Unable to create rss feed request deletiob, got error: " err])%list,
              log).
Proof.
  intros HG Hno Herr. unfold rssFeedResource_Delete. run_handler HG Hclient.
  rewrite Hno. unfold http.MethodPost. rewrite Herr.
  unfold Diagnostics_AddError. cbn [State Diagnostics]. by rewrite AddError_fresh.
Qed.

Lemma Delete_call_failure req err :
  Get (Delete_State req) = (data, diags) ->
  diag.HasError (diag.Append (Diagnostics resp) diags) = false ->
  putio.request_error c "POST" ("/v2/rss/" ++ types.String_Value (ID data) ++ "/delete")
    = None ->
  putio.round_trip c (sent_by_Delete c data) = Err err ->
  rssFeedResource_Delete r req resp log =
    Returned (mkResponse (State resp)
                (diag.Append (Diagnostics resp) diags ++ [client_error "Unable to delete rss feed, got error: " err])%list,
              (log ++ [DoCalled (sent_by_Delete c data)])%list).
Proof.
  intros HG Hno Hreq Herr. unfold rssFeedResource_Delete. run_handler HG Hclient.
  rewrite Hno. unfold http.MethodPost, http.NoBody. rewrite Hreq.
  fold (sent_by_Delete c data). rewrite Herr.
  unfold Diagnostics_AddError. cbn [State Diagnostics]. by rewrite AddError_fresh.
Qed.

Lemma Delete_success req feedData :
  Get (Delete_State req) = (data, diags) ->
  diag.HasError (diag.Append (Diagnostics resp) diags) = false ->
  putio.request_error c "POST" ("/v2/rss/" ++ types.String_Value (ID data) ++ "/delete")
    = None ->
  putio.round_trip c (sent_by_Delete c data) = Ok feedData ->
  rssFeedResource_Delete r req resp log =
    Returned (mkResponse (State resp) (diag.Append (Diagnostics resp) diags), (log ++ [DoCalled (sent_by_Delete c data)])%list).
Proof.
  intros HG Hno Hreq Hok. unfold rssFeedResource_Delete. run_handler HG Hclient.
  rewrite Hno. unfold http.MethodPost, http.NoBody. rewrite Hreq.
  fold (sent_by_Delete c data). by rewrite Hok.
Qed.

End Paths.


(** ** The default modifiers on null and on other values *)

Lemma IsNull_OfInt64 i : attr.IsNull (attr.OfInt64 i) = types.Int64_Null i.
Proof. destruct i as [[] [] v]; reflexivity. Qed.

Lemma IsNull_OfBool b : attr.IsNull (attr.OfBool b) = types.Bool_Null b.
Proof. destruct b as [[] [] v]; reflexivity. Qed.

Lemma IsNull_OfString s : attr.IsNull (attr.OfString s) = types.String_Null s.
Proof. destruct s as [[] [] v]; reflexivity. Qed.

(** [ValueAs] never fails on a value of the target's type, and keeps its
    null flag. *)
Lemma ValueAs_Int64_same_type i :
  exists str, tfsdk.ValueAs_Int64 (attr.OfInt64 i) = (str, [])
              /\ types.Int64_Null str = types.Int64_Null i.
Proof.
  destruct i as [u n v]. unfold tfsdk.ValueAs_Int64, types.Int64_ToTerraformValue.
  destruct n, u; simpl; try (eexists; split; reflexivity).
  rewrite bool_decide_eq_true_2 by apply int64_range. eexists; split; reflexivity.
Qed.

Lemma ValueAs_Bool_same_type b :
  exists v, tfsdk.ValueAs_Bool (attr.OfBool b) = (v, [])
            /\ types.Bool_Null v = types.Bool_Null b.
Proof. destruct b as [[] [] v]; eexists; split; reflexivity. Qed.

Lemma ValueAs_String_same_type s :
  exists v, tfsdk.ValueAs_String (attr.OfString s) = (v, [])
            /\ types.String_Null v = types.String_Null s.
Proof. destruct s as [[] [] v]; eexists; split; reflexivity. Qed.

Lemma int64_default_null m req resp i :
  tfsdk.AttributePlan req = attr.OfInt64 i ->
  types.Int64_Null i = true ->
  modifiers.int64DefaultModifier_Modify m req resp
  = modifiers.set_AttributePlan
      (attr.OfInt64 (types.mkInt64 false false (modifiers.Default m))) resp.
Proof.
  intros Hplan Hnull. unfold modifiers.int64DefaultModifier_Modify. rewrite Hplan.
  destruct (ValueAs_Int64_same_type i) as (str & -> & Hstr). rewrite Hnull in Hstr.
  simpl. rewrite Hstr. by destruct resp.
Qed.

Lemma int64_default_not_null m req resp i :
  tfsdk.AttributePlan req = attr.OfInt64 i ->
  types.Int64_Null i = false ->
  modifiers.int64DefaultModifier_Modify m req resp = resp.
Proof.
  intros Hplan Hnull. unfold modifiers.int64DefaultModifier_Modify. rewrite Hplan.
  destruct (ValueAs_Int64_same_type i) as (str & -> & Hstr). rewrite Hnull in Hstr.
  simpl. rewrite Hstr. by destruct resp.
Qed.

Lemma bool_default_null m req resp b :
  tfsdk.AttributePlan req = attr.OfBool b ->
  types.Bool_Null b = true ->
  modifiers.boolDefaultModifier_Modify m req resp
  = modifiers.set_AttributePlan
      (attr.OfBool (types.mkBool false false (modifiers.BoolDefault_ m))) resp.
Proof.
  intros Hplan Hnull. unfold modifiers.boolDefaultModifier_Modify. rewrite Hplan.
  destruct (ValueAs_Bool_same_type b) as (v & -> & Hv). rewrite Hnull in Hv.
  simpl. rewrite Hv. by destruct resp.
Qed.

Lemma bool_default_not_null m req resp b :
  tfsdk.AttributePlan req = attr.OfBool b ->
  types.Bool_Null b = false ->
  modifiers.boolDefaultModifier_Modify m req resp = resp.
Proof.
  intros Hplan Hnull. unfold modifiers.boolDefaultModifier_Modify. rewrite Hplan.
  destruct (ValueAs_Bool_same_type b) as (v & -> & Hv). rewrite Hnull in Hv.
  simpl. rewrite Hv. by destruct resp.
Qed.

Lemma string_default_null m req resp s :
  tfsdk.AttributePlan req = attr.OfString s ->
  types.String_Null s = true ->
  modifiers.stringDefaultModifier_Modify m req resp
  = modifiers.set_AttributePlan
      (attr.OfString (types.mkString false false (modifiers.StringDefault_ m))) resp.
Proof.
  intros Hplan Hnull. unfold modifiers.stringDefaultModifier_Modify. rewrite Hplan.
  destruct (ValueAs_String_same_type s) as (v & -> & Hv). rewrite Hnull in Hv.
  simpl. rewrite Hv. by destruct resp.
Qed.

Lemma string_default_not_null m req resp s :
  tfsdk.AttributePlan req = attr.OfString s ->
  types.String_Null s = false ->
  modifiers.stringDefaultModifier_Modify m req resp = resp.
Proof.
  intros Hplan Hnull. unfold modifiers.stringDefaultModifier_Modify. rewrite Hplan.
  destruct (ValueAs_String_same_type s) as (v & -> & Hv). rewrite Hnull in Hv.
  simpl. rewrite Hv. by destruct resp.
Qed.

(** The attribute of a plan value of a given type. *)
Lemma type_of_Int64 v : type_of v = Int64Type -> exists i, v = attr.OfInt64 i.
Proof. destruct v; try discriminate; eauto. Qed.

Lemma type_of_Bool v : type_of v = BoolType -> exists b, v = attr.OfBool b.
Proof. destruct v; try discriminate; eauto. Qed.

Lemma type_of_String v : type_of v = StringType -> exists s, v = attr.OfString s.
Proof. destruct v; try discriminate; eauto. Qed.

(** What [Create] persists for an optional attribute. *)
Lemma encoded_feed_attribute x f :
  encode_data (record_of_feed f) !! attribute_name x = Some (returned_value x f).
Proof.
  destruct x; unfold encode_data, record_of_feed; simplify_map_eq; try reflexivity.
  unfold types.Int64_ToTerraformValue. simpl. by rewrite int64_idem.
Qed.

(** What [Create] submits for an optional attribute that the configuration
    omits. *)
Lemma omitted_attribute_submitted x o data :
  decode_data o = Some data ->
  o !! attribute_name x = Some tftypes.VNull ->
  Create_payload data !! attribute_name x
  = Some [form_value (attr.ToTerraformValue (declared_default x))].
Proof.
  intros Hdec Hnull.
  pose proof (decode_data_inv _ _ Hdec) as (_ & _ & _ & H4 & H5 & _ & H7 & H8 & _).
  unfold Create_payload, url.Set_.
  destruct x; cbn [attribute_name] in Hnull; cbn [attribute_name].
  - rewrite Hnull in H4. injection H4 as H4. rewrite <- H4. by simplify_map_eq.
  - rewrite Hnull in H5. injection H5 as H5. rewrite <- H5. by simplify_map_eq.
  - rewrite Hnull in H7. injection H7 as H7. rewrite <- H7. by simplify_map_eq.
  - rewrite Hnull in H8. injection H8 as H8. rewrite <- H8. by simplify_map_eq.
Qed.
(* ===================================================================== *)
(** * The default plan modifiers *)
(* ===================================================================== *)

(** C8. When the int64 default modifier is invoked on a planned value that
    is unknown rather than null, it returns the response as it received it:
    nothing is substituted, no diagnostic is added, and a planned value that
    was unknown is still unknown afterwards. *)
Theorem int64_default_keeps_unknown
    (m : modifiers.int64DefaultModifier) (config state : attr.Value) (value : Z) :
  let plan := attr.OfInt64 (types.mkInt64 true false value) in
  let req := tfsdk.mkModifyAttributePlanRequest config state plan in
  (forall resp, modifiers.int64DefaultModifier_Modify m req resp = resp)
  /\ (forall requiresReplace diags,
        let resp' :=
          modifiers.int64DefaultModifier_Modify m req
            (tfsdk.mkModifyAttributePlanResponse plan requiresReplace diags) in
        tfsdk.resp_AttributePlan resp' = plan
        /\ attr.IsUnknown (tfsdk.resp_AttributePlan resp') = true
        /\ tfsdk.resp_Diagnostics resp' = diags).
Proof.
  intros plan req. split.
  - intros [p rr ds]. reflexivity.
  - intros rr ds. repeat split.
Qed.

(** ** The modifiers of an attribute, in sequence *)

Lemma IsNull_not_unknown v : attr.IsUnknown v = true -> attr.IsNull v = false.
Proof.
  unfold attr.IsUnknown, attr.IsNull. intros Hu%bool_decide_eq_true.
  rewrite Hu. by apply bool_decide_eq_false_2.
Qed.

Lemma IsUnknown_not_null v : attr.IsNull v = true -> attr.IsUnknown v = false.
Proof.
  unfold attr.IsUnknown, attr.IsNull. intros Hn%bool_decide_eq_true.
  rewrite Hn. by apply bool_decide_eq_false_2.
Qed.

(** A modifier that reports nothing hands its planned value to the next. *)
Lemma modifyPlan_step pm rest req diags :
  let modifyResp :=
    modifiers.Modify pm req
      (tfsdk.mkModifyAttributePlanResponse (tfsdk.AttributePlan req) false []) in
  tfsdk.resp_Diagnostics modifyResp = [] ->
  modifiers.modifyPlan (pm :: rest) req diags
  = modifiers.modifyPlan rest
      (tfsdk.mkModifyAttributePlanRequest (tfsdk.AttributeConfig req)
         (tfsdk.AttributeState req) (tfsdk.resp_AttributePlan modifyResp))
      diags.
Proof.
  intros modifyResp Hd. cbn [modifiers.modifyPlan]. fold modifyResp.
  by rewrite Hd.
Qed.

(** [UseStateForUnknown] returns the response as it is for a resource that
    has no state value yet, and for a planned value that is not unknown. *)
Lemma UseStateForUnknown_keeps req resp :
  attr.IsNull (tfsdk.AttributeState req) = true
  \/ attr.IsUnknown (tfsdk.resp_AttributePlan resp) = false ->
  tfsdk.UseStateForUnknown_Modify req resp = resp.
Proof.
  unfold tfsdk.UseStateForUnknown_Modify. intros [->| ->]; [done|].
  by destruct (attr.IsNull _).
Qed.

(** What each default modifier of the schema does, by the planned value. *)
Lemma default_modifier_null x pm req resp :
  last (modifiers_of x) = Some pm ->
  type_of (tfsdk.AttributePlan req) = type_of (declared_default x) ->
  attr.IsNull (tfsdk.AttributePlan req) = true ->
  modifiers.Modify pm req resp = modifiers.set_AttributePlan (declared_default x) resp.
Proof.
  destruct x; intros [= <-] Hty Hnull; cbn [declared_default type_of] in Hty.
  - apply type_of_Int64 in Hty as [v Hv]. rewrite Hv, IsNull_OfInt64 in Hnull.
    exact (int64_default_null _ req resp v Hv Hnull).
  - apply type_of_Bool in Hty as [v Hv]. rewrite Hv, IsNull_OfBool in Hnull.
    exact (bool_default_null _ req resp v Hv Hnull).
  - apply type_of_String in Hty as [v Hv]. rewrite Hv, IsNull_OfString in Hnull.
    exact (string_default_null _ req resp v Hv Hnull).
  - apply type_of_Bool in Hty as [v Hv]. rewrite Hv, IsNull_OfBool in Hnull.
    exact (bool_default_null _ req resp v Hv Hnull).
Qed.

Lemma default_modifier_not_null x pm req resp :
  last (modifiers_of x) = Some pm ->
  type_of (tfsdk.AttributePlan req) = type_of (declared_default x) ->
  attr.IsNull (tfsdk.AttributePlan req) = false ->
  modifiers.Modify pm req resp = resp.
Proof.
  destruct x; intros [= <-] Hty Hnull; cbn [declared_default type_of] in Hty.
  - apply type_of_Int64 in Hty as [v Hv]. rewrite Hv, IsNull_OfInt64 in Hnull.
    exact (int64_default_not_null _ req resp v Hv Hnull).
  - apply type_of_Bool in Hty as [v Hv]. rewrite Hv, IsNull_OfBool in Hnull.
    exact (bool_default_not_null _ req resp v Hv Hnull).
  - apply type_of_String in Hty as [v Hv]. rewrite Hv, IsNull_OfString in Hnull.
    exact (string_default_not_null _ req resp v Hv Hnull).
  - apply type_of_Bool in Hty as [v Hv]. rewrite Hv, IsNull_OfBool in Hnull.
    exact (bool_default_not_null _ req resp v Hv Hnull).
Qed.

(** The modifiers of an optional attribute are its default modifier, after
    [UseStateForUnknown] for two of the attributes. *)
Lemma modifiers_of_shape x :
  exists pm,
    last (modifiers_of x) = Some pm
    /\ (modifiers_of x = [pm] \/ modifiers_of x = [modifiers.UseStateForUnknown; pm]).
Proof. destruct x; eexists; (split; [reflexivity|]); auto. Qed.

(** A planned value that reaches the modifiers null leaves them as the
    declared default. *)
Lemma planned_default_of_null x config state plan :
  type_of plan = type_of (declared_default x) ->
  attr.IsNull plan = true ->
  modifiers.modifyPlan (modifiers_of x)
    (tfsdk.mkModifyAttributePlanRequest config state plan) []
  = (declared_default x, []).
Proof.
  intros Hty Hnull. destruct (modifiers_of_shape x) as (pm & Hlast & [-> | ->]).
  - rewrite modifyPlan_step; cbn [tfsdk.AttributePlan];
      rewrite (default_modifier_null x pm) by done; reflexivity.
  - rewrite modifyPlan_step; cbn [tfsdk.AttributePlan modifiers.Modify];
      rewrite UseStateForUnknown_keeps
        by (right; by apply IsUnknown_not_null); [|reflexivity].
    cbn [tfsdk.resp_AttributePlan tfsdk.AttributeConfig tfsdk.AttributeState].
    rewrite modifyPlan_step; cbn [tfsdk.AttributePlan];
      rewrite (default_modifier_null x pm) by done; reflexivity.
Qed.

(** A planned value that reaches the modifiers unknown, for a resource that
    has no state value yet, leaves them unknown. *)
Lemma planned_unknown_stays x config state plan :
  type_of plan = type_of (declared_default x) ->
  attr.IsUnknown plan = true ->
  attr.IsNull state = true ->
  modifiers.modifyPlan (modifiers_of x)
    (tfsdk.mkModifyAttributePlanRequest config state plan) []
  = (plan, []).
Proof.
  intros Hty Hunknown Hstate. pose proof (IsNull_not_unknown _ Hunknown) as Hnull.
  destruct (modifiers_of_shape x) as (pm & Hlast & [-> | ->]).
  - rewrite modifyPlan_step; cbn [tfsdk.AttributePlan];
      rewrite (default_modifier_not_null x pm) by done; reflexivity.
  - rewrite modifyPlan_step; cbn [tfsdk.AttributePlan modifiers.Modify];
      rewrite UseStateForUnknown_keeps by (left; done); [|reflexivity].
    cbn [tfsdk.resp_AttributePlan tfsdk.AttributeConfig tfsdk.AttributeState].
    rewrite modifyPlan_step; cbn [tfsdk.AttributePlan];
      rewrite (default_modifier_not_null x pm) by done; reflexivity.
Qed.

(** C1 (amended). For every optional attribute with a declared default D
    (parent_dir_id = 0, delete_old_files = false, unwanted_keywords = the
    empty string, paused = false), the default plan modifier that the schema
    attaches to the attribute, invoked on a planned value that is null,
    replaces the planned value with D; invoked on a planned value that is
    not null, it returns the response untouched.  So the schema's modifiers
    of the attribute plan D whenever its planned value reaches them null,
    whatever the configuration and the state hold; a planned value that
    reaches them unknown, for a resource without state, is planned unknown
    and D is not substituted.  When the configuration omits the attribute,
    the value that Create submits to the service is D; the value persisted
    after Create is the one the service returns for the attribute, and so it
    is D whenever the service returns D. *)
Theorem default_modifier_contract (x : OptionalAttribute) :
  exists (a : Attribute) (pm : modifiers.AttributePlanModifier),
    rssFeedResourceType_GetSchema !! attribute_name x = Some a
    /\ Optional a = true
    /\ last (PlanModifiers a) = Some pm
    /\ type_of (declared_default x) = Type_ a
    /\ (forall req resp,
          type_of (tfsdk.AttributePlan req) = Type_ a ->
          attr.IsNull (tfsdk.AttributePlan req) = true ->
          modifiers.Modify pm req resp
          = modifiers.set_AttributePlan (declared_default x) resp)
    /\ (forall req resp,
          type_of (tfsdk.AttributePlan req) = Type_ a ->
          attr.IsNull (tfsdk.AttributePlan req) = false ->
          modifiers.Modify pm req resp = resp)
    /\ (forall config state plan,
          type_of plan = Type_ a ->
          attr.IsNull plan = true ->
          modifiers.modifyPlan (PlanModifiers a)
            (tfsdk.mkModifyAttributePlanRequest config state plan) []
          = (declared_default x, []))
    /\ (forall config state plan,
          type_of plan = Type_ a ->
          attr.IsUnknown plan = true ->
          attr.IsNull state = true ->
          modifiers.modifyPlan (PlanModifiers a)
            (tfsdk.mkModifyAttributePlanRequest config state plan) []
          = (plan, [])
          /\ plan <> declared_default x)
    /\ (forall r c req resp log o data created,
          client (provider_ r) = Some c ->
          Create_Config req = Some o ->
          decode_data o = Some data ->
          o !! attribute_name x = Some tftypes.VNull ->
          diag.HasError (Diagnostics resp) = false ->
          putio.request_error c "POST" "/v2/rss/create" = None ->
          putio.round_trip c (sent_by_Create c data) = Ok created ->
          Create_payload data !! attribute_name x
          = Some [form_value (attr.ToTerraformValue (declared_default x))]
          /\ exists st,
               rssFeedResource_Create r req resp log
               = Returned (mkResponse (Some st) (Diagnostics resp),
                           (log ++ [DoCalled (sent_by_Create c data)])%list)
               /\ st !! attribute_name x = Some (returned_value x (Feed created))
               /\ (returned_value x (Feed created)
                   = attr.ToTerraformValue (declared_default x) ->
                   st !! attribute_name x
                   = Some (attr.ToTerraformValue (declared_default x)))).
Proof.
  assert (forall r c req resp log o data created,
            client (provider_ r) = Some c ->
            Create_Config req = Some o ->
            decode_data o = Some data ->
            o !! attribute_name x = Some tftypes.VNull ->
            diag.HasError (Diagnostics resp) = false ->
            putio.request_error c "POST" "/v2/rss/create" = None ->
            putio.round_trip c (sent_by_Create c data) = Ok created ->
            Create_payload data !! attribute_name x
            = Some [form_value (attr.ToTerraformValue (declared_default x))]
            /\ exists st,
                 rssFeedResource_Create r req resp log
                 = Returned (mkResponse (Some st) (Diagnostics resp),
                             (log ++ [DoCalled (sent_by_Create c data)])%list)
                 /\ st !! attribute_name x = Some (returned_value x (Feed created))
                 /\ (returned_value x (Feed created)
                     = attr.ToTerraformValue (declared_default x) ->
                     st !! attribute_name x
                     = Some (attr.ToTerraformValue (declared_default x))))
    as HCreate.
  { intros r c req resp log o data created Hc Hcfg Hdec Hnull Hno Hreq Hok.
    split; [by apply (omitted_attribute_submitted x o data)|].
    exists (encode_data (record_of_feed (Feed created))). split.
    - apply (Create_success r c Hc resp log data [] req created); auto.
      rewrite Hcfg. by apply Get_decoded.
    - rewrite encoded_feed_attribute. split; [done|]. by intros <-. }
  pose proof (default_modifier_null x) as Hnull.
  pose proof (default_modifier_not_null x) as Hkeep.
  pose proof (planned_default_of_null x) as Hplanned.
  pose proof (planned_unknown_stays x) as Hunknown.
  assert (forall plan, attr.IsUnknown plan = true -> plan <> declared_default x) as Hne.
  { intros plan Hu ->. by destruct x. }
  destruct x; (eexists; eexists; split; [reflexivity|]);
    (split; [reflexivity|]); (split; [reflexivity|]); (split; [reflexivity|]);
    (split; [intros req resp; by apply Hnull|]);
    (split; [intros req resp; by apply Hkeep|]);
    (split; [exact Hplanned|]);
    (split; [|exact HCreate]);
    intros config state plan Hty Hu Hst;
    (split; [by apply Hunknown | by apply Hne]).
Qed.

(** The contract at work.  The acceptance test's configuration omits
    parent_dir_id: a planned value that is null is planned 0, one that is
    unknown stays unknown; Create submits 0, the service returns what was
    submitted, and the tracked state holds the default. *)
Lemma default_modifier_contract_witness :
  modifiers.modifyPlan [modifiers.UseStateForUnknown; modifiers.In64Default 0]
    (tfsdk.mkModifyAttributePlanRequest (null_of Int64Type) (null_of Int64Type)
       (null_of Int64Type)) []
  = (attr.OfInt64 (types.mkInt64 false false 0), [])
  /\ modifiers.modifyPlan [modifiers.UseStateForUnknown; modifiers.In64Default 0]
       (tfsdk.mkModifyAttributePlanRequest (null_of Int64Type) (null_of Int64Type)
          (attr.OfInt64 (types.mkInt64 true false 0))) []
     = (attr.OfInt64 (types.mkInt64 true false 0), [])
  /\ exists st,
       rssFeedResource_Create (resource_of (answering echo_feed)) example_create
         fresh_response []
       = Returned (mkResponse (Some st) [],
                   [DoCalled (sent_by_Create (answering echo_feed) example_data)])
       /\ st !! "parent_dir_id" = Some (tftypes.VNumber 0).
Proof.
  destruct (default_modifier_contract parent_dir_id)
    as (a & pm & Ha & _ & _ & _ & _ & _ & Hplanned & Hunknown & HCreate).
  injection Ha as <-.
  split; [apply Hplanned; reflexivity|].
  split; [apply Hunknown; reflexivity|].
  destruct (HCreate (resource_of (answering echo_feed)) (answering echo_feed)
              example_create fresh_response [] example_config example_data echo_feed)
    as (_ & st & Hrun & _ & Hpersist); try reflexivity.
  exists st. split; [exact Hrun|]. apply Hpersist. reflexivity.
Defined.

(** Against C1 as the specification words it (when the user omits the
    attribute, the planned value and the value persisted after Create equal
    D).  The configuration omits parent_dir_id, whose default is 0.  Its
    planned value, unknown for the resource to create, leaves the schema's
    modifiers unknown, not 0; and when the service answers with
    parent_dir_id = 7, the value persisted after Create is 7. *)
Lemma persisted_default_counterexample :
  example_config !! attribute_name parent_dir_id = Some tftypes.VNull
  /\ (exists planned,
        modifiers.modifyPlan (modifiers_of parent_dir_id)
          (tfsdk.mkModifyAttributePlanRequest (null_of Int64Type) (null_of Int64Type)
             (attr.OfInt64 (types.mkInt64 true false 0))) []
        = (planned, [])
        /\ attr.IsUnknown planned = true
        /\ planned <> declared_default parent_dir_id)
  /\ exists st log',
       rssFeedResource_Create (resource_of (answering moved_feed)) example_create
         fresh_response []
       = Returned (mkResponse (Some st) [], log')
       /\ st !! attribute_name parent_dir_id = Some (tftypes.VNumber 7)
       /\ st !! attribute_name parent_dir_id
          <> Some (attr.ToTerraformValue (declared_default parent_dir_id)).
Proof.
  split; [reflexivity|]. split.
  { eexists. split; [reflexivity|]. split; [reflexivity|]. intros [=]. }
  exists (encode_data (record_of_feed (Feed moved_feed))). eexists. split.
  - apply (Create_success (resource_of (answering moved_feed)) (answering moved_feed)
             eq_refl fresh_response [] example_data [] example_create moved_feed);
      reflexivity.
  - split; [reflexivity|]. intros [=].
Qed.

(* ===================================================================== *)
(** * The record mapper *)
(* ===================================================================== *)

(** A field that decodes from a null or an unknown attribute holds the zero
    value of its type. *)
Lemma Int64_decoded_zero v i :
  types.Int64_ValueFromTerraform v = Some i ->
  types.Int64_Null i = true -> types.Int64_Value i = 0.
Proof.
  destruct v; simpl; try (intros [= <-]; done).
  case_bool_decide; intros [= <-]; done.
Qed.

Lemma Bool_decoded_zero v b :
  types.Bool_ValueFromTerraform v = Some b ->
  types.Bool_Null b = true -> types.Bool_Value b = false.
Proof. destruct v; simpl; intros [= <-]; done. Qed.

Lemma String_decoded_zero v s :
  types.String_ValueFromTerraform v = Some s ->
  types.String_Null s = true -> types.String_Value s = "".
Proof. destruct v; simpl; intros [= <-]; done. Qed.











(** C3. Update performs no call to the remote service: for every planned
    record that decodes, Update returns with the plan written verbatim as
    the new tracked state, and the log of client events is the one it
    started from. *)
Theorem Update_writes_plan_without_remote_call r req resp log plan data :
  Update_Plan req = Some plan ->
  decode_data plan = Some data ->
  diag.HasError (Diagnostics resp) = false ->
  rssFeedResource_Update r req resp log
  = Returned (mkResponse (Some plan) (Diagnostics resp), log)
  /\ encode_data data = plan.
Proof.
  intros Hplan Hdec Hno.
  pose proof (decode_encode _ _ Hdec) as Hsame. split; [|exact Hsame].
  rewrite (Update_success r resp log data [] req); [by rewrite Hsame | | done].
  rewrite Hplan. by apply Get_decoded.
Qed.

Lemma Update_writes_plan_without_remote_call_witness :
  rssFeedResource_Update (mkResource zero_provider)
    (mkUpdateResourceRequest (Some example_config) (Some example_plan) (Some example_state))
    fresh_response []
  = Returned (mkResponse (Some example_plan) [], []).
Proof.
  apply (Update_writes_plan_without_remote_call (mkResource zero_provider)
           (mkUpdateResourceRequest (Some example_config) (Some example_plan)
              (Some example_state))
           fresh_response [] example_plan
           (mkData (types.mkString true false "") (types.mkString false false "one")
              (types.mkString false false "https://google.fr")
              (types.mkInt64 false false 0) (types.mkBool false false false)
              (types.mkString false false "foo") (types.mkString false false "")
              (types.mkBool false false false)));
    reflexivity.
Defined.

Lemma unclaimed_claimed names (o : tftypes.Object) k :
  k ∈ names -> unclaimed names o !! k = None.
Proof.
  induction names as [|n names IH]; simpl; [by intros ?%elem_of_nil|].
  intros [->|Hk]%elem_of_cons.
  - apply lookup_delete_eq.
  - destruct (decide (n = k)) as [->|Hne]; [apply lookup_delete_eq|].
    rewrite lookup_delete_ne by done. by apply IH.
Qed.

Lemma encode_data_unclaimed d : unclaimed attribute_names (encode_data d) = ∅.
Proof.
  apply map_eq. intros k. rewrite lookup_empty.
  destruct (decide (k ∈ attribute_names)) as [Hin|Hout].
  - by apply unclaimed_claimed.
  - rewrite unclaimed_lookup by done.
    unfold attribute_names in Hout.
    repeat (apply not_elem_of_cons in Hout as [? Hout]).
    unfold encode_data. by simplify_map_eq.
Qed.

(** The state that holds the record of a feed decodes to that record. *)
Lemma decode_encoded_feed f :
  decode_data (encode_data (record_of_feed f)) = Some (record_of_feed f).
Proof.
  unfold decode_data. rewrite (bool_decide_eq_true_2 _ (encode_data_unclaimed _)).
  replace (encode_data (record_of_feed f) !! "id")
    with (Some (tftypes.VString (strconv.Itoa (Feed_ID f))))
    by (unfold encode_data; by simplify_map_eq).
  replace (encode_data (record_of_feed f) !! "title")
    with (Some (tftypes.VString (Feed_Title f)))
    by (unfold encode_data; by simplify_map_eq).
  replace (encode_data (record_of_feed f) !! "rss_source_url")
    with (Some (tftypes.VString (Feed_RssSourceURL f)))
    by (unfold encode_data; by simplify_map_eq).
  replace (encode_data (record_of_feed f) !! "parent_dir_id")
    with (Some (tftypes.VNumber (int64 (Feed_ParentDirID f))))
    by (unfold encode_data, types.Int64_ToTerraformValue; simplify_map_eq;
        by rewrite int64_idem).
  replace (encode_data (record_of_feed f) !! "delete_old_files")
    with (Some (tftypes.VBool (Feed_DeleteOldFiles f)))
    by (unfold encode_data; by simplify_map_eq).
  replace (encode_data (record_of_feed f) !! "keyword")
    with (Some (tftypes.VString (Feed_Keyword f)))
    by (unfold encode_data; by simplify_map_eq).
  replace (encode_data (record_of_feed f) !! "unwanted_keywords")
    with (Some (tftypes.VString (Feed_UnwantedKeywords f)))
    by (unfold encode_data; by simplify_map_eq).
  replace (encode_data (record_of_feed f) !! "paused")
    with (Some (tftypes.VBool (Feed_Paused f)))
    by (unfold encode_data; by simplify_map_eq).
  cbn [mbind option_bind types.String_ValueFromTerraform types.Bool_ValueFromTerraform
         types.Int64_ValueFromTerraform].
  rewrite bool_decide_eq_true_2 by apply int64_range. reflexivity.
Qed.

(** C4. On a response without error, Create overwrites every field of the
    external record (id, title, rss_source_url, parent_dir_id,
    delete_old_files, keyword, unwanted_keywords, paused) from the nested
    feed data of the response, whatever the record held before; Read treats
    the response of its GET in the same way: for the same wire feed record
    both write the same external record to the state. *)
Theorem Create_and_Read_map_the_feed_alike
    r c (created : CreateResourceRequest) (read : ReadResourceRequest)
    resp resp' log log' data data' diags diags' (feedData : putioFeedData) :
  client (provider_ r) = Some c ->
  Get (Create_Config created) = (data, diags) ->
  diag.HasError (diag.Append (Diagnostics resp) diags) = false ->
  putio.request_error c "POST" "/v2/rss/create" = None ->
  putio.round_trip c (sent_by_Create c data) = Ok feedData ->
  Get (Read_State read) = (data', diags') ->
  diag.HasError (diag.Append (Diagnostics resp') diags') = false ->
  putio.request_error c "GET" ("/v2/rss/" ++ types.String_Value (ID data')) = None ->
  putio.round_trip c (sent_by_Read c data') = Ok feedData ->
  exists after_create after_read events events',
    rssFeedResource_Create r created resp log = Returned (after_create, events)
    /\ rssFeedResource_Read r read resp' log' = Returned (after_read, events')
    /\ State after_create = Some (encode_data (record_of_feed (Feed feedData)))
    /\ State after_read = State after_create
    /\ Get (State after_create) = (record_of_feed (Feed feedData), [])
    /\ Get (State after_read) = (record_of_feed (Feed feedData), []).
Proof.
  intros Hc HG Hno Hreq Hok HG' Hno' Hreq' Hok'.
  do 4 eexists.
  split; [by apply (Create_success r c Hc resp log data diags created feedData)|].
  split; [by apply (Read_success r c Hc resp' log' data' diags' read feedData)|].
  cbn [State]. do 2 (split; [reflexivity|]).
  split; apply Get_decoded, decode_encoded_feed.
Qed.

(** The test's feed: created from its configuration, read back from its
    state, with the same response. *)
Lemma Create_and_Read_map_the_feed_alike_witness :
  exists after_create after_read events events',
    rssFeedResource_Create (resource_of (answering echo_feed)) example_create
      fresh_response [] = Returned (after_create, events)
    /\ rssFeedResource_Read (resource_of (answering echo_feed))
         (mkReadResourceRequest (Some example_state)) fresh_response []
       = Returned (after_read, events')
    /\ State after_create = Some example_state
    /\ State after_read = State after_create.
Proof.
  destruct (Create_and_Read_map_the_feed_alike (resource_of (answering echo_feed))
              (answering echo_feed) example_create
              (mkReadResourceRequest (Some example_state))
              fresh_response fresh_response [] [] example_data example_state_data
              [] [] echo_feed eq_refl eq_refl eq_refl eq_refl eq_refl eq_refl eq_refl
              eq_refl eq_refl)
    as (ac & ar & ev & ev' & HC & HR & HS & HS' & _).
  exists ac, ar, ev, ev'. repeat split; assumption.
Defined.

(** C5. In Create, Read and Delete, the lifecycle operations that call the
    service, a request that cannot be built and a remote call that fails
    (status outside 2xx, transport error) are each reported as one more
    diagnostic, an error with the label "Client Error" whose detail ends
    with the text of the underlying error, and the operation returns with
    the tracked state of the response as it found it. *)
Theorem client_failures_abort_without_state_write r c resp log data diags err :
  client (provider_ r) = Some c ->
  diag.HasError (diag.Append (Diagnostics resp) diags) = false ->
  let before := diag.Append (Diagnostics resp) diags in
  (forall req,
     Get (Create_Config req) = (data, diags) ->
     (putio.request_error c "POST" "/v2/rss/create" = Some err ->
      aborts_with resp before "Unable to create rss feed request, got error: " err log
        (rssFeedResource_Create r req resp log))
     /\ (putio.request_error c "POST" "/v2/rss/create" = None ->
         putio.round_trip c (sent_by_Create c data) = Err err ->
         aborts_with resp before "Unable to create rss feed, got error: " err
           (log ++ [DoCalled (sent_by_Create c data)])%list
           (rssFeedResource_Create r req resp log)))
  /\ (forall req,
        Get (Read_State req) = (data, diags) ->
        (putio.request_error c "GET" ("/v2/rss/" ++ types.String_Value (ID data))
         = Some err ->
         aborts_with resp before "Unable to create rss feed request, got error: " err log
           (rssFeedResource_Read r req resp log))
        /\ (putio.request_error c "GET" ("/v2/rss/" ++ types.String_Value (ID data))
            = None ->
            putio.round_trip c (sent_by_Read c data) = Err err ->
            aborts_with resp before "Unable to read rss feed, got error: " err
              (log ++ [DoCalled (sent_by_Read c data)])%list
              (rssFeedResource_Read r req resp log)))
  /\ (forall req,
        Get (Delete_State req) = (data, diags) ->
        (putio.request_error c "POST"
           ("/v2/rss/" ++ types.String_Value (ID data) ++ "/delete") = Some err ->
         aborts_with resp before
           "Unable to create rss feed request deletiob, got error: " err log
           (rssFeedResource_Delete r req resp log))
        /\ (putio.request_error c "POST"
              ("/v2/rss/" ++ types.String_Value (ID data) ++ "/delete") = None ->
            putio.round_trip c (sent_by_Delete c data) = Err err ->
            aborts_with resp before "Unable to delete rss feed, got error: " err
              (log ++ [DoCalled (sent_by_Delete c data)])%list
              (rssFeedResource_Delete r req resp log))).
Proof.
  intros Hc Hno before. unfold aborts_with, before.
  split; [|split]; intros req HG; split.
  - intros Hreq. by apply (Create_request_failure r c Hc resp log data diags).
  - intros Hreq Hcall. by apply (Create_call_failure r c Hc resp log data diags).
  - intros Hreq. by apply (Read_request_failure r c Hc resp log data diags).
  - intros Hreq Hcall. by apply (Read_call_failure r c Hc resp log data diags).
  - intros Hreq. by apply (Delete_request_failure r c Hc resp log data diags).
  - intros Hreq Hcall. by apply (Delete_call_failure r c Hc resp log data diags).
Qed.

(** A service that rejects the calls: Read of the tracked feed reports the
    rejection and leaves the state of the response alone. *)
Lemma client_failures_abort_without_state_write_witness :
  rssFeedResource_Read (resource_of rejected)
    (mkReadResourceRequest (Some example_state))
    (mkResponse (Some example_state) []) []
  = Returned
      (mkResponse (Some example_state)
         [diag.mkDiagnostic diag.SeverityError "Client Error"
            "Unable to read rss feed, got error: 404 Not Found"],
       [DoCalled (sent_by_Read rejected example_state_data)]).
Proof.
  destruct (client_failures_abort_without_state_write (resource_of rejected) rejected
              (mkResponse (Some example_state) []) [] example_state_data []
              "404 Not Found" eq_refl eq_refl)
    as (_ & HRead & _).
  destruct (HRead (mkReadResourceRequest (Some example_state)) eq_refl) as (_ & Hcall).
  exact (Hcall eq_refl eq_refl).
Defined.

(** C7. After every successful Create or Read the identifier in the tracked
    state is a string, the decimal form of the integer identifier of the
    wire record; the integer can be read back from that string, and two
    identifiers with the same string are the same integer. *)
Theorem identifier_is_decimal_string r c resp log data diags (feedData : putioFeedData) :
  client (provider_ r) = Some c ->
  diag.HasError (diag.Append (Diagnostics resp) diags) = false ->
  - 2 ^ 63 <= Feed_ID (Feed feedData) < 2 ^ 63 ->
  (forall req,
     Get (Create_Config req) = (data, diags) ->
     putio.request_error c "POST" "/v2/rss/create" = None ->
     putio.round_trip c (sent_by_Create c data) = Ok feedData ->
     exists after events st,
       rssFeedResource_Create r req resp log = Returned (after, events)
       /\ State after = Some st
       /\ st !! "id" = Some (tftypes.VString (strconv.Itoa (Feed_ID (Feed feedData))))
       /\ ID (Get (State after)).1
          = types.mkString false false (strconv.Itoa (Feed_ID (Feed feedData))))
  /\ (forall req,
        Get (Read_State req) = (data, diags) ->
        putio.request_error c "GET" ("/v2/rss/" ++ types.String_Value (ID data)) = None ->
        putio.round_trip c (sent_by_Read c data) = Ok feedData ->
        exists after events st,
          rssFeedResource_Read r req resp log = Returned (after, events)
          /\ State after = Some st
          /\ st !! "id" = Some (tftypes.VString (strconv.Itoa (Feed_ID (Feed feedData))))
          /\ ID (Get (State after)).1
             = types.mkString false false (strconv.Itoa (Feed_ID (Feed feedData))))
  /\ decimal_value (strconv.Itoa (Feed_ID (Feed feedData))) = Some (Feed_ID (Feed feedData))
  /\ (forall other : Z,
        - 2 ^ 63 <= other < 2 ^ 63 ->
        strconv.Itoa other = strconv.Itoa (Feed_ID (Feed feedData)) ->
        other = Feed_ID (Feed feedData)).
Proof.
  intros Hc Hno Hid.
  assert (forall n, - 2 ^ 63 <= n < 2 ^ 63 -> decimal_value (strconv.Itoa n) = Some n)
    as Hback.
  { intros n Hn. unfold strconv.Itoa. rewrite (int64_in_range n Hn).
    apply decimal_value_FormatInt10. }
  assert (forall f, encode_data (record_of_feed f) !! "id"
                    = Some (tftypes.VString (strconv.Itoa (Feed_ID f)))) as Hlookup.
  { intros f. unfold encode_data. by simplify_map_eq. }
  split; [|split; [|split]].
  - intros req HG Hreq Hok. do 3 eexists.
    split; [by apply (Create_success r c Hc resp log data diags req feedData)|].
    cbn [State]. split; [reflexivity|]. split; [apply Hlookup|].
    by rewrite (Get_decoded _ _ (decode_encoded_feed _)).
  - intros req HG Hreq Hok. do 3 eexists.
    split; [by apply (Read_success r c Hc resp log data diags req feedData)|].
    cbn [State]. split; [reflexivity|]. split; [apply Hlookup|].
    by rewrite (Get_decoded _ _ (decode_encoded_feed _)).
  - by apply Hback.
  - intros other Hother Hsame.
    pose proof (Hback other Hother) as H1. rewrite Hsame, (Hback _ Hid) in H1.
    by injection H1.
Qed.

Lemma identifier_is_decimal_string_witness :
  decimal_value (strconv.Itoa 42) = Some 42
  /\ exists after events st,
       rssFeedResource_Create (resource_of (answering echo_feed)) example_create
         fresh_response [] = Returned (after, events)
       /\ State after = Some st
       /\ st !! "id" = Some (tftypes.VString "42").
Proof.
  assert (- 2 ^ 63 <= Feed_ID (Feed echo_feed) < 2 ^ 63) as Hid by (simpl; lia).
  destruct (identifier_is_decimal_string (resource_of (answering echo_feed))
              (answering echo_feed) fresh_response [] example_data [] echo_feed
              eq_refl eq_refl Hid)
    as (HCreate & _ & Hback & _).
  split; [exact Hback|].
  destruct (HCreate example_create eq_refl eq_refl eq_refl)
    as (after & events & st & Hrun & Hst & Hlookup & _).
  exists after, events, st. repeat split; assumption.
Defined.

(* ===================================================================== *)
(** * The provider *)
(* ===================================================================== *)

Section ConfigurePaths.

Variable String_String : types.String -> string.
Variable Getenv : string -> string.
Variable connect : string -> putio.Client putioFeedData.

Variable p : provider.
Variable req : ConfigureProviderRequest.
Variable resp : ConfigureProviderResponse.
Variable log : list Event.
Variable data : providerData.
Variable diags : diag.Diagnostics.

Hypothesis Hdecoded : Get_providerData (Configure_Config req) = (data, diags).

(** The diagnostics once [Configure] has appended those of decoding. *)
Variable decoded : diag.Diagnostics.
Hypothesis Hbefore : decoded = diag.Append (Configure_Diagnostics resp) diags.

(** The token that [Configure] settles on. *)
Variable token : string.
Hypothesis Htoken :
  token = if types.String_Null (PutIOOAuthToken data) then Getenv "PUTIO_OAUTH_TOKEN"
          else String_String (PutIOOAuthToken data).

Lemma Configure_decode_failure :
  diag.HasError decoded = true ->
  provider_Configure String_String Getenv connect p req resp log = Returned ((p, mkConfigureProviderResponse decoded), log).
Proof.
  intros Herr. unfold provider_Configure. rewrite Hdecoded.
  cbn [Configure_Diagnostics]. rewrite <- Hbefore. by rewrite Herr.
Qed.

Lemma Configure_empty_token :
  diag.HasError decoded = false ->
  token = "" ->
  provider_Configure String_String Getenv connect p req resp log
  = Returned ((p, mkConfigureProviderResponse (decoded ++ [token_missing])%list), log).
Proof.
  intros Hno Hempty. unfold provider_Configure. rewrite Hdecoded.
  cbn [Configure_Diagnostics]. rewrite <- Hbefore. rewrite Hno, <- Htoken.
  rewrite bool_decide_eq_true_2 by done. by rewrite AddError_fresh.
Qed.

Lemma Configure_validation_failure err :
  diag.HasError decoded = false ->
  token <> "" ->
  putio.validate (connect token) = Some err ->
  provider_Configure String_String Getenv connect p req resp log
  = Returned ((p, mkConfigureProviderResponse (decoded ++ [token_refused err])%list),
              (log ++ [NewClientCalled token; ValidateTokenCalled])%list).
Proof.
  intros Hno Hset Hval. unfold provider_Configure. rewrite Hdecoded.
  cbn [Configure_Diagnostics]. rewrite <- Hbefore. rewrite Hno, <- Htoken.
  rewrite bool_decide_eq_false_2 by done.
  unfold NewClient, putio.ValidateToken, emit, mbind, Go_bind, deref, mret, Go_ret.
  rewrite Hval, AddError_fresh by done. by rewrite <- app_assoc.
Qed.

Lemma Configure_success :
  diag.HasError decoded = false ->
  token <> "" ->
  putio.validate (connect token) = None ->
  provider_Configure String_String Getenv connect p req resp log
  = Returned ((mkProvider (Some (connect token)) true (version p),
               mkConfigureProviderResponse decoded),
              (log ++ [NewClientCalled token; ValidateTokenCalled])%list).
Proof.
  intros Hno Hset Hval. unfold provider_Configure. rewrite Hdecoded.
  cbn [Configure_Diagnostics]. rewrite <- Hbefore. rewrite Hno, <- Htoken.
  rewrite bool_decide_eq_false_2 by done.
  unfold NewClient, putio.ValidateToken, emit, mbind, Go_bind, deref, mret, Go_ret.
  rewrite Hval. by rewrite <- app_assoc.
Qed.

End ConfigurePaths.

(** The length of a string between quotation marks. *)
Lemma in_quotes_length (s : string) :
  String.length (in_quotes s) = S (S (String.length s)).
Proof.
  unfold in_quotes. cbn [String.length]. f_equal.
  induction s as [|x s IH]; [reflexivity|].
  change (S (String.length (s ++ String (ascii_of_nat 34) "")) = S (S (String.length s))).
  by rewrite IH.
Qed.

Section ConfiguredToken.

Variable String_String : types.String -> string.
Variable Getenv : string -> string.
Variable connect : string -> putio.Client putioFeedData.

(** What the framework's [String] method returns for a known value: the
    value as [fmt]'s verb [%q] writes it, which for a value of plain bytes
    is the value between quotation marks. *)
Hypothesis String_quotes :
  forall v, all_chars plain_byte v = true ->
            String_String (types.mkString false false v) = in_quotes v.

(** C6 (code defect). When oauth_token is set in the configuration,
    Configure does not use the configured value as the token: it uses what
    the [String] method returns for it, the value between quotation marks.
    For every configured value v of plain bytes, the client is built with,
    and the service is asked to validate, the token made of a quotation
    mark, v and a quotation mark, which is not v; whether the provider is
    configured depends on what the service answers for that token.  That
    token is never the empty string: a configured empty token does not
    lead to the error "Unable to find put.io token", and a client is
    built. *)
Theorem configured_token_is_sent_in_quotes p req resp log v diags :
  Get_providerData (Configure_Config req)
  = (mkProviderData (types.mkString false false v), diags) ->
  diag.HasError (diag.Append (Configure_Diagnostics resp) diags) = false ->
  all_chars plain_byte v = true ->
  let before := diag.Append (Configure_Diagnostics resp) diags in
  let token := in_quotes v in
  let Configure := provider_Configure String_String Getenv connect p req resp log in
  token <> v
  /\ token <> ""
  /\ (putio.validate (connect token) = None ->
      Configure
      = Returned ((mkProvider (Some (connect token)) true (version p),
                   mkConfigureProviderResponse before),
                  (log ++ [NewClientCalled token; ValidateTokenCalled])%list))
  /\ (forall err,
        putio.validate (connect token) = Some err ->
        Configure
        = Returned ((p, mkConfigureProviderResponse (before ++ [token_refused err])%list),
                    (log ++ [NewClientCalled token; ValidateTokenCalled])%list))
  /\ Configure
     <> Returned ((p, mkConfigureProviderResponse (before ++ [token_missing])%list), log).
Proof.
  intros HG Hno Hplain before token Configure.
  assert (token <> v) as Hquoted.
  { unfold token. intros Heq. apply (f_equal String.length) in Heq.
    rewrite in_quotes_length in Heq. lia. }
  assert (token <> "") as Hset by done.
  assert (token = if types.String_Null (PutIOOAuthToken
                                          (mkProviderData (types.mkString false false v)))
                  then Getenv "PUTIO_OAUTH_TOKEN"
                  else String_String (PutIOOAuthToken
                                        (mkProviderData (types.mkString false false v))))
    as Htoken by (cbn; by rewrite String_quotes).
  pose proof (Configure_success String_String Getenv connect p req resp log _ diags HG
                before eq_refl token Htoken Hno Hset) as Hvalid.
  pose proof (fun err => Configure_validation_failure String_String Getenv connect p req
                resp log _ diags HG before eq_refl token Htoken err Hno Hset) as Hrefused.
  fold Configure in Hvalid, Hrefused.
  split; [exact Hquoted|]. split; [exact Hset|].
  split; [exact Hvalid|]. split; [exact Hrefused|].
  destruct (putio.validate (connect token)) as [err|] eqn:Hval.
  - rewrite (Hrefused err eq_refl). intros [= _ Hlog].
    apply (f_equal length) in Hlog. rewrite length_app in Hlog. simpl in Hlog. lia.
  - rewrite (Hvalid eq_refl). intros [= _ _ Hlog].
    apply (f_equal length) in Hlog. rewrite length_app in Hlog. simpl in Hlog. lia.
Qed.

End ConfiguredToken.

(** The configuration sets the token that the service validates, secret:
    the service is asked about the token in quotation marks, refuses it, and
    the provider is left unconfigured.  The configuration sets the empty
    token: no error is reported and the provider is configured. *)
Lemma configured_token_is_sent_in_quotes_witness :
  putio.validate (accepting "secret" "secret") = None
  /\ provider_Configure quoted (environment "") (accepting "secret")
       (New "test") (mkConfigureProviderRequest (Some (token_config "secret")))
       (mkConfigureProviderResponse []) []
     = Returned ((New "test",
                  mkConfigureProviderResponse [token_refused "401 Unauthorized"]),
                 [NewClientCalled (in_quotes "secret"); ValidateTokenCalled])
  /\ provider_Configure quoted (environment "") (fun _ => answering echo_feed)
       (New "test") (mkConfigureProviderRequest (Some (token_config "")))
       (mkConfigureProviderResponse []) []
     = Returned ((mkProvider (Some (answering echo_feed)) true "test",
                  mkConfigureProviderResponse []),
                 [NewClientCalled (in_quotes ""); ValidateTokenCalled]).
Proof.
  split; [reflexivity|]. split.
  - destruct (configured_token_is_sent_in_quotes quoted (environment "")
                (accepting "secret") (fun v _ => eq_refl)
                (New "test") (mkConfigureProviderRequest (Some (token_config "secret")))
                (mkConfigureProviderResponse []) [] "secret" []
                eq_refl eq_refl eq_refl)
      as (_ & _ & _ & Hrefused & _).
    exact (Hrefused "401 Unauthorized" eq_refl).
  - destruct (configured_token_is_sent_in_quotes quoted (environment "")
                (fun _ => answering echo_feed) (fun v _ => eq_refl)
                (New "test") (mkConfigureProviderRequest (Some (token_config "")))
                (mkConfigureProviderResponse []) [] "" []
                eq_refl eq_refl eq_refl)
      as (_ & _ & Hvalid & _).
    exact (Hvalid eq_refl).
Defined.

Section ProviderConfiguration.

Variable String_String : types.String -> string.
Variable Getenv : string -> string.
Variable connect : string -> putio.Client putioFeedData.

(** C9. Provider configuration is atomic.  On each failure path, an error
    while decoding the configuration, an empty token after the fallback,
    a token that the service does not validate, Configure returns the
    provider it was given: client and configured are unchanged, so
    configured stays false.  The two fields are assigned together, and
    only on the path where the token has been validated. *)
Theorem Configure_is_atomic p req resp log data diags :
  Get_providerData (Configure_Config req) = (data, diags) ->
  let before := diag.Append (Configure_Diagnostics resp) diags in
  let token :=
    if types.String_Null (PutIOOAuthToken data) then Getenv "PUTIO_OAUTH_TOKEN"
    else String_String (PutIOOAuthToken data) in
  let Configure := provider_Configure String_String Getenv connect p req resp log in
  (diag.HasError before = true ->
   Configure = Returned ((p, mkConfigureProviderResponse before), log))
  /\ (diag.HasError before = false -> token = "" ->
      Configure
      = Returned ((p, mkConfigureProviderResponse (before ++ [token_missing])%list), log))
  /\ (forall err,
        diag.HasError before = false -> token <> "" ->
        putio.validate (connect token) = Some err ->
        Configure
        = Returned ((p, mkConfigureProviderResponse (before ++ [token_refused err])%list),
                    (log ++ [NewClientCalled token; ValidateTokenCalled])%list))
  /\ (diag.HasError before = false -> token <> "" ->
      putio.validate (connect token) = None ->
      Configure
      = Returned ((mkProvider (Some (connect token)) true (version p),
                   mkConfigureProviderResponse before),
                  (log ++ [NewClientCalled token; ValidateTokenCalled])%list))
  /\ (exists p' resp' log',
        Configure = Returned ((p', resp'), log')
        /\ (diag.HasError (Configure_Diagnostics resp') = true -> p' = p)
        /\ (diag.HasError (Configure_Diagnostics resp') = true ->
            configured p = false -> configured p' = false)
        /\ (diag.HasError (Configure_Diagnostics resp') = false ->
            putio.validate (connect token) = None
            /\ ValidateTokenCalled ∈ log'
            /\ p' = mkProvider (Some (connect token)) true (version p))).
Proof.
  intros HG before token Configure.
  pose proof (Configure_decode_failure String_String Getenv connect p req resp
                log data diags HG before eq_refl) as Hdecode.
  pose proof (Configure_empty_token String_String Getenv connect p req resp
                log data diags HG before eq_refl token eq_refl) as Hempty.
  pose proof (fun err => Configure_validation_failure String_String Getenv connect
                p req resp log data diags HG before eq_refl token eq_refl err)
    as Hrefused.
  pose proof (Configure_success String_String Getenv connect p req resp
                log data diags HG before eq_refl token eq_refl) as Hvalid.
  fold Configure in Hdecode, Hempty, Hrefused, Hvalid.
  split; [exact Hdecode|]. split; [exact Hempty|].
  split; [exact Hrefused|]. split; [exact Hvalid|].
  destruct (diag.HasError before) eqn:Hbefore.
  { do 3 eexists. split; [by apply Hdecode|]. cbn [Configure_Diagnostics].
    rewrite Hbefore. repeat split; done. }
  destruct (decide (token = "")) as [Htoken|Htoken].
  { do 3 eexists. split; [by apply Hempty|]. cbn [Configure_Diagnostics].
    unfold token_missing. rewrite HasError_snoc_error. repeat split; done. }
  destruct (putio.validate (connect token)) as [err|] eqn:Hval.
  { do 3 eexists. split; [by apply Hrefused|]. cbn [Configure_Diagnostics].
    unfold token_refused. rewrite HasError_snoc_error. repeat split; done. }
  do 3 eexists. split; [by apply Hvalid|]. cbn [Configure_Diagnostics].
  rewrite Hbefore. repeat split; try done.
  apply elem_of_app. right. set_solver.
Qed.

End ProviderConfiguration.

(** The token comes from the environment and the service refuses it: the
    provider stays unconfigured. *)
Lemma Configure_is_atomic_witness :
  provider_Configure quoted (environment "expired") (fun _ => rejected)
    (New "test") (mkConfigureProviderRequest (Some tokenless_config))
    (mkConfigureProviderResponse []) []
  = Returned ((New "test",
               mkConfigureProviderResponse [token_refused "401 Unauthorized"]),
              [NewClientCalled "expired"; ValidateTokenCalled]).
Proof.
  destruct (Configure_is_atomic quoted (environment "expired") (fun _ => rejected)
              (New "test") (mkConfigureProviderRequest (Some tokenless_config))
              (mkConfigureProviderResponse []) []
              (mkProviderData (types.mkString false true "")) [] eq_refl)
    as (_ & _ & Hrefused & _).
  apply (Hrefused "401 Unauthorized"); [reflexivity| |reflexivity].
  vm_compute. discriminate.
Defined.

(** C10. convertProviderType never panics.  If the value is not of the
    concrete provider type, or is a nil pointer of that type, it returns the
    zero provider and one error diagnostic; otherwise it returns the
    provider the pointer refers to, and no diagnostic. *)
Theorem convertProviderType_never_panics (i : tfsdk_Provider) (log : list Event) :
  convertProviderType i log <> Panicked
  /\ match i with
     | ProviderPointer (Some v) => convertProviderType i log = Returned ((v, []), log)
     | _ =>
         exists detail,
           convertProviderType i log
           = Returned ((zero_provider,
                        [diag.mkDiagnostic diag.SeverityError
                           "Unexpected Provider Instance Type" detail]), log)
     end.
Proof.
  destruct i as [|[v|]|name]; (split; [discriminate|]);
    try reflexivity; eexists; reflexivity.
Qed.

(* ===================================================================== *)
(** * Further properties of the handlers *)
(* ===================================================================== *)

(** ** Diagnostics only grow *)

Lemma Append_prefix (ds new : diag.Diagnostics) : ds `prefix_of` diag.Append ds new.
Proof.
  revert ds. induction new as [|d new IH]; intros ds; simpl; [done|].
  destruct (diag.Contains ds d); [apply IH|].
  etrans; [|apply IH]. by apply prefix_app_r.
Qed.

Lemma Append_elem (ds new : diag.Diagnostics) d :
  d ∈ diag.Append ds new <-> d ∈ ds \/ d ∈ new.
Proof.
  revert ds. induction new as [|x new IH]; intros ds; simpl.
  - split; [by left|]. intros [?|?%elem_of_nil]; done.
  - unfold diag.Contains. case_bool_decide as Hin; rewrite IH.
    + rewrite elem_of_cons. split; [tauto|]. intros [?|[->|?]]; tauto.
    + rewrite elem_of_app, list_elem_of_singleton, elem_of_cons. tauto.
Qed.

Lemma HasError_Append (ds new : diag.Diagnostics) :
  diag.HasError (diag.Append ds new) = diag.HasError ds || diag.HasError new.
Proof.
  apply eq_true_iff_eq. rewrite orb_true_iff, !HasError_elem.
  split.
  - intros (d & [Hin|Hin]%Append_elem & Hd); [left|right]; eauto.
  - intros [(d & Hin & Hd)|(d & Hin & Hd)]; exists d; rewrite Append_elem; eauto.
Qed.

Lemma Get_cases (raw : tfsdk.Raw) :
  (exists o data, raw = Some o /\ decode_data o = Some data /\ Get raw = (data, []))
  \/ ((raw ≫= decode_data) = None /\ Get raw = (zero_data, [tfsdk.conversion_error])).
Proof.
  unfold Get. destruct raw as [o|]; simpl.
  - destruct (decode_data o) as [data|] eqn:Hdec; [left; eauto|right; done].
  - right; done.
Qed.

Lemma HasError_conversion_error (ds : diag.Diagnostics) :
  diag.HasError (diag.Append ds [tfsdk.conversion_error]) = true.
Proof. rewrite HasError_Append. simpl. apply orb_true_r. Qed.

(** ** Every path of a handler *)

Lemma Create_cases r c req resp log :
  client (provider_ r) = Some c ->
  let data := (Get (Create_Config req)).1 in
  let before := diag.Append (Diagnostics resp) (Get (Create_Config req)).2 in
  let out := rssFeedResource_Create r req resp log in
  (diag.HasError before = true /\ out = Returned (mkResponse (State resp) before, log))
  \/ (exists err,
        diag.HasError before = false
        /\ out = Returned
                   (mkResponse (State resp)
                      (before ++ [client_error
                                    "Unable to create rss feed request, got error: " err])%list,
                    log))
  \/ (exists err,
        diag.HasError before = false
        /\ putio.round_trip c (sent_by_Create c data) = Err err
        /\ out = Returned
                   (mkResponse (State resp)
                      (before ++ [client_error "Unable to create rss feed, got error: " err])%list,
                    (log ++ [DoCalled (sent_by_Create c data)])%list))
  \/ (exists feed,
        diag.HasError before = false
        /\ putio.round_trip c (sent_by_Create c data) = Ok feed
        /\ out = Returned
                   (mkResponse (Some (encode_data (record_of_feed (Feed feed)))) before,
                    (log ++ [DoCalled (sent_by_Create c data)])%list)).
Proof.
  intros Hc data before out. subst data before out.
  destruct (Get (Create_Config req)) as [data diags] eqn:HG. cbn [fst snd].
  destruct (diag.HasError (diag.Append (Diagnostics resp) diags)) eqn:Hbefore.
  { left. split; [done|]. by apply (Create_decode_failure r c Hc resp log data diags req). }
  right.
  destruct (putio.request_error c "POST" "/v2/rss/create") as [err|] eqn:Hreq.
  { left. exists err. split; [done|]. by apply (Create_request_failure r c Hc resp log data diags req err). }
  right.
  destruct (putio.round_trip c (sent_by_Create c data)) as [feed|err] eqn:Hrt.
  - right. exists feed. do 2 (split; [done|]). by apply (Create_success r c Hc resp log data diags req feed).
  - left. exists err. do 2 (split; [done|]). by apply (Create_call_failure r c Hc resp log data diags req err).
Qed.

Lemma Read_cases r c req resp log :
  client (provider_ r) = Some c ->
  let data := (Get (Read_State req)).1 in
  let before := diag.Append (Diagnostics resp) (Get (Read_State req)).2 in
  let out := rssFeedResource_Read r req resp log in
  (diag.HasError before = true /\ out = Returned (mkResponse (State resp) before, log))
  \/ (exists err,
        diag.HasError before = false
        /\ out = Returned
                   (mkResponse (State resp)
                      (before ++ [client_error
                                    "Unable to create rss feed request, got error: " err])%list,
                    log))
  \/ (exists err,
        diag.HasError before = false
        /\ putio.round_trip c (sent_by_Read c data) = Err err
        /\ out = Returned
                   (mkResponse (State resp)
                      (before ++ [client_error "Unable to read rss feed, got error: " err])%list,
                    (log ++ [DoCalled (sent_by_Read c data)])%list))
  \/ (exists feed,
        diag.HasError before = false
        /\ putio.round_trip c (sent_by_Read c data) = Ok feed
        /\ out = Returned
                   (mkResponse (Some (encode_data (record_of_feed (Feed feed)))) before,
                    (log ++ [DoCalled (sent_by_Read c data)])%list)).
Proof.
  intros Hc data before out. subst data before out.
  destruct (Get (Read_State req)) as [data diags] eqn:HG. cbn [fst snd].
  destruct (diag.HasError (diag.Append (Diagnostics resp) diags)) eqn:Hbefore.
  { left. split; [done|]. by apply (Read_decode_failure r c Hc resp log data diags req). }
  right.
  destruct (putio.request_error c "GET" ("/v2/rss/" ++ types.String_Value (ID data)))
    as [err|] eqn:Hreq.
  { left. exists err. split; [done|]. by apply (Read_request_failure r c Hc resp log data diags req err). }
  right.
  destruct (putio.round_trip c (sent_by_Read c data)) as [feed|err] eqn:Hrt.
  - right. exists feed. do 2 (split; [done|]). by apply (Read_success r c Hc resp log data diags req feed).
  - left. exists err. do 2 (split; [done|]). by apply (Read_call_failure r c Hc resp log data diags req err).
Qed.

Lemma Delete_cases r c req resp log :
  client (provider_ r) = Some c ->
  let data := (Get (Delete_State req)).1 in
  let before := diag.Append (Diagnostics resp) (Get (Delete_State req)).2 in
  let out := rssFeedResource_Delete r req resp log in
  (diag.HasError before = true /\ out = Returned (mkResponse (State resp) before, log))
  \/ (exists err,
        diag.HasError before = false
        /\ out = Returned
                   (mkResponse (State resp)
                      (before ++ [client_error
                                    "Unable to create rss feed request deletiob, got error: "
                                    err])%list,
                    log))
  \/ (exists err,
        diag.HasError before = false
        /\ putio.round_trip c (sent_by_Delete c data) = Err err
        /\ out = Returned
                   (mkResponse (State resp)
                      (before ++ [client_error "Unable to delete rss feed, got error: " err])%list,
                    (log ++ [DoCalled (sent_by_Delete c data)])%list))
  \/ (exists feed,
        diag.HasError before = false
        /\ putio.round_trip c (sent_by_Delete c data) = Ok feed
        /\ out = Returned (mkResponse (State resp) before,
                           (log ++ [DoCalled (sent_by_Delete c data)])%list)).
Proof.
  intros Hc data before out. subst data before out.
  destruct (Get (Delete_State req)) as [data diags] eqn:HG. cbn [fst snd].
  destruct (diag.HasError (diag.Append (Diagnostics resp) diags)) eqn:Hbefore.
  { left. split; [done|]. by apply (Delete_decode_failure r c Hc resp log data diags req). }
  right.
  destruct (putio.request_error c "POST"
              ("/v2/rss/" ++ types.String_Value (ID data) ++ "/delete"))
    as [err|] eqn:Hreq.
  { left. exists err. split; [done|]. by apply (Delete_request_failure r c Hc resp log data diags req err). }
  right.
  destruct (putio.round_trip c (sent_by_Delete c data)) as [feed|err] eqn:Hrt.
  - right. exists feed. do 2 (split; [done|]).
    by apply (Delete_success r c Hc resp log data diags req feed).
  - left. exists err. do 2 (split; [done|]). by apply (Delete_call_failure r c Hc resp log data diags req err).
Qed.

Lemma Update_cases r req resp log :
  let data := (Get (Update_Plan req)).1 in
  let before := diag.Append (Diagnostics resp) (Get (Update_Plan req)).2 in
  let out := rssFeedResource_Update r req resp log in
  (diag.HasError before = true /\ out = Returned (mkResponse (State resp) before, log))
  \/ (diag.HasError before = false
      /\ out = Returned (mkResponse (Some (encode_data data)) before, log)).
Proof.
  intros data before out. subst data before out.
  destruct (Get (Update_Plan req)) as [data diags] eqn:HG. cbn [fst snd].
  destruct (diag.HasError (diag.Append (Diagnostics resp) diags)) eqn:Hbefore.
  - left. split; [done|]. by apply (Update_decode_failure r resp log data diags req).
  - right. split; [done|]. by apply (Update_success r resp log data diags req).
Qed.

Lemma HasError_client_error (ds : diag.Diagnostics) phrase err :
  diag.HasError (ds ++ [client_error phrase err]) = true.
Proof. apply (HasError_snoc_error "Client Error" (phrase ++ err)). Qed.

(** ** What the handlers do on every input *)

(** X1. Each handler makes at most one call to the service.  With a client
    in place, Create, Read and Delete return (they do not panic) with the
    log as they found it or with one more event, the request they sent;
    Update returns with the log as it found it, with or without a client. *)
Theorem handlers_call_the_service_at_most_once r c resp log :
  client (provider_ r) = Some c ->
  (forall req, exists resp',
      rssFeedResource_Create r req resp log = Returned (resp', log)
      \/ rssFeedResource_Create r req resp log
         = Returned (resp', (log ++ [DoCalled (sent_by_Create c
                                                 (Get (Create_Config req)).1)])%list))
  /\ (forall req, exists resp',
        rssFeedResource_Read r req resp log = Returned (resp', log)
        \/ rssFeedResource_Read r req resp log
           = Returned (resp', (log ++ [DoCalled (sent_by_Read c
                                                   (Get (Read_State req)).1)])%list))
  /\ (forall req, exists resp',
        rssFeedResource_Delete r req resp log = Returned (resp', log)
        \/ rssFeedResource_Delete r req resp log
           = Returned (resp', (log ++ [DoCalled (sent_by_Delete c
                                                   (Get (Delete_State req)).1)])%list))
  /\ (forall r' req, exists resp',
        rssFeedResource_Update r' req resp log = Returned (resp', log)).
Proof.
  intros Hc. split; [|split; [|split]].
  - intros req.
    destruct (Create_cases r c req resp log Hc)
      as [[_ ->]|[(err & _ & ->)|[(err & _ & _ & ->)|(feed & _ & _ & ->)]]]; eauto.
  - intros req.
    destruct (Read_cases r c req resp log Hc)
      as [[_ ->]|[(err & _ & ->)|[(err & _ & _ & ->)|(feed & _ & _ & ->)]]]; eauto.
  - intros req.
    destruct (Delete_cases r c req resp log Hc)
      as [[_ ->]|[(err & _ & ->)|[(err & _ & _ & ->)|(feed & _ & _ & ->)]]]; eauto.
  - intros r' req. destruct (Update_cases r' req resp log) as [[_ ->]|[_ ->]]; eauto.
Qed.

Lemma handlers_call_the_service_at_most_once_witness :
  exists resp',
    rssFeedResource_Delete (resource_of (answering echo_feed))
      (mkDeleteResourceRequest (Some example_state)) (mkResponse (Some example_state) []) []
    = Returned (resp', [])
    \/ rssFeedResource_Delete (resource_of (answering echo_feed))
         (mkDeleteResourceRequest (Some example_state))
         (mkResponse (Some example_state) []) []
       = Returned (resp', [DoCalled (sent_by_Delete (answering echo_feed)
                                       example_state_data)]).
Proof.
  destruct (handlers_call_the_service_at_most_once (resource_of (answering echo_feed))
              (answering echo_feed) (mkResponse (Some example_state) []) [] eq_refl)
    as (_ & _ & HDelete & _).
  exact (HDelete (mkDeleteResourceRequest (Some example_state))).
Defined.

(** X2. A configuration, plan or state that does not decode (a null object,
    a missing or an extra attribute, a value of the wrong type) stops every
    handler before it touches the client: the handler returns with the
    conversion error in the diagnostics, the state of the response and the
    log as they were, even when the provider has no client. *)
Theorem undecodable_input_stops_every_handler r resp log :
  let stopped :=
    Returned (mkResponse (State resp)
                (diag.Append (Diagnostics resp) [tfsdk.conversion_error]), log) in
  diag.HasError (diag.Append (Diagnostics resp) [tfsdk.conversion_error]) = true
  /\ (forall req, (Create_Config req ≫= decode_data) = None ->
                  rssFeedResource_Create r req resp log = stopped)
  /\ (forall req, (Read_State req ≫= decode_data) = None ->
                  rssFeedResource_Read r req resp log = stopped)
  /\ (forall req, (Update_Plan req ≫= decode_data) = None ->
                  rssFeedResource_Update r req resp log = stopped)
  /\ (forall req, (Delete_State req ≫= decode_data) = None ->
                  rssFeedResource_Delete r req resp log = stopped).
Proof.
  intros stopped. subst stopped.
  pose proof (HasError_conversion_error (Diagnostics resp)) as Herr.
  split; [exact Herr|].
  assert (forall raw, (raw ≫= decode_data) = None ->
                      Get raw = (zero_data, [tfsdk.conversion_error])) as HG.
  { intros raw Hraw. unfold Get. by rewrite Hraw. }
  split; [|split; [|split]]; intros req Hraw.
  - unfold rssFeedResource_Create. rewrite (HG _ Hraw).
    cbn [Diagnostics_Append Diagnostics State]. by rewrite Herr.
  - unfold rssFeedResource_Read. rewrite (HG _ Hraw).
    cbn [Diagnostics_Append Diagnostics State]. by rewrite Herr.
  - unfold rssFeedResource_Update. rewrite (HG _ Hraw).
    cbn [Diagnostics_Append Diagnostics State]. by rewrite Herr.
  - unfold rssFeedResource_Delete. rewrite (HG _ Hraw).
    cbn [Diagnostics_Append Diagnostics State]. by rewrite Herr.
Qed.

(** Read of a state that holds a number where the identifier should be,
    through a provider that was never configured. *)
Lemma undecodable_input_stops_every_handler_witness :
  rssFeedResource_Read (mkResource zero_provider)
    (mkReadResourceRequest (Some (<["id" := tftypes.VNumber 42]> example_state)))
    (mkResponse (Some example_state) []) []
  = Returned (mkResponse (Some example_state) [tfsdk.conversion_error], []).
Proof.
  destruct (undecodable_input_stops_every_handler (mkResource zero_provider)
              (mkResponse (Some example_state) []) [])
    as (_ & _ & HRead & _).
  apply HRead. reflexivity.
Defined.

(** X3. Create and Read write the state on the path without error and on no
    other: when they return with an error among the diagnostics the state
    of the response is the one they found; when they return without, the
    service has answered their request with a feed and the state is the
    record of that feed. *)
Theorem Create_and_Read_write_state_only_without_error r c resp log :
  client (provider_ r) = Some c ->
  (forall req, exists resp' log',
      rssFeedResource_Create r req resp log = Returned (resp', log')
      /\ (diag.HasError (Diagnostics resp') = true -> State resp' = State resp)
      /\ (diag.HasError (Diagnostics resp') = false ->
          exists feed,
            putio.round_trip c (sent_by_Create c (Get (Create_Config req)).1) = Ok feed
            /\ State resp' = Some (encode_data (record_of_feed (Feed feed)))))
  /\ (forall req, exists resp' log',
        rssFeedResource_Read r req resp log = Returned (resp', log')
        /\ (diag.HasError (Diagnostics resp') = true -> State resp' = State resp)
        /\ (diag.HasError (Diagnostics resp') = false ->
            exists feed,
              putio.round_trip c (sent_by_Read c (Get (Read_State req)).1) = Ok feed
              /\ State resp' = Some (encode_data (record_of_feed (Feed feed))))).
Proof.
  intros Hc. split; intros req.
  - destruct (Create_cases r c req resp log Hc)
      as [[Hb ->]|[(err & Hb & ->)|[(err & Hb & Hrt & ->)|(feed & Hb & Hrt & ->)]]];
      do 2 eexists; (split; [reflexivity|]); cbn [Diagnostics State];
      rewrite ?HasError_client_error, ?Hb; split; try done.
    intros _. by exists feed.
  - destruct (Read_cases r c req resp log Hc)
      as [[Hb ->]|[(err & Hb & ->)|[(err & Hb & Hrt & ->)|(feed & Hb & Hrt & ->)]]];
      do 2 eexists; (split; [reflexivity|]); cbn [Diagnostics State];
      rewrite ?HasError_client_error, ?Hb; split; try done.
    intros _. by exists feed.
Qed.

Lemma Create_and_Read_write_state_only_without_error_witness :
  exists resp' log',
    rssFeedResource_Read (resource_of rejected) (mkReadResourceRequest (Some example_state))
      (mkResponse (Some example_state) []) [] = Returned (resp', log')
    /\ State resp' = Some example_state.
Proof.
  destruct (Create_and_Read_write_state_only_without_error (resource_of rejected) rejected
              (mkResponse (Some example_state) []) [] eq_refl) as (_ & HRead).
  destruct (HRead (mkReadResourceRequest (Some example_state)))
    as (resp' & log' & Hrun & Herr & Hok).
  exists resp', log'. split; [exact Hrun|].
  destruct (diag.HasError (Diagnostics resp')) eqn:He; [by apply Herr|].
  destruct (Hok eq_refl) as (feed & Hrt & _). discriminate Hrt.
Defined.

(** X4. Delete never writes the state: on every path it returns the state
    of the response as it found it, and it returns without error only when
    the service has answered its request. *)
Theorem Delete_never_writes_state r c req resp log :
  client (provider_ r) = Some c ->
  exists resp' log',
    rssFeedResource_Delete r req resp log = Returned (resp', log')
    /\ State resp' = State resp
    /\ (diag.HasError (Diagnostics resp') = false ->
        log' = (log ++ [DoCalled (sent_by_Delete c (Get (Delete_State req)).1)])%list
        /\ exists feed,
             putio.round_trip c (sent_by_Delete c (Get (Delete_State req)).1) = Ok feed).
Proof.
  intros Hc.
  destruct (Delete_cases r c req resp log Hc)
    as [[Hb ->]|[(err & Hb & ->)|[(err & Hb & Hrt & ->)|(feed & Hb & Hrt & ->)]]];
    do 2 eexists; (split; [reflexivity|]); cbn [Diagnostics State];
    rewrite ?HasError_client_error, ?Hb; split; try done.
  intros _. split; [done|]. by exists feed.
Qed.

Lemma Delete_never_writes_state_witness :
  exists resp' log',
    rssFeedResource_Delete (resource_of (answering echo_feed))
      (mkDeleteResourceRequest (Some example_state))
      (mkResponse (Some example_state) []) [] = Returned (resp', log')
    /\ State resp' = Some example_state.
Proof.
  destruct (Delete_never_writes_state (resource_of (answering echo_feed))
              (answering echo_feed) (mkDeleteResourceRequest (Some example_state))
              (mkResponse (Some example_state) []) [] eq_refl)
    as (resp' & log' & Hrun & Hstate & _).
  exists resp', log'. split; [exact Hrun|exact Hstate].
Defined.

(** X5. Update never touches the client: for every resource, with or
    without a client, it returns with the log unchanged.  It returns with an
    error and the state untouched, or without error and with the plan, an
    object that decodes, as the new state. *)
Theorem Update_never_touches_the_client r req resp log :
  exists resp',
    rssFeedResource_Update r req resp log = Returned (resp', log)
    /\ (diag.HasError (Diagnostics resp') = true -> State resp' = State resp)
    /\ (diag.HasError (Diagnostics resp') = false ->
        exists plan data,
          Update_Plan req = Some plan /\ decode_data plan = Some data
          /\ State resp' = Some plan).
Proof.
  destruct (Update_cases r req resp log) as [[Hb ->]|[Hb ->]];
    eexists; (split; [reflexivity|]); cbn [Diagnostics State]; rewrite Hb;
    split; try done.
  intros _.
  destruct (Get_cases (Update_Plan req))
    as [(plan & data & Hplan & Hdec & HG)|[_ HG]]; rewrite HG in Hb |- *; cbn [fst snd] in *.
  - exists plan, data. by rewrite (decode_encode _ _ Hdec).
  - by rewrite HasError_conversion_error in Hb.
Qed.

(** X6. The handlers only add diagnostics: what the response held when the
    handler was called is a prefix of what it holds when the handler
    returns. *)
Theorem handlers_only_add_diagnostics r c resp log :
  client (provider_ r) = Some c ->
  (forall req resp' log',
     rssFeedResource_Create r req resp log = Returned (resp', log') ->
     Diagnostics resp `prefix_of` Diagnostics resp')
  /\ (forall req resp' log',
        rssFeedResource_Read r req resp log = Returned (resp', log') ->
        Diagnostics resp `prefix_of` Diagnostics resp')
  /\ (forall req resp' log',
        rssFeedResource_Update r req resp log = Returned (resp', log') ->
        Diagnostics resp `prefix_of` Diagnostics resp')
  /\ (forall req resp' log',
        rssFeedResource_Delete r req resp log = Returned (resp', log') ->
        Diagnostics resp `prefix_of` Diagnostics resp').
Proof.
  intros Hc.
  assert (forall new more, Diagnostics resp
                           `prefix_of` (diag.Append (Diagnostics resp) new ++ more)%list)
    as Hmore.
  { intros new more. etrans; [apply (Append_prefix _ new)|]. by apply prefix_app_r. }
  split; [|split; [|split]]; intros req resp' log' Hrun.
  - destruct (Create_cases r c req resp log Hc)
      as [[_ H]|[(err & _ & H)|[(err & _ & _ & H)|(feed & _ & _ & H)]]];
      rewrite H in Hrun; injection Hrun as <- _; cbn [Diagnostics];
      first [apply Append_prefix | apply Hmore].
  - destruct (Read_cases r c req resp log Hc)
      as [[_ H]|[(err & _ & H)|[(err & _ & _ & H)|(feed & _ & _ & H)]]];
      rewrite H in Hrun; injection Hrun as <- _; cbn [Diagnostics];
      first [apply Append_prefix | apply Hmore].
  - destruct (Update_cases r req resp log) as [[_ H]|[_ H]];
      rewrite H in Hrun; injection Hrun as <- _; cbn [Diagnostics]; apply Append_prefix.
  - destruct (Delete_cases r c req resp log Hc)
      as [[_ H]|[(err & _ & H)|[(err & _ & _ & H)|(feed & _ & _ & H)]]];
      rewrite H in Hrun; injection Hrun as <- _; cbn [Diagnostics];
      first [apply Append_prefix | apply Hmore].
Qed.

(** A warning that the response already holds stays in front of the error
    of a rejected call. *)
Lemma handlers_only_add_diagnostics_witness :
  let warning := diag.mkDiagnostic diag.SeverityWarning "Deprecated" "old syntax" in
  exists resp' log',
    rssFeedResource_Read (resource_of rejected) (mkReadResourceRequest (Some example_state))
      (mkResponse (Some example_state) [warning]) [] = Returned (resp', log')
    /\ [warning] `prefix_of` Diagnostics resp'.
Proof.
  intros warning.
  destruct (handlers_only_add_diagnostics (resource_of rejected) rejected
              (mkResponse (Some example_state) [warning]) [] eq_refl) as (_ & HRead & _).
  pose proof (Read_call_failure (resource_of rejected) rejected eq_refl
                (mkResponse (Some example_state) [warning]) [] example_state_data []
                (mkReadResourceRequest (Some example_state)) "404 Not Found"
                eq_refl eq_refl eq_refl eq_refl) as Hrun.
  do 2 eexists. split; [exact Hrun|].
  exact (HRead (mkReadResourceRequest (Some example_state)) _ _ Hrun).
Defined.

(** ** How the handlers compose *)

(** X7. Read uses the tracked state for the identifier and for nothing else:
    two states that decode and hold the same identifier give the same
    request and the same outcome, whatever their other attributes are. *)
Theorem Read_uses_only_the_identifier r req req' resp log data data' :
  Get (Read_State req) = (data, []) ->
  Get (Read_State req') = (data', []) ->
  types.String_Value (ID data) = types.String_Value (ID data') ->
  rssFeedResource_Read r req resp log = rssFeedResource_Read r req' resp log.
Proof.
  intros HG HG' Hid. unfold rssFeedResource_Read. rewrite HG, HG'.
  destruct data as [[u1 n1 id1] t1 s1 p1 d1 k1 w1 z1],
    data' as [[u2 n2 id2] t2 s2 p2 d2 k2 w2 z2].
  cbn in Hid. subst id2. reflexivity.
Qed.

Lemma Read_uses_only_the_identifier_witness :
  rssFeedResource_Read (resource_of (answering moved_feed))
    (mkReadResourceRequest (Some example_state)) fresh_response []
  = rssFeedResource_Read (resource_of (answering moved_feed))
      (mkReadResourceRequest (Some (<["title" := tftypes.VString "renamed"]> example_state)))
      fresh_response [].
Proof.
  apply (Read_uses_only_the_identifier _ _ _ _ _ example_state_data
           (set_Title (types.mkString false false "renamed") example_state_data));
    reflexivity.
Defined.

(** What [State.Get] finds in the state that [Create] or [Read] wrote. *)
Lemma Get_record_of_feed f :
  Get (Some (encode_data (record_of_feed f))) = (record_of_feed f, []).
Proof. apply Get_decoded, decode_encoded_feed. Qed.

(** X8. Read after Create asks for the feed that Create made and, when the
    service answers with the same feed, leaves the response as Create left
    it: the request is a GET of /v2/rss/ followed by the decimal identifier
    of the created feed, and the state does not change. *)
Theorem Read_after_Create_keeps_the_state r c req resp log data diags created :
  client (provider_ r) = Some c ->
  Get (Create_Config req) = (data, diags) ->
  diag.HasError (diag.Append (Diagnostics resp) diags) = false ->
  putio.request_error c "POST" "/v2/rss/create" = None ->
  putio.round_trip c (sent_by_Create c data) = Ok created ->
  let address := "/v2/rss/" ++ strconv.Itoa (Feed_ID (Feed created)) in
  putio.request_error c "GET" address = None ->
  putio.round_trip c (putio.request_for c "GET" address "") = Ok created ->
  exists after events,
    rssFeedResource_Create r req resp log = Returned (after, events)
    /\ rssFeedResource_Read r (mkReadResourceRequest (State after)) after events
       = Returned (after, (events ++ [DoCalled (putio.request_for c "GET" address "")])%list).
Proof.
  intros Hc HG Hno Hreq Hok address Hreq' Hok'.
  do 2 eexists.
  split; [by apply (Create_success r c Hc resp log data diags req created)|].
  rewrite (Read_success r c Hc _ _ (record_of_feed (Feed created)) [] _ created);
    cbn [Read_State State Diagnostics diag.Append]; try done.
  apply Get_record_of_feed.
Qed.

Lemma Read_after_Create_keeps_the_state_witness :
  exists after events,
    rssFeedResource_Create (resource_of (answering echo_feed)) example_create
      fresh_response [] = Returned (after, events)
    /\ rssFeedResource_Read (resource_of (answering echo_feed))
         (mkReadResourceRequest (State after)) after events
       = Returned (after,
                   (events ++ [DoCalled (putio.request_for (answering echo_feed) "GET"
                                           "/v2/rss/42" "")])%list).
Proof.
  exact (Read_after_Create_keeps_the_state (resource_of (answering echo_feed))
           (answering echo_feed) example_create fresh_response [] example_data []
           echo_feed eq_refl eq_refl eq_refl eq_refl eq_refl eq_refl eq_refl).
Defined.

(** X9. Delete after Create deletes the feed that Create made: its request
    is a POST, without body, of /v2/rss/, the decimal identifier of the
    created feed and /delete. *)
Theorem Delete_after_Create_addresses_the_feed r c req resp log data diags created :
  client (provider_ r) = Some c ->
  Get (Create_Config req) = (data, diags) ->
  diag.HasError (diag.Append (Diagnostics resp) diags) = false ->
  putio.request_error c "POST" "/v2/rss/create" = None ->
  putio.round_trip c (sent_by_Create c data) = Ok created ->
  let address := "/v2/rss/" ++ strconv.Itoa (Feed_ID (Feed created)) ++ "/delete" in
  putio.request_error c "POST" address = None ->
  exists after events resp',
    rssFeedResource_Create r req resp log = Returned (after, events)
    /\ rssFeedResource_Delete r (mkDeleteResourceRequest (State after)) after events
       = Returned (resp', (events ++ [DoCalled (putio.request_for c "POST" address "")])%list)
    /\ State resp' = State after.
Proof.
  intros Hc HG Hno Hreq Hok address Hreq'.
  pose proof (Create_success r c Hc resp log data diags req created HG Hno Hreq Hok)
    as Hrun.
  set (after := mkResponse (Some (encode_data (record_of_feed (Feed created))))
                  (diag.Append (Diagnostics resp) diags)) in *.
  assert (Get (Delete_State (mkDeleteResourceRequest (State after)))
          = (record_of_feed (Feed created), [])) as HG'
    by apply Get_record_of_feed.
  destruct (putio.round_trip c (putio.request_for c "POST" address "")) as [feed|err] eqn:Hrt.
  - do 3 eexists. split; [exact Hrun|].
    split; [by apply (Delete_success r c Hc after _ (record_of_feed (Feed created))
                        [] _ feed)
           |reflexivity].
  - do 3 eexists. split; [exact Hrun|].
    split; [by apply (Delete_call_failure r c Hc after _ (record_of_feed (Feed created))
                        [] _ err)
           |reflexivity].
Qed.

Lemma Delete_after_Create_addresses_the_feed_witness :
  exists after events resp',
    rssFeedResource_Create (resource_of (answering echo_feed)) example_create
      fresh_response [] = Returned (after, events)
    /\ rssFeedResource_Delete (resource_of (answering echo_feed))
         (mkDeleteResourceRequest (State after)) after events
       = Returned (resp',
                   (events ++ [DoCalled (putio.request_for (answering echo_feed) "POST"
                                           "/v2/rss/42/delete" "")])%list)
    /\ State resp' = State after.
Proof.
  exact (Delete_after_Create_addresses_the_feed (resource_of (answering echo_feed))
           (answering echo_feed) example_create fresh_response [] example_data []
           echo_feed eq_refl eq_refl eq_refl eq_refl eq_refl eq_refl).
Defined.

(** X10. Import followed by Read rebuilds the record from the identifier
    alone, for an identifier that is the decimal form of an integer, as
    Create writes it.  ImportState makes no call and seeds a state in which
    the identifier is the only attribute that is not null; Read of that
    state asks for /v2/rss/ followed by the identifier, and when the service
    answers, the state is the record of the feed it returned. *)
Theorem Import_then_Read_rebuilds_the_record r c n log feedData :
  let id := strconv.Itoa n in
  client (provider_ r) = Some c ->
  putio.request_error c "GET" ("/v2/rss/" ++ id) = None ->
  putio.round_trip c (putio.request_for c "GET" ("/v2/rss/" ++ id) "") = Ok feedData ->
  exists imported,
    rssFeedResource_ImportState r (mkImportResourceStateRequest id) fresh_response log
    = Returned (imported, log)
    /\ Diagnostics imported = []
    /\ (forall name v, State imported = Some v ->
                       v !! name = if bool_decide (name = "id")
                                   then Some (tftypes.VString id)
                                   else (fun _ => tftypes.VNull)
                                          <$> rssFeedResourceType_GetSchema !! name)
    /\ rssFeedResource_Read r (mkReadResourceRequest (State imported)) imported log
       = Returned (mkResponse (Some (encode_data (record_of_feed (Feed feedData)))) [],
                   (log ++ [DoCalled (putio.request_for c "GET" ("/v2/rss/" ++ id) "")])%list).
Proof.
  intros id Hc Hreq Hok. eexists. split; [reflexivity|]. split; [reflexivity|].
  cbn [State_SetAttribute_id State Diagnostics default fresh_response].
  split.
  - intros name v [= <-]. rewrite lookup_insert. case_decide as Hn.
    + subst name. by rewrite bool_decide_eq_true_2.
    + rewrite bool_decide_eq_false_2 by done. unfold null_object. by rewrite lookup_fmap.
  - assert (Get (Some (<["id" := tftypes.VString id]> null_object))
            = (mkData (types.mkString false false id) (types.mkString false true "")
                 (types.mkString false true "") (types.mkInt64 false true 0)
                 (types.mkBool false true false) (types.mkString false true "")
                 (types.mkString false true "") (types.mkBool false true false), []))
      as HG by reflexivity.
    exact (Read_success r c Hc
             (mkResponse (Some (<["id" := tftypes.VString id]> null_object)) []) log _ []
             (mkReadResourceRequest (Some (<["id" := tftypes.VString id]> null_object)))
             feedData HG eq_refl Hreq Hok).
Qed.

Lemma Import_then_Read_rebuilds_the_record_witness :
  exists imported,
    rssFeedResource_ImportState (resource_of (answering echo_feed))
      (mkImportResourceStateRequest "42") fresh_response [] = Returned (imported, [])
    /\ rssFeedResource_Read (resource_of (answering echo_feed))
         (mkReadResourceRequest (State imported)) imported []
       = Returned (mkResponse (Some example_state) [],
                   [DoCalled (putio.request_for (answering echo_feed) "GET"
                                "/v2/rss/42" "")]).
Proof.
  destruct (Import_then_Read_rebuilds_the_record (resource_of (answering echo_feed))
              (answering echo_feed) 42 [] echo_feed eq_refl eq_refl eq_refl)
    as (imported & Himport & _ & _ & HRead).
  exists imported. split; [exact Himport|exact HRead].
Defined.

(** ** The schema and the struct *)

Lemma schema_dom :
  dom rssFeedResourceType_GetSchema = (list_to_set attribute_names : gset string).
Proof.
  unfold rssFeedResourceType_GetSchema, attribute_names.
  rewrite !dom_insert_L, dom_empty_L. set_solver.
Qed.

Lemma String_conforms v :
  conforms_to StringType v = true <-> is_Some (types.String_ValueFromTerraform v).
Proof. destruct v; simpl; split; try done; by intros [? [=]]. Qed.

Lemma Bool_conforms v :
  conforms_to BoolType v = true <-> is_Some (types.Bool_ValueFromTerraform v).
Proof. destruct v; simpl; split; try done; by intros [? [=]]. Qed.

Lemma Int64_conforms v :
  conforms_to Int64Type v = true <-> is_Some (types.Int64_ValueFromTerraform v).
Proof.
  destruct v; simpl; split; try done; try (by intros [? [=]]);
    case_bool_decide; try done; by intros [? [=]].
Qed.

Lemma bind_lookup_Some {A} (o : tftypes.Object) k v (f : tftypes.Value -> option A) :
  o !! k = Some v -> (o !! k ≫= f) = f v.
Proof. by intros ->. Qed.

Lemma conforming_object_decodes (o : tftypes.Object) :
  conforms o -> exists data, decode_data o = Some data.
Proof.
  intros [Hdom Hty]. rewrite schema_dom in Hdom.
  assert (forall name, name ∈ attribute_names -> is_Some (o !! name)) as Hhas.
  { intros name Hin. apply elem_of_dom. rewrite Hdom. by apply elem_of_list_to_set. }
  assert (unclaimed attribute_names o = ∅) as Hrest.
  { apply map_eq. intros k. rewrite lookup_empty.
    destruct (decide (k ∈ attribute_names)) as [Hin|Hout];
      [by apply unclaimed_claimed|].
    rewrite unclaimed_lookup by done. apply not_elem_of_dom. rewrite Hdom.
    by rewrite elem_of_list_to_set. }
  destruct (Hhas "id") as [v1 E1]; [apply list_elem_of_In; simpl; tauto|].
  destruct (Hhas "title") as [v2 E2]; [apply list_elem_of_In; simpl; tauto|].
  destruct (Hhas "rss_source_url") as [v3 E3]; [apply list_elem_of_In; simpl; tauto|].
  destruct (Hhas "parent_dir_id") as [v4 E4]; [apply list_elem_of_In; simpl; tauto|].
  destruct (Hhas "delete_old_files") as [v5 E5]; [apply list_elem_of_In; simpl; tauto|].
  destruct (Hhas "keyword") as [v6 E6]; [apply list_elem_of_In; simpl; tauto|].
  destruct (Hhas "unwanted_keywords") as [v7 E7]; [apply list_elem_of_In; simpl; tauto|].
  destruct (Hhas "paused") as [v8 E8]; [apply list_elem_of_In; simpl; tauto|].
  pose proof (Hty "id" _ v1 eq_refl E1) as [x1 F1]%String_conforms.
  pose proof (Hty "title" _ v2 eq_refl E2) as [x2 F2]%String_conforms.
  pose proof (Hty "rss_source_url" _ v3 eq_refl E3) as [x3 F3]%String_conforms.
  pose proof (Hty "parent_dir_id" _ v4 eq_refl E4) as [x4 F4]%Int64_conforms.
  pose proof (Hty "delete_old_files" _ v5 eq_refl E5) as [x5 F5]%Bool_conforms.
  pose proof (Hty "keyword" _ v6 eq_refl E6) as [x6 F6]%String_conforms.
  pose proof (Hty "unwanted_keywords" _ v7 eq_refl E7) as [x7 F7]%String_conforms.
  pose proof (Hty "paused" _ v8 eq_refl E8) as [x8 F8]%Bool_conforms.
  eexists. unfold decode_data.
  rewrite (bind_lookup_Some _ _ _ _ E1), F1, (bind_lookup_Some _ _ _ _ E2), F2,
    (bind_lookup_Some _ _ _ _ E3), F3, (bind_lookup_Some _ _ _ _ E4), F4,
    (bind_lookup_Some _ _ _ _ E5), F5, (bind_lookup_Some _ _ _ _ E6), F6,
    (bind_lookup_Some _ _ _ _ E7), F7, (bind_lookup_Some _ _ _ _ E8), F8.
  cbn [mbind option_bind]. rewrite bool_decide_eq_true_2 by done. reflexivity.
Qed.

Lemma decoded_object_conforms (o : tftypes.Object) :
  (exists data, decode_data o = Some data) -> conforms o.
Proof.
  intros [data Hdec].
  apply decode_data_inv in Hdec as (H1 & H2 & H3 & H4 & H5 & H6 & H7 & H8 & Hrest).
  apply bind_lookup_inv in H1 as (v1 & E1 & F1), H2 as (v2 & E2 & F2),
    H3 as (v3 & E3 & F3), H4 as (v4 & E4 & F4), H5 as (v5 & E5 & F5),
    H6 as (v6 & E6 & F6), H7 as (v7 & E7 & F7), H8 as (v8 & E8 & F8).
  split.
  + rewrite schema_dom. apply set_eq. intros k.
    rewrite elem_of_dom, elem_of_list_to_set. split.
    * intros Hk. destruct (decide (k ∈ attribute_names)) as [|Hout]; [done|].
      rewrite <- (unclaimed_lookup attribute_names o k Hout), Hrest, lookup_empty in Hk.
      by destruct Hk.
    * unfold attribute_names. intros Hin.
      repeat (apply elem_of_cons in Hin as [->|Hin]; [eauto|]).
      by apply elem_of_nil in Hin.
  + intros name a v Hschema Hv.
    assert (name ∈ attribute_names) as Hin.
    { apply (elem_of_list_to_set (C:=gset string)). rewrite <- schema_dom.
      apply elem_of_dom. eauto. }
    unfold attribute_names in Hin.
    repeat (apply elem_of_cons in Hin as [->|Hin];
            [injection Hschema as <-; cbn [Type_];
             first [ rewrite E1 in Hv | rewrite E2 in Hv | rewrite E3 in Hv
                   | rewrite E4 in Hv | rewrite E5 in Hv | rewrite E6 in Hv
                   | rewrite E7 in Hv | rewrite E8 in Hv ];
             injection Hv as <-;
             first [ apply String_conforms | apply Int64_conforms | apply Bool_conforms ];
             eauto |]).
    by apply elem_of_nil in Hin.
Qed.

(** X11. The struct and the schema of the resource agree: an object decodes
    into [rssFeedResourceData] exactly when it conforms to the schema, that
    is, when it has the eight attributes of the schema and no other, and
    each is null, unknown or a known value of the type the schema gives it
    (a number being a 64-bit integer). *)
Theorem decoding_succeeds_exactly_on_the_schema (o : tftypes.Object) :
  conforms o <-> exists data, decode_data o = Some data.
Proof. split; [apply conforming_object_decodes|apply decoded_object_conforms]. Qed.

Lemma decoding_succeeds_exactly_on_the_schema_witness :
  conforms example_plan
  /\ ~ conforms (<["parent_dir_id" := tftypes.VString "0"]> example_plan)
  /\ ~ conforms (delete "paused" example_plan).
Proof.
  split; [|split].
  - apply decoding_succeeds_exactly_on_the_schema. eexists. reflexivity.
  - intros [d Hd]%decoding_succeeds_exactly_on_the_schema. discriminate Hd.
  - intros [d Hd]%decoding_succeeds_exactly_on_the_schema. discriminate Hd.
Defined.

Lemma String_reread s :
  exists s', types.String_ValueFromTerraform (types.String_ToTerraformValue s) = Some s'.
Proof. destruct s as [[] [] v]; eexists; reflexivity. Qed.

Lemma Bool_reread b :
  exists b', types.Bool_ValueFromTerraform (types.Bool_ToTerraformValue b) = Some b'.
Proof. destruct b as [[] [] v]; eexists; reflexivity. Qed.

Lemma Int64_reread i :
  exists i', types.Int64_ValueFromTerraform (types.Int64_ToTerraformValue i) = Some i'.
Proof.
  destruct i as [u n v]. unfold types.Int64_ToTerraformValue.
  destruct n, u; simpl; try (eexists; reflexivity).
  rewrite bool_decide_eq_true_2 by apply int64_range. eexists; reflexivity.
Qed.

(** X12. What [State.Set] writes, [State.Get] reads: the state set from any
    record decodes without error, into a record with the same Terraform
    value in every attribute.  So the state that a handler leaves is always
    one the next handler can decode. *)
Theorem State_Set_then_Get (d : rssFeedResourceData) :
  exists d',
    Get (Set_ d).1 = (d', [])
    /\ encode_data d' = encode_data d
    /\ conforms (encode_data d).
Proof.
  assert (exists d', decode_data (encode_data d) = Some d') as [d' Hd'].
  { unfold decode_data. rewrite (bool_decide_eq_true_2 _ (encode_data_unclaimed _)).
    destruct (String_reread (ID d)) as [x1 F1], (String_reread (Title d)) as [x2 F2],
      (String_reread (RssSourceURL d)) as [x3 F3], (Int64_reread (ParentDirID d)) as [x4 F4],
      (Bool_reread (DeleteOldFiles d)) as [x5 F5], (String_reread (Keyword d)) as [x6 F6],
      (String_reread (UnwantedKeywords d)) as [x7 F7], (Bool_reread (Paused d)) as [x8 F8].
    replace (encode_data d !! "id") with (Some (types.String_ToTerraformValue (ID d)))
      by (unfold encode_data; by simplify_map_eq).
    replace (encode_data d !! "title") with (Some (types.String_ToTerraformValue (Title d)))
      by (unfold encode_data; by simplify_map_eq).
    replace (encode_data d !! "rss_source_url")
      with (Some (types.String_ToTerraformValue (RssSourceURL d)))
      by (unfold encode_data; by simplify_map_eq).
    replace (encode_data d !! "parent_dir_id")
      with (Some (types.Int64_ToTerraformValue (ParentDirID d)))
      by (unfold encode_data; by simplify_map_eq).
    replace (encode_data d !! "delete_old_files")
      with (Some (types.Bool_ToTerraformValue (DeleteOldFiles d)))
      by (unfold encode_data; by simplify_map_eq).
    replace (encode_data d !! "keyword")
      with (Some (types.String_ToTerraformValue (Keyword d)))
      by (unfold encode_data; by simplify_map_eq).
    replace (encode_data d !! "unwanted_keywords")
      with (Some (types.String_ToTerraformValue (UnwantedKeywords d)))
      by (unfold encode_data; by simplify_map_eq).
    replace (encode_data d !! "paused")
      with (Some (types.Bool_ToTerraformValue (Paused d)))
      by (unfold encode_data; by simplify_map_eq).
    cbn [mbind option_bind]. rewrite F1, F2, F3, F4, F5, F6, F7, F8.
    cbn [mbind option_bind]. eauto. }
  exists d'. split; [by apply Get_decoded|]. split; [by apply decode_encode|].
  apply decoded_object_conforms. eauto.
Qed.

(* ===================================================================== *)
(** * Further properties of the default modifiers *)
(* ===================================================================== *)

Lemma int64_default_other_type m req resp :
  type_of (tfsdk.AttributePlan req) <> Int64Type ->
  modifiers.int64DefaultModifier_Modify m req resp
  = modifiers.set_Diagnostics
      (diag.Append (tfsdk.resp_Diagnostics resp) [tfsdk.conversion_error]) resp.
Proof.
  intros Hty. unfold modifiers.int64DefaultModifier_Modify.
  destruct (tfsdk.AttributePlan req); [reflexivity|done|reflexivity].
Qed.

(** X13. The int64 default modifier does not touch a planned value that is
    not an int64: the conversion fails, the response gets the conversion
    error, and the planned value and the replacement flag are the ones the
    modifier found, also when that planned value is null. *)
Theorem int64_default_rejects_other_types m req resp :
  type_of (tfsdk.AttributePlan req) <> Int64Type ->
  let resp' := modifiers.int64DefaultModifier_Modify m req resp in
  tfsdk.resp_AttributePlan resp' = tfsdk.resp_AttributePlan resp
  /\ tfsdk.resp_RequiresReplace resp' = tfsdk.resp_RequiresReplace resp
  /\ tfsdk.resp_Diagnostics resp'
     = diag.Append (tfsdk.resp_Diagnostics resp) [tfsdk.conversion_error]
  /\ diag.HasError (tfsdk.resp_Diagnostics resp') = true.
Proof.
  intros Hty resp'. subst resp'. rewrite (int64_default_other_type m req resp Hty).
  cbn [modifiers.set_Diagnostics tfsdk.resp_AttributePlan tfsdk.resp_RequiresReplace
         tfsdk.resp_Diagnostics].
  repeat split. apply HasError_conversion_error.
Qed.

Lemma int64_default_rejects_other_types_witness :
  let null_string := attr.OfString (types.mkString false true "") in
  tfsdk.resp_AttributePlan
    (modifiers.int64DefaultModifier_Modify (modifiers.mkInt64DefaultModifier 0)
       (tfsdk.mkModifyAttributePlanRequest null_string null_string null_string)
       (tfsdk.mkModifyAttributePlanResponse null_string false []))
  = null_string.
Proof.
  intros null_string.
  apply (int64_default_rejects_other_types (modifiers.mkInt64DefaultModifier 0)
           (tfsdk.mkModifyAttributePlanRequest null_string null_string null_string)
           (tfsdk.mkModifyAttributePlanResponse null_string false [])).
  discriminate.
Defined.

(** X14. On a planned int64 the default modifier never leaves a null and
    never reports anything: the planned value it returns is not null, it
    is the default exactly when the planned value was null, the
    diagnostics and the replacement flag are untouched, and running the
    modifier again on its own result changes nothing. *)
Theorem int64_default_never_leaves_null m config state (i : types.Int64) requiresReplace diags :
  let req := tfsdk.mkModifyAttributePlanRequest config state (attr.OfInt64 i) in
  let resp := tfsdk.mkModifyAttributePlanResponse (attr.OfInt64 i) requiresReplace diags in
  let resp' := modifiers.int64DefaultModifier_Modify m req resp in
  attr.IsNull (tfsdk.resp_AttributePlan resp') = false
  /\ tfsdk.resp_AttributePlan resp'
     = (if types.Int64_Null i
        then attr.OfInt64 (types.mkInt64 false false (modifiers.Default m))
        else attr.OfInt64 i)
  /\ tfsdk.resp_RequiresReplace resp' = requiresReplace
  /\ tfsdk.resp_Diagnostics resp' = diags
  /\ modifiers.int64DefaultModifier_Modify m
       (tfsdk.mkModifyAttributePlanRequest config state (tfsdk.resp_AttributePlan resp'))
       resp'
     = resp'.
Proof.
  intros req resp resp'. subst resp'.
  destruct (types.Int64_Null i) eqn:Hnull.
  - rewrite (int64_default_null m req resp i eq_refl Hnull).
    cbn [modifiers.set_AttributePlan tfsdk.resp_AttributePlan tfsdk.resp_RequiresReplace
           tfsdk.resp_Diagnostics resp].
    repeat split.
    by apply (int64_default_not_null m _ _
                (types.mkInt64 false false (modifiers.Default m))).
  - rewrite (int64_default_not_null m req resp i eq_refl Hnull).
    cbn [tfsdk.resp_AttributePlan tfsdk.resp_RequiresReplace tfsdk.resp_Diagnostics resp].
    rewrite IsNull_OfInt64. repeat split; try done.
    by apply (int64_default_not_null m _ _ i).
Qed.

(** ** The modifiers of the schema, in sequence *)

Lemma int64_default_keeps_other m req resp :
  attr.IsNull (tfsdk.AttributePlan req) = false ->
  tfsdk.resp_AttributePlan (modifiers.int64DefaultModifier_Modify m req resp)
  = tfsdk.resp_AttributePlan resp.
Proof.
  intros Hnull. destruct (tfsdk.AttributePlan req) as [s|i|b] eqn:Hplan.
  - rewrite int64_default_other_type; [done|by rewrite Hplan].
  - rewrite IsNull_OfInt64 in Hnull. by rewrite (int64_default_not_null m req resp i).
  - rewrite int64_default_other_type; [done|by rewrite Hplan].
Qed.

Lemma bool_default_keeps_other m req resp :
  attr.IsNull (tfsdk.AttributePlan req) = false ->
  tfsdk.resp_AttributePlan (modifiers.boolDefaultModifier_Modify m req resp)
  = tfsdk.resp_AttributePlan resp.
Proof.
  intros Hnull. destruct (tfsdk.AttributePlan req) as [s|i|b] eqn:Hplan.
  - unfold modifiers.boolDefaultModifier_Modify. by rewrite Hplan.
  - unfold modifiers.boolDefaultModifier_Modify. by rewrite Hplan.
  - rewrite IsNull_OfBool in Hnull. by rewrite (bool_default_not_null m req resp b).
Qed.

Lemma string_default_keeps_other m req resp :
  attr.IsNull (tfsdk.AttributePlan req) = false ->
  tfsdk.resp_AttributePlan (modifiers.stringDefaultModifier_Modify m req resp)
  = tfsdk.resp_AttributePlan resp.
Proof.
  intros Hnull. destruct (tfsdk.AttributePlan req) as [s|i|b] eqn:Hplan.
  - rewrite IsNull_OfString in Hnull. by rewrite (string_default_not_null m req resp s).
  - unfold modifiers.stringDefaultModifier_Modify. by rewrite Hplan.
  - unfold modifiers.stringDefaultModifier_Modify. by rewrite Hplan.
Qed.

(** The planned value that the loop returns after one last modifier. *)
Lemma modifyPlan_last pm req diags :
  (modifiers.modifyPlan [pm] req diags).1
  = tfsdk.resp_AttributePlan
      (modifiers.Modify pm req
         (tfsdk.mkModifyAttributePlanResponse (tfsdk.AttributePlan req) false [])).
Proof. simpl. by destruct (diag.HasError _). Qed.

(** [UseStateForUnknown] keeps a planned value that is not unknown, and
    what it puts in place of an unknown one is not null. *)
Lemma UseStateForUnknown_result req plan :
  let resp' :=
    tfsdk.UseStateForUnknown_Modify req (tfsdk.mkModifyAttributePlanResponse plan false []) in
  tfsdk.resp_Diagnostics resp' = []
  /\ (tfsdk.resp_AttributePlan resp' = plan
      \/ (attr.IsUnknown plan = true
          /\ attr.IsNull (tfsdk.resp_AttributePlan resp') = false)).
Proof.
  unfold tfsdk.UseStateForUnknown_Modify. cbn [tfsdk.resp_AttributePlan].
  destruct (attr.IsNull (tfsdk.AttributeState req)) eqn:Hst; [by split; [|left]|].
  destruct (attr.IsUnknown plan) eqn:Hpl; cbn [negb]; [|by split; [|left]].
  destruct (attr.IsUnknown (tfsdk.AttributeConfig req)); [by split; [|left]|].
  split; [done|]. right. by split.
Qed.

(** X15. However the schema's plan modifiers of an optional attribute are
    fed (any configuration value, any prior state, any planned value of the
    attribute's type), the planned value they leave is never null, and a
    planned value that is known and not null comes out as it went in:
    neither the default nor the prior state overrides it. *)
Theorem planned_optional_attribute_is_never_null (x : OptionalAttribute)
    (config state plan : attr.Value) :
  exists a,
    rssFeedResourceType_GetSchema !! attribute_name x = Some a
    /\ (type_of plan = Type_ a ->
        let planned :=
          (modifiers.modifyPlan (PlanModifiers a)
             (tfsdk.mkModifyAttributePlanRequest config state plan) []).1 in
        attr.IsNull planned = false
        /\ (attr.IsNull plan = false -> attr.IsUnknown plan = false -> planned = plan)
        /\ (attr.IsNull plan = true -> planned = declared_default x)).
Proof.
  assert (forall pm D t,
            (forall req resp, attr.IsNull (tfsdk.AttributePlan req) = false ->
                              tfsdk.resp_AttributePlan (modifiers.Modify pm req resp)
                              = tfsdk.resp_AttributePlan resp) ->
            (forall req resp, type_of (tfsdk.AttributePlan req) = t ->
                              attr.IsNull (tfsdk.AttributePlan req) = true ->
                              modifiers.Modify pm req resp
                              = modifiers.set_AttributePlan D resp) ->
            attr.IsNull D = false ->
            forall p,
              type_of p = t ->
              let planned :=
                (modifiers.modifyPlan [pm]
                   (tfsdk.mkModifyAttributePlanRequest config state p) []).1 in
              attr.IsNull planned = false
              /\ (attr.IsNull p = false -> planned = p)
              /\ (attr.IsNull p = true -> planned = D)) as Hlast.
  { intros pm D t Hkeep Hsubst HD p Hp planned. subst planned.
    rewrite modifyPlan_last. cbn [tfsdk.AttributePlan].
    destruct (attr.IsNull p) eqn:Hnull.
    - rewrite Hsubst by done. cbn [modifiers.set_AttributePlan tfsdk.resp_AttributePlan].
      by repeat split.
    - rewrite Hkeep by done. cbn [tfsdk.resp_AttributePlan]. by repeat split. }
  assert (forall pm D t,
            (forall req resp, attr.IsNull (tfsdk.AttributePlan req) = false ->
                              tfsdk.resp_AttributePlan (modifiers.Modify pm req resp)
                              = tfsdk.resp_AttributePlan resp) ->
            (forall req resp, type_of (tfsdk.AttributePlan req) = t ->
                              attr.IsNull (tfsdk.AttributePlan req) = true ->
                              modifiers.Modify pm req resp
                              = modifiers.set_AttributePlan D resp) ->
            attr.IsNull D = false ->
            type_of plan = t ->
            let planned :=
              (modifiers.modifyPlan [modifiers.UseStateForUnknown; pm]
                 (tfsdk.mkModifyAttributePlanRequest config state plan) []).1 in
            attr.IsNull planned = false
            /\ (attr.IsNull plan = false -> attr.IsUnknown plan = false -> planned = plan)
            /\ (attr.IsNull plan = true -> planned = D)) as Hboth.
  { intros pm D t Hkeep Hsubst HD Hp planned. subst planned.
    change (modifiers.modifyPlan [modifiers.UseStateForUnknown; pm]
              (tfsdk.mkModifyAttributePlanRequest config state plan) [])
      with (let modifyResp :=
              tfsdk.UseStateForUnknown_Modify
                (tfsdk.mkModifyAttributePlanRequest config state plan)
                (tfsdk.mkModifyAttributePlanResponse plan false []) in
            if diag.HasError (tfsdk.resp_Diagnostics modifyResp)
            then (tfsdk.resp_AttributePlan modifyResp,
                  diag.Append [] (tfsdk.resp_Diagnostics modifyResp))
            else modifiers.modifyPlan [pm]
                   (tfsdk.mkModifyAttributePlanRequest config state
                      (tfsdk.resp_AttributePlan modifyResp))
                   (diag.Append [] (tfsdk.resp_Diagnostics modifyResp))).
    destruct (UseStateForUnknown_result
                (tfsdk.mkModifyAttributePlanRequest config state plan) plan)
      as [Hds Hplan].
    cbv zeta. rewrite Hds. cbn [diag.HasError existsb diag.Append].
    destruct Hplan as [->|[Hu Hnn]].
    - destruct (Hlast pm D t Hkeep Hsubst HD plan Hp) as (H1 & H2 & H3).
      split; [exact H1|]. split; [|exact H3]. intros Hn _. by apply H2.
    - rewrite modifyPlan_last. cbn [tfsdk.AttributePlan]. rewrite Hkeep by done.
      cbn [tfsdk.resp_AttributePlan]. split; [exact Hnn|].
      split; [intros _ Hk; congruence|].
      intros Hn. by rewrite (IsNull_not_unknown _ Hu) in Hn. }
  destruct x; (eexists; split; [reflexivity|]); cbn [PlanModifiers Type_];
    intros Hty.
  - apply (Hboth (modifiers.In64Default 0) (declared_default parent_dir_id) Int64Type);
      try done.
    + intros req resp.
      exact (int64_default_keeps_other (modifiers.mkInt64DefaultModifier 0) req resp).
    + intros req resp [i Hi]%type_of_Int64 Hn. rewrite Hi, IsNull_OfInt64 in Hn.
      exact (int64_default_null (modifiers.mkInt64DefaultModifier 0) req resp i Hi Hn).
  - apply (Hboth (modifiers.BoolDefault false) (declared_default delete_old_files)
             BoolType); try done.
    + intros req resp.
      exact (bool_default_keeps_other (modifiers.mkBoolDefaultModifier false) req resp).
    + intros req resp [b Hb]%type_of_Bool Hn. rewrite Hb, IsNull_OfBool in Hn.
      exact (bool_default_null (modifiers.mkBoolDefaultModifier false) req resp b Hb Hn).
  - destruct (Hlast (modifiers.StringDefault "") (declared_default unwanted_keywords)
                StringType) with (p := plan) as (H1 & H2 & H3); try done.
    + intros req resp.
      exact (string_default_keeps_other (modifiers.mkStringDefaultModifier "") req resp).
    + intros req resp [s Hs]%type_of_String Hn. rewrite Hs, IsNull_OfString in Hn.
      exact (string_default_null (modifiers.mkStringDefaultModifier "") req resp s Hs Hn).
    + split; [exact H1|]. split; [|exact H3]. intros Hn _. by apply H2.
  - destruct (Hlast (modifiers.BoolDefault false) (declared_default paused)
                BoolType) with (p := plan) as (H1 & H2 & H3); try done.
    + intros req resp.
      exact (bool_default_keeps_other (modifiers.mkBoolDefaultModifier false) req resp).
    + intros req resp [b Hb]%type_of_Bool Hn. rewrite Hb, IsNull_OfBool in Hn.
      exact (bool_default_null (modifiers.mkBoolDefaultModifier false) req resp b Hb Hn).
    + split; [exact H1|]. split; [|exact H3]. intros Hn _. by apply H2.
Qed.

(** An update that leaves parent_dir_id out of the configuration: the
    planned value is unknown, the state holds 5, and 5 is planned. *)
Lemma planned_optional_attribute_is_never_null_witness :
  (modifiers.modifyPlan [modifiers.UseStateForUnknown; modifiers.In64Default 0]
     (tfsdk.mkModifyAttributePlanRequest
        (attr.OfInt64 (types.mkInt64 false true 0))
        (attr.OfInt64 (types.mkInt64 false false 5))
        (attr.OfInt64 (types.mkInt64 true false 0))) []).1
  = attr.OfInt64 (types.mkInt64 false false 5)
  /\ attr.IsNull (attr.OfInt64 (types.mkInt64 false false 5)) = false.
Proof.
  destruct (planned_optional_attribute_is_never_null parent_dir_id
              (attr.OfInt64 (types.mkInt64 false true 0))
              (attr.OfInt64 (types.mkInt64 false false 5))
              (attr.OfInt64 (types.mkInt64 true false 0)))
    as (a & Ha & Hplanned).
  injection Ha as <-. destruct (Hplanned eq_refl) as (Hnn & _ & _).
  split; [reflexivity|exact Hnn].
Defined.

(* ===================================================================== *)
(** * The form that Create submits *)
(* ===================================================================== *)

Lemma append_assoc (a b c : string) : (a ++ b) ++ c = a ++ b ++ c.
Proof.
  induction a as [|x a IH]; [reflexivity|].
  change (String x ((a ++ b) ++ c) = String x (a ++ b ++ c)). by rewrite IH.
Qed.

Lemma append_empty_inv (a b : string) : a ++ b = "" -> a = "".
Proof. by destruct a. Qed.

Lemma count_char_append c (a b : string) :
  count_char c (a ++ b) = (count_char c a + count_char c b)%nat.
Proof.
  induction a as [|x a IH]; [reflexivity|].
  change (((if Ascii.eqb x c then 1 else 0) + count_char c (a ++ b))%nat
          = ((if Ascii.eqb x c then 1 else 0) + count_char c a + count_char c b)%nat).
  rewrite IH. lia.
Qed.

Lemma all_chars_append P (a b : string) :
  all_chars P (a ++ b) = all_chars P a && all_chars P b.
Proof.
  induction a as [|x a IH]; [reflexivity|].
  change (P x && all_chars P (a ++ b) = P x && all_chars P a && all_chars P b).
  rewrite IH. by rewrite andb_assoc.
Qed.

Lemma count_char_excluded P c s :
  P c = false -> all_chars P s = true -> count_char c s = 0%nat.
Proof.
  intros Hc. induction s as [|x s IH]; simpl; [done|].
  intros [Hx Hs]%andb_true_iff. rewrite (IH Hs).
  destruct (Ascii.eqb_spec x c) as [->|]; [congruence|done].
Qed.

(** ** Escaping *)

Lemma QueryEscape_cons c s :
  url.QueryEscape (String c s) = url.QueryEscape (String c "") ++ url.QueryEscape s.
Proof.
  cbn [url.QueryEscape]. destruct (N_of_ascii c =? 32)%N; [reflexivity|].
  destruct (url.shouldEscape c); reflexivity.
Qed.

Lemma QueryEscape_char_safe c : all_chars query_safe (url.QueryEscape (String c "")) = true.
Proof. destruct c as [[] [] [] [] [] [] [] []]; vm_compute; reflexivity. Qed.

Lemma QueryEscape_safe (s : string) : all_chars query_safe (url.QueryEscape s) = true.
Proof.
  induction s as [|c s IH]; [done|].
  rewrite QueryEscape_cons, all_chars_append, QueryEscape_char_safe, IH. done.
Qed.

(** X16. [url.QueryEscape] produces nothing but letters, digits, the marks
    [-], [_], [.], [~], and [+] and [%]: no ampersand, no equals sign, no
    space, whatever the string it is given. *)
Theorem QueryEscape_is_query_safe (s : string) :
  all_chars query_safe (url.QueryEscape s) = true
  /\ count_char "&" (url.QueryEscape s) = 0%nat
  /\ count_char "=" (url.QueryEscape s) = 0%nat
  /\ count_char " " (url.QueryEscape s) = 0%nat.
Proof.
  split; [apply QueryEscape_safe|].
  repeat split; apply (count_char_excluded query_safe); try done; apply QueryEscape_safe.
Qed.

(** A string of letters, digits and marks is its own escape. *)
Lemma QueryEscape_unreserved s :
  all_chars (fun c => negb (url.shouldEscape c)) s = true -> url.QueryEscape s = s.
Proof.
  induction s as [|c s IH]; simpl; [done|].
  intros [Hc Hs]%andb_true_iff. rewrite (IH Hs).
  apply negb_true_iff in Hc. rewrite Hc.
  destruct (N.eqb_spec (N_of_ascii c) 32) as [H32|]; [|done].
  apply (f_equal ascii_of_N) in H32. rewrite ascii_N_embedding in H32. by subst c.
Qed.

Lemma uint_unreserved d :
  all_chars (fun c => negb (url.shouldEscape c)) (NilEmpty.string_of_uint d) = true.
Proof. induction d; simpl; done. Qed.

(** A decimal number and a boolean go into the form as they are. *)
Lemma QueryEscape_FormatInt10 n :
  url.QueryEscape (strconv.FormatInt10 n) = strconv.FormatInt10 n.
Proof.
  apply QueryEscape_unreserved. unfold strconv.FormatInt10.
  destruct (Z.to_int n) as [d|d]; simpl.
  - destruct d; try apply uint_unreserved; done.
  - destruct d; try apply uint_unreserved; done.
Qed.

Lemma QueryEscape_Sprintf_t b : url.QueryEscape (fmt.Sprintf_t b) = fmt.Sprintf_t b.
Proof. by destruct b. Qed.

(** ** Encoding *)

Lemma length_zero (s : string) : String.length s = 0%nat <-> s = "".
Proof. by destruct s. Qed.

Lemma form_pair_not_empty a key value : String.length (a ++ form_pair key value) <> 0%nat.
Proof.
  rewrite length_zero. unfold form_pair.
  assert (forall x y, x ++ String "=" y <> "") as Hne
    by (intros x y; destruct x; discriminate).
  rewrite <- (append_assoc a).
  exact (Hne (a ++ url.QueryEscape key) (url.QueryEscape value)).
Qed.

Lemma write_pairs (v : url.Values) (ks : list string) (buf : string) :
  (forall k, k ∈ ks -> v !! k = Some [single_value v k]) ->
  fold_left (fun buf k => url.write_values (url.QueryEscape k) (default [] (v !! k)) buf)
    ks buf
  = match ks with
    | [] => buf
    | _ => (if (String.length buf =? 0)%nat then "" else buf ++ "&")
           ++ String.concat "&" (map (fun k => form_pair k (single_value v k)) ks)
    end.
Proof.
  revert buf. induction ks as [|k ks IH]; intros buf Hks; [reflexivity|].
  cbn [fold_left]. rewrite (Hks k) by apply list_elem_of_here.
  change (url.write_values (url.QueryEscape k) (default [] (Some [single_value v k])) buf)
    with ((if (String.length buf =? 0)%nat then buf else buf ++ "&")
          ++ form_pair k (single_value v k)).
  rewrite IH by (intros k' Hk'; apply Hks; by apply list_elem_of_further).
  assert ((if (String.length buf =? 0)%nat then buf else buf ++ "&")
          = (if (String.length buf =? 0)%nat then "" else buf ++ "&")) as ->.
  { destruct buf; reflexivity. }
  destruct ks as [|k2 ks]; [reflexivity|].
  set (pre := if (String.length buf =? 0)%nat then "" else buf ++ "&").
  destruct (Nat.eqb_spec (String.length (pre ++ form_pair k (single_value v k))) 0)
    as [H0|_]; [by apply form_pair_not_empty in H0|].
  cbn [map String.concat]. by rewrite !append_assoc.
Qed.

Lemma Encode_singletons (v : url.Values) :
  (forall k, k ∈ url.sorted_keys v -> v !! k = Some [single_value v k]) ->
  url.Encode v
  = String.concat "&" (map (fun k => form_pair k (single_value v k)) (url.sorted_keys v)).
Proof.
  intros Hks. unfold url.Encode. rewrite (write_pairs v _ "" Hks).
  by destruct (url.sorted_keys v).
Qed.

Lemma sorted_keys_payload data :
  url.sorted_keys (Create_payload data)
  = ["delete_old_files"; "dont_process_whole_feed"; "keyword"; "parent_dir_id"; "paused";
     "rss_source_url"; "title"; "unwanted_keywords"].
Proof. destruct data as [[] [] [] [] [] [] [] []]. vm_compute. reflexivity. Qed.

(** X17. The body of the request that Create sends is the eight fields of
    the feed in the order of their keys, joined by ampersands: booleans and
    the folder number as they are, the four strings escaped.  Whatever the
    strings hold, the body has seven ampersands and eight equals signs: no
    value can add a field to the form or cut one short. *)
Theorem Create_body_is_eight_escaped_fields c data :
  let body := http.Body (sent_by_Create c data) in
  body
  = String.concat "&"
      ["delete_old_files=" ++ fmt.Sprintf_t (types.Bool_Value (DeleteOldFiles data));
       "dont_process_whole_feed=false";
       "keyword=" ++ url.QueryEscape (types.String_Value (Keyword data));
       "parent_dir_id=" ++ strconv.FormatInt10 (types.Int64_Value (ParentDirID data));
       "paused=" ++ fmt.Sprintf_t (types.Bool_Value (Paused data));
       "rss_source_url=" ++ url.QueryEscape (types.String_Value (RssSourceURL data));
       "title=" ++ url.QueryEscape (types.String_Value (Title data));
       "unwanted_keywords=" ++ url.QueryEscape (types.String_Value (UnwantedKeywords data))]
  /\ count_char "&" body = 7%nat
  /\ count_char "=" body = 8%nat
  /\ count_char " " body = 0%nat.
Proof.
  intros body. subst body. cbn [sent_by_Create http.with_Header http.Body putio.request_for].
  assert (forall k x, Create_payload data !! k = Some [x] ->
                      single_value (Create_payload data) k = x) as Hsingle.
  { intros k x Hk. unfold single_value. by rewrite Hk. }
  assert (Create_payload data !! "delete_old_files"
          = Some [fmt.Sprintf_t (types.Bool_Value (DeleteOldFiles data))]) as H1
    by (unfold Create_payload, url.Set_; by simplify_map_eq).
  assert (Create_payload data !! "dont_process_whole_feed" = Some ["false"]) as H2
    by (unfold Create_payload, url.Set_; by simplify_map_eq).
  assert (Create_payload data !! "keyword" = Some [types.String_Value (Keyword data)]) as H3
    by (unfold Create_payload, url.Set_; by simplify_map_eq).
  assert (Create_payload data !! "parent_dir_id"
          = Some [strconv.FormatInt10 (types.Int64_Value (ParentDirID data))]) as H4
    by (unfold Create_payload, url.Set_; by simplify_map_eq).
  assert (Create_payload data !! "paused"
          = Some [fmt.Sprintf_t (types.Bool_Value (Paused data))]) as H5
    by (unfold Create_payload, url.Set_; by simplify_map_eq).
  assert (Create_payload data !! "rss_source_url"
          = Some [types.String_Value (RssSourceURL data)]) as H6
    by (unfold Create_payload, url.Set_; by simplify_map_eq).
  assert (Create_payload data !! "title" = Some [types.String_Value (Title data)]) as H7
    by (unfold Create_payload, url.Set_; by simplify_map_eq).
  assert (Create_payload data !! "unwanted_keywords"
          = Some [types.String_Value (UnwantedKeywords data)]) as H8
    by (unfold Create_payload, url.Set_; by simplify_map_eq).
  assert (url.Encode (Create_payload data)
          = String.concat "&"
              ["delete_old_files=" ++ fmt.Sprintf_t (types.Bool_Value (DeleteOldFiles data));
               "dont_process_whole_feed=false";
               "keyword=" ++ url.QueryEscape (types.String_Value (Keyword data));
               "parent_dir_id="
               ++ strconv.FormatInt10 (types.Int64_Value (ParentDirID data));
               "paused=" ++ fmt.Sprintf_t (types.Bool_Value (Paused data));
               "rss_source_url=" ++ url.QueryEscape (types.String_Value (RssSourceURL data));
               "title=" ++ url.QueryEscape (types.String_Value (Title data));
               "unwanted_keywords="
               ++ url.QueryEscape (types.String_Value (UnwantedKeywords data))]) as Hbody.
  { rewrite Encode_singletons; rewrite sorted_keys_payload.
    - cbn [map]. unfold form_pair.
      rewrite (Hsingle _ _ H1), (Hsingle _ _ H2), (Hsingle _ _ H3), (Hsingle _ _ H4),
        (Hsingle _ _ H5), (Hsingle _ _ H6), (Hsingle _ _ H7), (Hsingle _ _ H8).
      rewrite !QueryEscape_Sprintf_t, QueryEscape_FormatInt10. reflexivity.
    - intros k Hk.
      repeat (apply elem_of_cons in Hk as [->|Hk];
              [first [ by rewrite (Hsingle _ _ H1) | by rewrite (Hsingle _ _ H2)
                     | by rewrite (Hsingle _ _ H3) | by rewrite (Hsingle _ _ H4)
                     | by rewrite (Hsingle _ _ H5) | by rewrite (Hsingle _ _ H6)
                     | by rewrite (Hsingle _ _ H7) | by rewrite (Hsingle _ _ H8) ]|]).
      by apply elem_of_nil in Hk. }
  split; [exact Hbody|]. rewrite Hbody. clear.
  assert (forall ch s, query_safe ch = false -> count_char ch (url.QueryEscape s) = 0%nat)
    as Hq.
  { intros ch s Hch. apply (count_char_excluded query_safe); [done|].
    apply QueryEscape_safe. }
  assert (forall ch n, query_safe ch = false ->
                       count_char ch (strconv.FormatInt10 n) = 0%nat) as Hn.
  { intros ch n Hch. rewrite <- QueryEscape_FormatInt10. by apply Hq. }
  assert (forall ch b, query_safe ch = false -> count_char ch (fmt.Sprintf_t b) = 0%nat)
    as Hb.
  { intros ch b Hch. rewrite <- QueryEscape_Sprintf_t. by apply Hq. }
  cbn [String.concat]. rewrite !count_char_append.
  repeat split; rewrite !Hq, !Hn, !Hb by reflexivity; reflexivity.
Qed.

(** A title that tries to add a field: its ampersand and its equals sign
    are escaped. *)
Example Create_body_escapes_the_title :
  http.Body (sent_by_Create (answering echo_feed)
               (set_Title (types.mkString false false "a&paused=true") example_data))
  = "delete_old_files=false&dont_process_whole_feed=false&keyword=foo&parent_dir_id=0&paused=false&rss_source_url=https%3A%2F%2Fgoogle.fr&title=a%26paused%3Dtrue&unwanted_keywords=".
Proof. vm_compute. reflexivity. Qed.

(** X18. The request that Create sends declares its body: it is a POST of
    /v2/rss/create under the base URL of the client, its Content-Type is
    the one of a form, its only Content-Length is the number of bytes of
    the body, in decimal, and the headers the client gave the request are
    still there. *)
Theorem Create_request_declares_its_body c data :
  let request := sent_by_Create c data in
  Z.of_nat (String.length (http.Body request)) < 2 ^ 63 ->
  http.Method request = "POST"
  /\ http.URL request = putio.BaseURL c ++ "/v2/rss/create"
  /\ http.Header_ request !! "Content-Type" = Some ["application/x-www-form-urlencoded"]
  /\ (exists length,
        http.Header_ request !! "Content-Length" = Some [length]
        /\ decimal_value length = Some (Z.of_nat (String.length (http.Body request))))
  /\ http.Header_ request !! "Accept" = Some ["application/json"]
  /\ http.Header_ request !! "User-Agent" = Some [putio.UserAgent c].
Proof.
  intros request Hlen. subst request.
  cbn [sent_by_Create http.with_Header http.Body http.Method http.URL http.Header_
         putio.request_for] in *.
  unfold http.Header_Add, http.Header_Set.
  do 3 (split; [by simplify_map_eq|]). split; [|split; by simplify_map_eq].
  eexists. split; [by simplify_map_eq|].
  unfold strconv.Itoa. rewrite int64_in_range by lia. apply decimal_value_FormatInt10.
Qed.

Lemma Create_request_declares_its_body_witness :
  exists length,
    http.Header_ (sent_by_Create (answering echo_feed) example_data) !! "Content-Length"
    = Some [length]
    /\ decimal_value length = Some 161.
Proof.
  assert (Z.of_nat (String.length (http.Body (sent_by_Create (answering echo_feed)
                                                example_data))) < 2 ^ 63) as Hlen
    by (vm_compute; reflexivity).
  destruct (Create_request_declares_its_body (answering echo_feed) example_data Hlen)
    as (_ & _ & _ & (len & Hhdr & Hval) & _).
  exists len. split; [exact Hhdr|exact Hval].
Defined.

(* ===================================================================== *)
(** * Further properties of the provider *)
(* ===================================================================== *)

(** X19. A token in the configuration shadows the environment, and the
    other way round.  When the configured oauth_token is not null (set, or
    not yet known), Configure never looks at the environment: two
    environments give the same outcome.  When it is null, nothing of the
    configured value is used: two renderings of it give the same outcome. *)
Theorem configured_token_shadows_environment
    (String_String String_String' : types.String -> string)
    (Getenv Getenv' : string -> string) connect p req resp log :
  let oauth_token := PutIOOAuthToken (Get_providerData (Configure_Config req)).1 in
  (types.String_Null oauth_token = false ->
   provider_Configure String_String Getenv connect p req resp log
   = provider_Configure String_String Getenv' connect p req resp log)
  /\ (types.String_Null oauth_token = true ->
      provider_Configure String_String Getenv connect p req resp log
      = provider_Configure String_String' Getenv connect p req resp log).
Proof.
  intros oauth_token. subst oauth_token. unfold provider_Configure.
  destruct (Get_providerData (Configure_Config req)) as [data diags]. cbn [fst].
  split; intros ->; reflexivity.
Qed.

Lemma configured_token_shadows_environment_witness :
  provider_Configure quoted (environment "from-env") (fun _ => answering echo_feed)
    (New "test") (mkConfigureProviderRequest (Some (token_config "from-config")))
    (mkConfigureProviderResponse []) []
  = provider_Configure quoted (environment "") (fun _ => answering echo_feed)
      (New "test") (mkConfigureProviderRequest (Some (token_config "from-config")))
      (mkConfigureProviderResponse []) [].
Proof.
  destruct (configured_token_shadows_environment quoted quoted (environment "from-env")
              (environment "") (fun _ => answering echo_feed) (New "test")
              (mkConfigureProviderRequest (Some (token_config "from-config")))
              (mkConfigureProviderResponse []) []) as [Hset _].
  apply Hset. reflexivity.
Defined.

(** X20. NewResource hands back a resource on every input.  From a pointer
    to a provider it makes a resource that holds that provider, client
    included, and reports nothing, whether the provider is configured or
    not; from anything else it makes a resource around the zero provider,
    which has no client, and reports one error. *)
Theorem NewResource_hands_back_a_resource (i : tfsdk_Provider) (log : list Event) :
  exists resource diags,
    rssFeedResourceType_NewResource i log = Returned ((resource, diags), log)
    /\ match i with
       | ProviderPointer (Some p) => provider_ resource = p /\ diags = []
       | _ =>
           provider_ resource = zero_provider
           /\ client (provider_ resource) = None
           /\ diag.HasError diags = true
           /\ length diags = 1%nat
       end.
Proof.
  destruct i as [|[p|]|name]; do 2 eexists; (split; [reflexivity|]); repeat split.
Qed.

(** X21. A provider that has been configured serves the resource.  After a
    Configure that validated the token, the resource that NewResource makes
    from the provider reads through the client that was built for the
    token: the events are the building of the client, the validation, and
    the one GET of Read. *)
Theorem configured_provider_serves_the_resource
    (String_String : types.String -> string) (Getenv : string -> string)
    (connect : string -> putio.Client putioFeedData)
    p req resp data diags read data' feedData :
  Get_providerData (Configure_Config req) = (data, diags) ->
  diag.HasError (diag.Append (Configure_Diagnostics resp) diags) = false ->
  let token :=
    if types.String_Null (PutIOOAuthToken data) then Getenv "PUTIO_OAUTH_TOKEN"
    else String_String (PutIOOAuthToken data) in
  token <> "" ->
  putio.validate (connect token) = None ->
  Get (Read_State read) = (data', []) ->
  putio.request_error (connect token) "GET" ("/v2/rss/" ++ types.String_Value (ID data'))
  = None ->
  putio.round_trip (connect token) (sent_by_Read (connect token) data') = Ok feedData ->
  exists p' resp' resource,
    provider_Configure String_String Getenv connect p req resp []
    = Returned ((p', resp'), [NewClientCalled token; ValidateTokenCalled])
    /\ configured p' = true
    /\ rssFeedResourceType_NewResource (ProviderPointer (Some p'))
         [NewClientCalled token; ValidateTokenCalled]
       = Returned ((resource, []), [NewClientCalled token; ValidateTokenCalled])
    /\ rssFeedResource_Read resource read fresh_response
         [NewClientCalled token; ValidateTokenCalled]
       = Returned (mkResponse (Some (encode_data (record_of_feed (Feed feedData)))) [],
                   [NewClientCalled token; ValidateTokenCalled;
                    DoCalled (sent_by_Read (connect token) data')]).
Proof.
  intros HG Hno token Htoken Hval HG' Hreq Hok.
  do 3 eexists.
  split.
  { apply (Configure_success String_String Getenv connect p req resp [] data diags HG
             _ eq_refl token eq_refl Hno Htoken Hval). }
  split; [reflexivity|]. split; [reflexivity|].
  exact (Read_success (mkResource (mkProvider (Some (connect token)) true (version p)))
           (connect token) eq_refl fresh_response
           [NewClientCalled token; ValidateTokenCalled] data' [] read feedData
           HG' eq_refl Hreq Hok).
Qed.

Lemma configured_provider_serves_the_resource_witness :
  exists p' resp' resource,
    provider_Configure quoted (environment "secret") (fun _ => answering echo_feed)
      (New "test") (mkConfigureProviderRequest (Some tokenless_config))
      (mkConfigureProviderResponse []) []
    = Returned ((p', resp'), [NewClientCalled "secret"; ValidateTokenCalled])
    /\ configured p' = true
    /\ rssFeedResourceType_NewResource (ProviderPointer (Some p'))
         [NewClientCalled "secret"; ValidateTokenCalled]
       = Returned ((resource, []), [NewClientCalled "secret"; ValidateTokenCalled])
    /\ rssFeedResource_Read resource (mkReadResourceRequest (Some example_state))
         fresh_response [NewClientCalled "secret"; ValidateTokenCalled]
       = Returned (mkResponse (Some example_state) [],
                   [NewClientCalled "secret"; ValidateTokenCalled;
                    DoCalled (sent_by_Read (answering echo_feed) example_state_data)]).
Proof.
  assert (environment "secret" "PUTIO_OAUTH_TOKEN" <> "") as Htoken
    by (vm_compute; discriminate).
  exact (configured_provider_serves_the_resource quoted (environment "secret")
           (fun _ => answering echo_feed) (New "test")
           (mkConfigureProviderRequest (Some tokenless_config))
           (mkConfigureProviderResponse [])
           (mkProviderData (types.mkString false true "")) []
           (mkReadResourceRequest (Some example_state)) example_state_data echo_feed
           eq_refl eq_refl Htoken eq_refl eq_refl eq_refl eq_refl).
Defined.
